(** * Alerting system: alert distribution and delivery engine

    A shallow embedding of the service layer of the alerting platform
    ([app/models], [app/services/alert_service.py],
    [app/services/notification_service.py]) together with the properties
    of the target resolver, the preference state machine, the delivery
    engine and the reminder pass.

    Conventions of the embedding.
    - Python [int] is [Z]; [str] is [string]; [Optional[T]] and nullable
      columns are [option T].
    - A [datetime] is the number of microseconds since the epoch, so a
      [timedelta] is a difference of such numbers.  Every service call
      receives the reading [now] of [datetime.utcnow()] as an argument.
    - A table is the list of its rows in insertion order; [query.first()]
      is [List.find], [query.all()] is [List.filter].  Rows loaded through
      the session are the rows of the table, so assigning to an attribute
      of a loaded object is an update of that row in place.
    - The enumerations are declared twice in the sources: [app/models]
      has plain [enum.Enum] classes, which the columns are typed with and
      which are stored by member name (["TEAM"]); [app/schemas] has
      [(str, Enum)] classes of the same names, whose members are the
      strings ["team"] and so on.  A member of one class is never equal to
      a member of the other, and [DeliveryType] is not [DeliveryChannel].
      The model enumerations are the top-level inductive types, the
      schema ones are in [Schema].
    - An [Enum] column binds a member of its own class by name, lets any
      other [str] through as it is, and refuses every other value; it reads
      back member names only.  The alerts whose enumeration columns read
      back are the rows [Alert.t] of the store [DB]; a row that does not
      read back is kept aside, as written, in a [Store]. *)

From Stdlib Require Import ZArith List String Ascii Bool Lia.
From Stdlib Require Import DecimalString DecimalZ DecimalPos.
Import ListNotations.

Open Scope string_scope.
Open Scope Z_scope.

Set Implicit Arguments.

(** ** Python and SQL primitives *)

Definition datetime := Z.

(** [timedelta(hours=h)] and [timedelta(minutes=m)], in microseconds. *)
Definition timedelta_hours (h : Z) : Z := h * 3600 * 1000000.
Definition timedelta_minutes (m : Z) : Z := m * 60 * 1000000.

(** [str(n)] and [f'{n}'] for an integer. *)
Definition str (n : Z) : string := NilZero.string_of_int (Z.to_int n).

(** [sep.join(parts)]. *)
Fixpoint join (sep : string) (parts : list string) : string :=
  match parts with
  | [] => ""
  | [p] => p
  | p :: ps => p ++ sep ++ join sep ps
  end.

(** [json.dumps] of a list of integers: ["[1, 11]"]. *)
Definition json_dumps (l : list Z) : string :=
  "[" ++ join ", " (map str l) ++ "]".

Definition is_space (c : ascii) : bool :=
  (c =? " ")%char || (c =? "009")%char || (c =? "010")%char || (c =? "013")%char.

Fixpoint lstrip (s : string) : string :=
  match s with
  | String c s' => if is_space c then lstrip s' else s
  | EmptyString => EmptyString
  end.

Fixpoint string_rev (s : string) : string :=
  match s with
  | EmptyString => EmptyString
  | String c s' => string_rev s' ++ String c EmptyString
  end.

Definition strip (s : string) : string :=
  string_rev (lstrip (string_rev (lstrip s))).

Fixpoint split_on (c : ascii) (s : string) : list string :=
  match s with
  | EmptyString => [EmptyString]
  | String a s' =>
      if (a =? c)%char then EmptyString :: split_on c s'
      else match split_on c s' with
           | [] => [String a EmptyString]
           | h :: t => String a h :: t
           end
  end.

(** A JSON integer literal: the canonical decimal form, or ["-0"]. *)
Definition json_int (tok : string) : option Z :=
  match NilZero.int_of_string tok with
  | Some d =>
      let n := Z.of_int d in
      if (str n =? tok)%string || (tok =? "-0")%string then Some n else None
  | None => None
  end.

Fixpoint sequence {A : Type} (l : list (option A)) : option (list A) :=
  match l with
  | [] => Some []
  | None :: _ => None
  | Some a :: r =>
      match sequence r with Some r' => Some (a :: r') | None => None end
  end.

(** [json.loads] on the documents the services store, arrays of integers;
    [None] stands for every other document (on which the callers below
    fail). *)
Definition json_loads (s : string) : option (list Z) :=
  match strip s with
  | String "[" body =>
      match string_rev body with
      | String "]" inner_rev =>
          let inner := strip (string_rev inner_rev) in
          if (inner =? "")%string then Some []
          else sequence (map (fun tok => json_int (strip tok)) (split_on "," inner))
      | _ => None
      end
  | _ => None
  end.

(** SQL [column LIKE '%needle%'] for a needle without wildcard characters:
    the needle occurs somewhere in the column's text. *)
Fixpoint sql_like_contains (needle hay : string) : bool :=
  String.prefix needle hay ||
  match hay with
  | EmptyString => false
  | String _ hay' => sql_like_contains needle hay'
  end.

(** Truthiness of an optional list: [None] and [[]] are falsy. *)
Definition truthy_list {A : Type} (l : option (list A)) : bool :=
  match l with
  | Some (_ :: _) => true
  | _ => false
  end.

(** [x in l] on integers. *)
Definition mem (x : Z) (l : list Z) : bool := existsb (Z.eqb x) l.

(** ** Models *)

Inductive SeverityLevel := INFO | WARNING | CRITICAL.
Inductive VisibilityType := ORGANIZATION | TEAM | USER.
Inductive AlertStatus := ACTIVE | EXPIRED | ARCHIVED.
Inductive DeliveryChannel := IN_APP | EMAIL | SMS.
Inductive DeliveryStatus := PENDING | SENT | DELIVERED | FAILED | READ.

(** [DeliveryType] of [app/models/alert.py], the type of
    [Alert.delivery_type]: a class of its own, with the member names of
    [DeliveryChannel]. *)
Module DeliveryType.
Inductive t := IN_APP | EMAIL | SMS.
End DeliveryType.

(** The enumerations of [app/schemas/alert.py]. *)
Module Schema.
Inductive SeverityLevel := INFO | WARNING | CRITICAL.
Inductive DeliveryType := IN_APP | EMAIL | SMS.
Inductive VisibilityType := ORGANIZATION | TEAM | USER.
Inductive AlertStatus := ACTIVE | EXPIRED | ARCHIVED.

(** A member of a [(str, Enum)] class is the string that is its value. *)
Definition SeverityLevel_value (m : SeverityLevel) : string :=
  match m with
  | INFO => "info"
  | WARNING => "warning"
  | CRITICAL => "critical"
  end.

Definition DeliveryType_value (m : DeliveryType) : string :=
  match m with
  | IN_APP => "in_app"
  | EMAIL => "email"
  | SMS => "sms"
  end.

Definition VisibilityType_value (m : VisibilityType) : string :=
  match m with
  | ORGANIZATION => "organization"
  | TEAM => "team"
  | USER => "user"
  end.

Definition AlertStatus_value (m : AlertStatus) : string :=
  match m with
  | ACTIVE => "active"
  | EXPIRED => "expired"
  | ARCHIVED => "archived"
  end.

Definition VisibilityType_eqb (a b : VisibilityType) : bool :=
  match a, b with
  | ORGANIZATION, ORGANIZATION | TEAM, TEAM | USER, USER => true
  | _, _ => false
  end.
End Schema.

(** The text an [Enum] column stores for a member of its class, the member
    name, and the member it reads back from a stored text. *)
Definition SeverityLevel_name (m : SeverityLevel) : string :=
  match m with
  | INFO => "INFO"
  | WARNING => "WARNING"
  | CRITICAL => "CRITICAL"
  end.

Definition SeverityLevel_of_name (text : string) : option SeverityLevel :=
  if (text =? "INFO")%string then Some INFO
  else if (text =? "WARNING")%string then Some WARNING
  else if (text =? "CRITICAL")%string then Some CRITICAL
  else None.

Definition DeliveryType_name (m : DeliveryType.t) : string :=
  match m with
  | DeliveryType.IN_APP => "IN_APP"
  | DeliveryType.EMAIL => "EMAIL"
  | DeliveryType.SMS => "SMS"
  end.

Definition DeliveryType_of_name (text : string) : option DeliveryType.t :=
  if (text =? "IN_APP")%string then Some DeliveryType.IN_APP
  else if (text =? "EMAIL")%string then Some DeliveryType.EMAIL
  else if (text =? "SMS")%string then Some DeliveryType.SMS
  else None.

Definition VisibilityType_name (m : VisibilityType) : string :=
  match m with
  | ORGANIZATION => "ORGANIZATION"
  | TEAM => "TEAM"
  | USER => "USER"
  end.

Definition VisibilityType_of_name (text : string) : option VisibilityType :=
  if (text =? "ORGANIZATION")%string then Some ORGANIZATION
  else if (text =? "TEAM")%string then Some TEAM
  else if (text =? "USER")%string then Some USER
  else None.

Definition AlertStatus_name (m : AlertStatus) : string :=
  match m with
  | ACTIVE => "ACTIVE"
  | EXPIRED => "EXPIRED"
  | ARCHIVED => "ARCHIVED"
  end.

Definition AlertStatus_of_name (text : string) : option AlertStatus :=
  if (text =? "ACTIVE")%string then Some ACTIVE
  else if (text =? "EXPIRED")%string then Some EXPIRED
  else if (text =? "ARCHIVED")%string then Some ARCHIVED
  else None.

(** A Python value that is a member of an enumeration: of the class of
    [app/schemas] or of the class of [app/models]. *)
Inductive member (S M : Type) :=
| OfSchema (m : S)
| OfModel (m : M).

Arguments OfSchema {S M} m.
Arguments OfModel {S M} m.

(** Python [==] on such values.  Members of one class are equal when they
    are the same member.  Across the classes [str.__eq__] does not know
    the plain [Enum], and a plain [Enum] member is equal to itself only, so
    the comparison is false. *)
Definition member_eq {S M : Type} (eqS : S -> S -> bool) (eqM : M -> M -> bool)
    (a b : member S M) : bool :=
  match a, b with
  | OfSchema x, OfSchema y => eqS x y
  | OfModel x, OfModel y => eqM x y
  | _, _ => false
  end.

(** The text that an [Enum] column of the model class binds for such a
    value: the name of a member of the class, and a [str] as it is, which
    for a schema member is its value. *)
Definition bound_text {S M : Type} (value : S -> string) (name : M -> string)
    (a : member S M) : string :=
  match a with
  | OfSchema m => value m
  | OfModel m => name m
  end.

Definition VisibilityType_eqb (a b : VisibilityType) : bool :=
  match a, b with
  | ORGANIZATION, ORGANIZATION | TEAM, TEAM | USER, USER => true
  | _, _ => false
  end.

Definition AlertStatus_eqb (a b : AlertStatus) : bool :=
  match a, b with
  | ACTIVE, ACTIVE | EXPIRED, EXPIRED | ARCHIVED, ARCHIVED => true
  | _, _ => false
  end.

Definition DeliveryStatus_eqb (a b : DeliveryStatus) : bool :=
  match a, b with
  | PENDING, PENDING | SENT, SENT | DELIVERED, DELIVERED
  | FAILED, FAILED | READ, READ => true
  | _, _ => false
  end.

Definition DeliveryChannel_value (c : DeliveryChannel) : string :=
  match c with
  | IN_APP => "in_app"
  | EMAIL => "email"
  | SMS => "sms"
  end.

Module User.
Record t := mk {
  id : Z;
  name : string;
  email : string;
  is_admin : bool;
  team_id : option Z;
  is_active : bool
}.
End User.

Module Team.
Record t := mk {
  id : Z;
  name : string;
  is_active : bool
}.
End Team.

Module Alert.
Record t := mk {
  id : Z;
  title : string;
  message : string;
  severity : SeverityLevel;
  delivery_type : DeliveryType.t;
  visibility_type : VisibilityType;
  status : AlertStatus;
  start_time : datetime;
  expiry_time : option datetime;
  reminder_interval_hours : option Z;
  reminders_enabled : option bool;
  target_team_ids : option string;
  target_user_ids : option string;
  created_by : Z
}.

(** The [is_active] property. *)
Definition is_active (now : datetime) (self : t) : bool :=
  if negb (AlertStatus_eqb (status self) ACTIVE) then false
  else if now <? start_time self then false
  else match expiry_time self with
       | Some e => if now >? e then false else true
       | None => true
       end.
End Alert.

Module UserAlertPreference.
Record t := mk {
  id : Z;
  user_id : Z;
  alert_id : Z;
  is_read : bool;
  read_at : option datetime;
  is_snoozed : bool;
  snoozed_at : option datetime;
  snoozed_until : option datetime;
  snooze_count : Z;
  last_reminded_at : option datetime;
  reminder_count : Z;
  updated_at : option datetime
}.

(** [updated_at] is the time the code assigned to the attribute; it is
    [None] while the column holds the timestamp of the database itself,
    which [server_default] writes at the insert and [onupdate] at every
    update that does not assign the attribute. *)

(** [UserAlertPreference(user_id=..., alert_id=...)] with the column
    defaults, stored under the primary key [new_id]. *)
Definition create (new_id user alert : Z) : t :=
  {| id := new_id; user_id := user; alert_id := alert;
     is_read := false; read_at := None;
     is_snoozed := false; snoozed_at := None; snoozed_until := None;
     snooze_count := 0;
     last_reminded_at := None; reminder_count := 0;
     updated_at := None |}.

(** The snooze reset inside [should_receive_reminder]. *)
Definition reset_snooze (self : t) : t :=
  {| id := id self; user_id := user_id self; alert_id := alert_id self;
     is_read := is_read self; read_at := read_at self;
     is_snoozed := false; snoozed_at := snoozed_at self;
     snoozed_until := None;
     snooze_count := snooze_count self;
     last_reminded_at := last_reminded_at self;
     reminder_count := reminder_count self;
     updated_at := updated_at self |}.

(** [time_since_last.total_seconds() < interval_hours * 3600], with the
    elapsed time in microseconds. *)
Definition total_seconds_lt (elapsed : Z) (seconds : Z) : bool :=
  elapsed <? seconds * 1000000.

(** [getattr(self.alert, 'reminder_interval_hours', 2)]: the default 2
    applies when the preference has no alert; the column itself is
    nullable. *)
Definition interval_of (alert : option Alert.t) : option Z :=
  match alert with
  | Some a => Alert.reminder_interval_hours a
  | None => Some 2
  end.

(** The [should_receive_reminder] property.  It returns its verdict and
    the receiver, which it un-snoozes when the snooze period is over.
    [alert] is the relationship [self.alert].  The verdict is [None] when
    the property raises [TypeError], which the product
    [interval_hours * 3600] does on a null interval. *)
Definition should_receive_reminder (now : datetime) (alert : option Alert.t)
    (self : t) : option bool * t :=
  let check_read_and_interval (self : t) :=
    if is_read self then (Some false, self)
    else match last_reminded_at self with
         | Some last =>
             match interval_of alert with
             | Some interval_hours =>
                 if total_seconds_lt (now - last) (interval_hours * 3600)
                 then (Some false, self)
                 else (Some true, self)
             | None => (None, self)
             end
         | None => (Some true, self)
         end in
  if is_snoozed self then
    if match snoozed_until self with
       | Some u => now <? u
       | None => false
       end
    then (Some false, self)
    else check_read_and_interval (reset_snooze self)
  else check_read_and_interval self.

Definition mark_as_read (now : datetime) (self : t) : t :=
  {| id := id self; user_id := user_id self; alert_id := alert_id self;
     is_read := true; read_at := Some now;
     is_snoozed := is_snoozed self; snoozed_at := snoozed_at self;
     snoozed_until := snoozed_until self;
     snooze_count := snooze_count self;
     last_reminded_at := last_reminded_at self;
     reminder_count := reminder_count self;
     updated_at := Some now |}.

(** [datetime.combine(now.date(), time(23, 59, 59))]. *)
Definition end_of_day (now : datetime) : datetime :=
  (now / 86400000000) * 86400000000 + 86399 * 1000000.

Definition snooze_for_day (now : datetime) (self : t) : t :=
  {| id := id self; user_id := user_id self; alert_id := alert_id self;
     is_read := is_read self; read_at := read_at self;
     is_snoozed := true; snoozed_at := Some now;
     snoozed_until := Some (end_of_day now);
     snooze_count := snooze_count self + 1;
     last_reminded_at := last_reminded_at self;
     reminder_count := reminder_count self;
     updated_at := Some now |}.

(** The assignments of [process_reminders] after a successful send, as
    the commit stores them: the update does not assign [updated_at]. *)
Definition reminded (now : datetime) (count : Z) (self : t) : t :=
  {| id := id self; user_id := user_id self; alert_id := alert_id self;
     is_read := is_read self; read_at := read_at self;
     is_snoozed := is_snoozed self; snoozed_at := snoozed_at self;
     snoozed_until := snoozed_until self;
     snooze_count := snooze_count self;
     last_reminded_at := Some now;
     reminder_count := count;
     updated_at := None |}.
End UserAlertPreference.

Module NotificationDelivery.
Record t := mk {
  id : Z;
  alert_id : Z;
  user_id : Z;
  channel : DeliveryChannel;
  status : DeliveryStatus;
  delivery_address : option string;
  scheduled_at : datetime;
  sent_at : option datetime;
  delivered_at : option datetime;
  read_at : option datetime;
  retry_count : Z;
  max_retries : Z;
  next_retry_at : option datetime;
  error_message : option string;
  is_reminder : bool;
  reminder_sequence : option Z
}.

Definition set_status (s : DeliveryStatus) (d : t) : t :=
  mk (id d) (alert_id d) (user_id d) (channel d) s (delivery_address d)
     (scheduled_at d) (sent_at d) (delivered_at d) (read_at d)
     (retry_count d) (max_retries d) (next_retry_at d) (error_message d)
     (is_reminder d) (reminder_sequence d).

Definition set_error_message (m : string) (d : t) : t :=
  mk (id d) (alert_id d) (user_id d) (channel d) (status d)
     (delivery_address d) (scheduled_at d) (sent_at d) (delivered_at d)
     (read_at d) (retry_count d) (max_retries d) (next_retry_at d)
     (Some m) (is_reminder d) (reminder_sequence d).

Definition set_sent_at (now : datetime) (d : t) : t :=
  mk (id d) (alert_id d) (user_id d) (channel d) (status d)
     (delivery_address d) (scheduled_at d) (Some now) (delivered_at d)
     (read_at d) (retry_count d) (max_retries d) (next_retry_at d)
     (error_message d) (is_reminder d) (reminder_sequence d).

Definition set_delivered_at (now : datetime) (d : t) : t :=
  mk (id d) (alert_id d) (user_id d) (channel d) (status d)
     (delivery_address d) (scheduled_at d) (sent_at d) (Some now)
     (read_at d) (retry_count d) (max_retries d) (next_retry_at d)
     (error_message d) (is_reminder d) (reminder_sequence d).

Definition set_read_at (now : datetime) (d : t) : t :=
  mk (id d) (alert_id d) (user_id d) (channel d) (status d)
     (delivery_address d) (scheduled_at d) (sent_at d) (delivered_at d)
     (Some now) (retry_count d) (max_retries d) (next_retry_at d)
     (error_message d) (is_reminder d) (reminder_sequence d).

Definition set_retry (count : Z) (next : datetime) (d : t) : t :=
  mk (id d) (alert_id d) (user_id d) (channel d) (status d)
     (delivery_address d) (scheduled_at d) (sent_at d) (delivered_at d)
     (read_at d) count (max_retries d) (Some next)
     (error_message d) (is_reminder d) (reminder_sequence d).
End NotificationDelivery.

(** ** The record store and the effects of a service call *)

Record DB := mkDB {
  users : list User.t;
  teams : list Team.t;
  alerts : list Alert.t;
  preferences : list UserAlertPreference.t;
  deliveries : list NotificationDelivery.t
}.

Definition with_alerts (l : list Alert.t) (db : DB) : DB :=
  mkDB (users db) (teams db) l (preferences db) (deliveries db).

Definition with_preferences (l : list UserAlertPreference.t) (db : DB) : DB :=
  mkDB (users db) (teams db) (alerts db) l (deliveries db).

Definition with_deliveries (l : list NotificationDelivery.t) (db : DB) : DB :=
  mkDB (users db) (teams db) (alerts db) (preferences db) l.

(** The primary key given to the next inserted row. *)
Definition next_id (ids : list Z) : Z := 1 + fold_right Z.max 0 ids.

(** Assigning to attributes of the first row selected by [p]. *)
Fixpoint update_first {A : Type} (p : A -> bool) (f : A -> A) (l : list A)
    : list A :=
  match l with
  | [] => []
  | x :: r => if p x then f x :: r else x :: update_first p f r
  end.

(** The table without the first row selected by [p]: [session.delete(row)],
    and a row that is set aside. *)
Fixpoint remove_first {A : Type} (p : A -> bool) (l : list A) : list A :=
  match l with
  | [] => []
  | x :: r => if p x then r else x :: remove_first p r
  end.

Inductive exn :=
| ValueError (msg : string)
| TypeError (msg : string)
| DbError (msg : string)
| LookupError (msg : string)
| StatementError (msg : string).

Inductive Res (A : Type) :=
| Ok (a : A)
| Raise (e : exn).

Arguments Ok {A} a.
Arguments Raise {A} e.

(** A service call runs on the store and either returns or raises; in both
    cases it leaves a store behind. *)
Definition M (A : Type) : Type := DB -> Res A * DB.

Definition ret {A : Type} (a : A) : M A := fun db => (Ok a, db).

Definition raise {A : Type} (e : exn) : M A := fun db => (Raise e, db).

Definition bind {A B : Type} (c : M A) (k : A -> M B) : M B :=
  fun db =>
    match c db with
    | (Ok a, db') => k a db'
    | (Raise e, db') => (Raise e, db')
    end.

Definition get : M DB := fun db => (Ok db, db).

Definition modify (f : DB -> DB) : M unit := fun db => (Ok tt, f db).

(** Lifting of a computation that only reads the store. *)
Definition read {A : Type} (q : DB -> Res A) : M A := fun db => (q db, db).

Notation "x <- c ;; k" := (bind c (fun x => k))
  (at level 61, c at next level, right associativity).
Notation "c ;;; k" := (bind c (fun _ => k))
  (at level 61, right associativity).

(** A [for] loop whose body may raise. *)
Fixpoint for_each {A : Type} (body : A -> M unit) (l : list A) : M unit :=
  match l with
  | [] => ret tt
  | x :: r => body x ;;; for_each body r
  end.

(** ** Directory look-ups *)

Definition get_user (user_id : Z) (db : DB) : option User.t :=
  find (fun u => User.id u =? user_id) (users db).

Definition get_team (team_id : Z) (db : DB) : option Team.t :=
  find (fun t => Team.id t =? team_id) (teams db).

(** [BaseService.get_by_id] on the alerts. *)
Definition get_by_id (alert_id : Z) (db : DB) : option Alert.t :=
  find (fun a => Alert.id a =? alert_id) (alerts db).

Definition is_some {A : Type} (o : option A) : bool :=
  match o with Some _ => true | None => false end.

(** ** Request schemas *)

Module AlertCreate.
Record t := mk {
  title : string;
  message : string;
  severity : Schema.SeverityLevel;
  delivery_type : Schema.DeliveryType;
  visibility_type : Schema.VisibilityType;
  reminder_interval_hours : Z;
  reminders_enabled : bool;
  start_time : option datetime;
  expiry_time : option datetime;
  target_team_ids : option (list Z);
  target_user_ids : option (list Z)
}.
End AlertCreate.

(** A field of an update request: absent from the request, or present with
    a value or with [null].  [model_dump(exclude_unset=True)] keeps the
    present ones. *)
Inductive field (A : Type) :=
| Unset
| SetTo (v : option A).

Arguments Unset {A}.
Arguments SetTo {A} v.

(** Reading the attribute of the request object: an absent field reads as
    its default [None]. *)
Definition value {A : Type} (f : field A) : option A :=
  match f with
  | Unset => None
  | SetTo v => v
  end.

Definition is_set {A : Type} (f : field A) : bool :=
  match f with
  | Unset => false
  | SetTo _ => true
  end.

Module AlertUpdate.
Record t := mk {
  title : field string;
  message : field string;
  severity : field Schema.SeverityLevel;
  delivery_type : field Schema.DeliveryType;
  visibility_type : field Schema.VisibilityType;
  status : field Schema.AlertStatus;
  start_time : field datetime;
  expiry_time : field datetime;
  reminder_interval_hours : field Z;
  reminders_enabled : field bool;
  target_team_ids : field (list Z);
  target_user_ids : field (list Z)
}.
End AlertUpdate.

(** ** AlertService *)

Definition preference_for (alert_id user_id : Z) (p : UserAlertPreference.t)
    : bool :=
  (UserAlertPreference.alert_id p =? alert_id) &&
  (UserAlertPreference.user_id p =? user_id).

(** The first missing identifier of a [for] loop that raises on it. *)
Definition first_missing (exists_ : Z -> bool) (ids : list Z) : option Z :=
  find (fun i => negb (exists_ i)) ids.

(** [alert_data.visibility_type == VisibilityType.m]: the attribute of the
    request is a member of the schema class, or [None]; [VisibilityType] is
    the class that the service imports from [app/models]. *)
Definition visibility_is (visibility_type : option Schema.VisibilityType)
    (m : VisibilityType) : bool :=
  match visibility_type with
  | Some v =>
      member_eq Schema.VisibilityType_eqb VisibilityType_eqb
        (OfSchema v) (OfModel m)
  | None => false
  end.

(** [_validate_alert_targeting], on the three attributes it reads. *)
Definition _validate_alert_targeting
    (visibility_type : option Schema.VisibilityType)
    (target_team_ids target_user_ids : option (list Z)) : M unit :=
  db <- get ;;
  if visibility_is visibility_type TEAM then
    if negb (truthy_list target_team_ids) then
      raise (ValueError "Team IDs required for team-specific alerts")
    else
      match first_missing (fun i => is_some (get_team i db))
              (match target_team_ids with Some l => l | None => [] end) with
      | Some team_id =>
          raise (ValueError ("Team with ID " ++ str team_id ++ " does not exist"))
      | None => ret tt
      end
  else if visibility_is visibility_type USER then
    if negb (truthy_list target_user_ids) then
      raise (ValueError "User IDs required for user-specific alerts")
    else
      match first_missing (fun i => is_some (get_user i db))
              (match target_user_ids with Some l => l | None => [] end) with
      | Some user_id =>
          raise (ValueError ("User with ID " ++ str user_id ++ " does not exist"))
      | None => ret tt
      end
  else ret tt.

(** [json.loads(column) if column else []]. *)
Definition load_ids (column : option string) : Res (list Z) :=
  match column with
  | None | Some EmptyString => Ok []
  | Some s =>
      match json_loads s with
      | Some l => Ok l
      | None => Raise (ValueError "JSONDecodeError")
      end
  end.

(** SQL [column IN (ids)] on a nullable column. *)
Definition sql_in (column : option Z) (ids : list Z) : bool :=
  match column with
  | Some v => mem v ids
  | None => false
  end.

Definition _get_target_users_for_alert (alert : Alert.t) (db : DB)
    : Res (list User.t) :=
  match Alert.visibility_type alert with
  | ORGANIZATION => Ok (filter User.is_active (users db))
  | TEAM =>
      match load_ids (Alert.target_team_ids alert) with
      | Ok team_ids =>
          Ok (filter (fun u => User.is_active u && sql_in (User.team_id u) team_ids)
                (users db))
      | Raise e => Raise e
      end
  | USER =>
      match load_ids (Alert.target_user_ids alert) with
      | Ok user_ids =>
          Ok (filter (fun u => User.is_active u && mem (User.id u) user_ids)
                (users db))
      | Raise e => Raise e
      end
  end.

(** The rows added by the loop of [_create_user_preferences_for_alert]: one
    per target user without a stored preference.  The session does not
    autoflush, so the look-up sees the rows [existing] stored before the
    loop; the added rows get consecutive keys at the commit. *)
Fixpoint new_preferences (next : Z) (alert_id : Z)
    (existing : list UserAlertPreference.t) (target_users : list User.t)
    : list UserAlertPreference.t :=
  match target_users with
  | [] => []
  | user :: rest =>
      if existsb (preference_for alert_id (User.id user)) existing
      then new_preferences next alert_id existing rest
      else UserAlertPreference.create next (User.id user) alert_id
             :: new_preferences (next + 1) alert_id existing rest
  end.

Definition _create_user_preferences_for_alert (alert : Alert.t) : M unit :=
  target_users <- read (_get_target_users_for_alert alert) ;;
  modify (fun db =>
    with_preferences
      (preferences db ++
       new_preferences (next_id (map UserAlertPreference.id (preferences db)))
         (Alert.id alert) (preferences db) target_users)%list
      db).

Definition _update_user_preferences_for_alert (alert : Alert.t) : M unit :=
  modify (fun db =>
    with_preferences
      (filter (fun p => negb (UserAlertPreference.alert_id p =? Alert.id alert))
         (preferences db))
      db) ;;;
  _create_user_preferences_for_alert alert.

(** *** Alert rows that do not read back *)

(** A row of the alerts table as an INSERT or UPDATE statement wrote it,
    with the text of its four enumeration columns. *)
Module RawAlert.
Record t := mk {
  id : Z;
  title : string;
  message : string;
  severity : string;
  delivery_type : string;
  visibility_type : string;
  status : string;
  start_time : datetime;
  expiry_time : option datetime;
  reminder_interval_hours : option Z;
  reminders_enabled : option bool;
  target_team_ids : option string;
  target_user_ids : option string;
  created_by : Z
}.
End RawAlert.

(** The message of the [LookupError] of an [Enum] column. *)
Definition not_among (text enum_name possible : string) : string :=
  "'" ++ text ++ "' is not among the defined enum values. Enum name: "
  ++ enum_name ++ ". Possible values: " ++ possible.

(** [db.refresh(alert)]: the row is read back, column by column in the
    order of the declaration; a text that is not a member name raises
    [LookupError]. *)
Definition refresh (row : RawAlert.t) : Res Alert.t :=
  match SeverityLevel_of_name (RawAlert.severity row) with
  | None =>
      Raise (LookupError (not_among (RawAlert.severity row) "severitylevel"
                            "INFO, WARNING, CRITICAL"))
  | Some severity =>
      match DeliveryType_of_name (RawAlert.delivery_type row) with
      | None =>
          Raise (LookupError (not_among (RawAlert.delivery_type row)
                                "deliverytype" "IN_APP, EMAIL, SMS"))
      | Some delivery_type =>
          match VisibilityType_of_name (RawAlert.visibility_type row) with
          | None =>
              Raise (LookupError (not_among (RawAlert.visibility_type row)
                                    "visibilitytype"
                                    "ORGANIZATION, TEAM, USER"))
          | Some visibility_type =>
              match AlertStatus_of_name (RawAlert.status row) with
              | None =>
                  Raise (LookupError (not_among (RawAlert.status row)
                                        "alertstatus"
                                        "ACTIVE, EXPIRED, ARCHIVED"))
              | Some status =>
                  Ok {| Alert.id := RawAlert.id row;
                        Alert.title := RawAlert.title row;
                        Alert.message := RawAlert.message row;
                        Alert.severity := severity;
                        Alert.delivery_type := delivery_type;
                        Alert.visibility_type := visibility_type;
                        Alert.status := status;
                        Alert.start_time := RawAlert.start_time row;
                        Alert.expiry_time := RawAlert.expiry_time row;
                        Alert.reminder_interval_hours :=
                          RawAlert.reminder_interval_hours row;
                        Alert.reminders_enabled :=
                          RawAlert.reminders_enabled row;
                        Alert.target_team_ids := RawAlert.target_team_ids row;
                        Alert.target_user_ids := RawAlert.target_user_ids row;
                        Alert.created_by := RawAlert.created_by row |}
              end
          end
      end
  end.

(** The whole store: the typed store [readable], whose alerts read back,
    and the alert rows that do not, in the order in which they were
    written. *)
Record Store := mkStore {
  readable : DB;
  unreadable : list RawAlert.t
}.

(** A store all of whose alerts read back. *)
Definition typed (db : DB) : Store := mkStore db [].

(** A service call that loads no alert row of [unreadable] runs on the
    typed part. *)
Definition lift {A : Type} (c : M A) (s : Store) : Res A * Store :=
  let '(r, db) := c (readable s) in (r, mkStore db (unreadable s)).

(** The primary key given to the next inserted alert. *)
Definition next_alert_id (s : Store) : Z :=
  next_id (map Alert.id (alerts (readable s)) ++
           map RawAlert.id (unreadable s))%list.

(** The table after the commit of a new row. *)
Definition commit_insert (row : RawAlert.t) (s : Store) : Store :=
  match refresh row with
  | Ok alert =>
      mkStore (with_alerts (alerts (readable s) ++ [alert])%list (readable s))
        (unreadable s)
  | Raise _ => mkStore (readable s) (unreadable s ++ [row])%list
  end.

(** The table after the commit of [row] in the place of the readable row
    with the key [alert_id]. *)
Definition commit_update (alert_id : Z) (row : RawAlert.t) (s : Store)
    : Store :=
  match refresh row with
  | Ok alert =>
      mkStore
        (with_alerts
           (update_first (fun a => Alert.id a =? alert_id) (fun _ => alert)
              (alerts (readable s)))
           (readable s))
        (unreadable s)
  | Raise _ =>
      mkStore
        (with_alerts
           (remove_first (fun a => Alert.id a =? alert_id)
              (alerts (readable s)))
           (readable s))
        (unreadable s ++ [row])%list
  end.

(** [get_by_id] on the whole table: the query loads the row with the key,
    and raises on a row that does not read back. *)
Definition load_by_id (alert_id : Z) (s : Store) : Res (option Alert.t) :=
  match find (fun r => RawAlert.id r =? alert_id) (unreadable s) with
  | Some row =>
      match refresh row with
      | Ok alert => Ok (Some alert)
      | Raise e => Raise e
      end
  | None => Ok (get_by_id alert_id (readable s))
  end.

(** *** create_alert and update_alert *)

(** The value bound to a target column by [create_alert]: a non-empty list
    is serialised, [None] is stored as NULL, and an empty list is left in
    the dictionary as a list, which the store cannot bind to a text
    column. *)
Definition create_target_column (ids : option (list Z)) : option (option string) :=
  match ids with
  | None => Some None
  | Some [] => None
  | Some l => Some (Some (json_dumps l))
  end.

(** The row of the new [Alert] object as the insert writes it.
    [model_dump()] keeps the enumeration members of the request, which are
    members of the schema classes; [status] is not in the request and gets
    the column default, a member of the model class. *)
Definition new_alert_row (new_id : Z) (now : datetime)
    (alert_data : AlertCreate.t) (created_by : Z)
    (team_column user_column : option string) : RawAlert.t :=
  {| RawAlert.id := new_id;
     RawAlert.title := AlertCreate.title alert_data;
     RawAlert.message := AlertCreate.message alert_data;
     RawAlert.severity :=
       bound_text Schema.SeverityLevel_value SeverityLevel_name
         (OfSchema (AlertCreate.severity alert_data));
     RawAlert.delivery_type :=
       bound_text Schema.DeliveryType_value DeliveryType_name
         (OfSchema (AlertCreate.delivery_type alert_data));
     RawAlert.visibility_type :=
       bound_text Schema.VisibilityType_value VisibilityType_name
         (OfSchema (AlertCreate.visibility_type alert_data));
     RawAlert.status :=
       bound_text Schema.AlertStatus_value AlertStatus_name (OfModel ACTIVE);
     RawAlert.start_time :=
       match AlertCreate.start_time alert_data with
       | Some t => t
       | None => now
       end;
     RawAlert.expiry_time := AlertCreate.expiry_time alert_data;
     RawAlert.reminder_interval_hours :=
       Some (AlertCreate.reminder_interval_hours alert_data);
     RawAlert.reminders_enabled :=
       Some (AlertCreate.reminders_enabled alert_data);
     RawAlert.target_team_ids := team_column;
     RawAlert.target_user_ids := user_column;
     RawAlert.created_by := created_by |}.

Definition create_alert (now : datetime) (alert_data : AlertCreate.t)
    (created_by : Z) (s : Store) : Res Alert.t * Store :=
  match lift (_validate_alert_targeting
                (Some (AlertCreate.visibility_type alert_data))
                (AlertCreate.target_team_ids alert_data)
                (AlertCreate.target_user_ids alert_data)) s with
  | (Raise e, s) => (Raise e, s)
  | (Ok _, s) =>
      match create_target_column (AlertCreate.target_team_ids alert_data),
            create_target_column (AlertCreate.target_user_ids alert_data) with
      | Some team_column, Some user_column =>
          let row :=
            new_alert_row (next_alert_id s) now alert_data created_by
              team_column user_column in
          let s := commit_insert row s in
          match refresh row with
          | Raise e => (Raise e, s)
          | Ok db_alert =>
              lift (_create_user_preferences_for_alert db_alert ;;;
                    ret db_alert) s
          end
      | _, _ => (Raise (DbError "unsupported type for a text column"), s)
      end
  end.

(** The new value of a NOT NULL column; [None] when the request sets it to
    NULL, which the commit rejects. *)
Definition required {A : Type} (f : field A) (old : A) : option A :=
  match f with
  | Unset => Some old
  | SetTo (Some v) => Some v
  | SetTo None => None
  end.

(** The new text of a NOT NULL enumeration column: the request holds a
    member of the schema class, the loaded row a member of the model
    class. *)
Definition required_text {S M : Type} (value : S -> string)
    (name : M -> string) (f : field S) (old : M) : option string :=
  match f with
  | Unset => Some (bound_text value name (OfModel old))
  | SetTo (Some v) => Some (bound_text value name (OfSchema v))
  | SetTo None => None
  end.

Definition nullable {A : Type} (f : field A) (old : option A) : option A :=
  match f with
  | Unset => old
  | SetTo v => v
  end.

(** The target column after [update_alert]: a present list is serialised,
    also the empty one. *)
Definition update_target_column (f : field (list Z)) (old : option string)
    : option string :=
  match f with
  | Unset => old
  | SetTo (Some l) => Some (json_dumps l)
  | SetTo None => None
  end.

(** The row that the [setattr] loop of [update_alert] and the commit
    write; [None] when the commit fails on a NOT NULL column. *)
Definition apply_update (u : AlertUpdate.t) (alert : Alert.t)
    : option RawAlert.t :=
  match required (AlertUpdate.title u) (Alert.title alert),
        required (AlertUpdate.message u) (Alert.message alert),
        required_text Schema.SeverityLevel_value SeverityLevel_name
          (AlertUpdate.severity u) (Alert.severity alert),
        required_text Schema.DeliveryType_value DeliveryType_name
          (AlertUpdate.delivery_type u) (Alert.delivery_type alert),
        required_text Schema.VisibilityType_value VisibilityType_name
          (AlertUpdate.visibility_type u) (Alert.visibility_type alert),
        required_text Schema.AlertStatus_value AlertStatus_name
          (AlertUpdate.status u) (Alert.status alert),
        required (AlertUpdate.start_time u) (Alert.start_time alert) with
  | Some title, Some message, Some severity, Some delivery_type,
    Some visibility_type, Some status, Some start_time =>
      Some {| RawAlert.id := Alert.id alert;
              RawAlert.title := title;
              RawAlert.message := message;
              RawAlert.severity := severity;
              RawAlert.delivery_type := delivery_type;
              RawAlert.visibility_type := visibility_type;
              RawAlert.status := status;
              RawAlert.start_time := start_time;
              RawAlert.expiry_time :=
                nullable (AlertUpdate.expiry_time u) (Alert.expiry_time alert);
              RawAlert.reminder_interval_hours :=
                nullable (AlertUpdate.reminder_interval_hours u)
                  (Alert.reminder_interval_hours alert);
              RawAlert.reminders_enabled :=
                nullable (AlertUpdate.reminders_enabled u)
                  (Alert.reminders_enabled alert);
              RawAlert.target_team_ids :=
                update_target_column (AlertUpdate.target_team_ids u)
                  (Alert.target_team_ids alert);
              RawAlert.target_user_ids :=
                update_target_column (AlertUpdate.target_user_ids u)
                  (Alert.target_user_ids alert);
              RawAlert.created_by := Alert.created_by alert |}
  | _, _, _, _, _, _, _ => None
  end.

Definition targeting_changed (u : AlertUpdate.t) : bool :=
  is_set (AlertUpdate.visibility_type u) ||
  is_set (AlertUpdate.target_team_ids u) ||
  is_set (AlertUpdate.target_user_ids u).

(** The request sets one of the four enumeration fields. *)
Definition sets_enumeration (u : AlertUpdate.t) : bool :=
  is_set (AlertUpdate.severity u) || is_set (AlertUpdate.delivery_type u) ||
  is_set (AlertUpdate.visibility_type u) || is_set (AlertUpdate.status u).

Definition update_alert (alert_id : Z) (alert_data : AlertUpdate.t)
    (s : Store) : Res (option Alert.t) * Store :=
  match load_by_id alert_id s with
  | Raise e => (Raise e, s)
  | Ok None => (Ok None, s)
  | Ok (Some alert) =>
      match lift (if is_some (value (AlertUpdate.visibility_type alert_data))
                  then
                    _validate_alert_targeting
                      (value (AlertUpdate.visibility_type alert_data))
                      (value (AlertUpdate.target_team_ids alert_data))
                      (value (AlertUpdate.target_user_ids alert_data))
                  else ret tt) s with
      | (Raise e, s) => (Raise e, s)
      | (Ok _, s) =>
          match apply_update alert_data alert with
          | None => (Raise (DbError "NOT NULL constraint failed"), s)
          | Some row =>
              let s := commit_update alert_id row s in
              match refresh row with
              | Raise e => (Raise e, s)
              | Ok alert' =>
                  lift ((if targeting_changed alert_data then
                           _update_user_preferences_for_alert alert'
                         else ret tt) ;;;
                        ret (Some alert')) s
              end
          end
      end
  end.


(** One entry of the list returned by [get_alerts_for_user]. *)
Module AlertView.
Record t := mk {
  id : Z;
  title : string;
  message : string;
  severity : SeverityLevel;
  start_time : datetime;
  expiry_time : option datetime;
  is_active : bool;
  is_read : bool;
  is_snoozed : bool;
  snoozed_until : option datetime;
  read_at : option datetime
}.
End AlertView.

(** SQL [column LIKE '%n%'] on a nullable text column. *)
Definition sql_like_id (column : option string) (n : Z) : bool :=
  match column with
  | Some text => sql_like_contains (str n) text
  | None => false
  end.

(** Truthiness of [user.team_id]: NULL and 0 are falsy. *)
Definition truthy_id (i : option Z) : option Z :=
  match i with
  | Some 0 => None
  | Some n => Some n
  | None => None
  end.

(** The visibility filter that [get_alerts_for_user] builds for a user. *)
Definition visibility_filter (user : User.t) (user_id : Z) (alert : Alert.t)
    : bool :=
  VisibilityType_eqb (Alert.visibility_type alert) ORGANIZATION ||
  match truthy_id (User.team_id user) with
  | Some team_id =>
      VisibilityType_eqb (Alert.visibility_type alert) TEAM &&
      sql_like_id (Alert.target_team_ids alert) team_id
  | None => false
  end ||
  (VisibilityType_eqb (Alert.visibility_type alert) USER &&
   sql_like_id (Alert.target_user_ids alert) user_id).

(** The outer join of an alert with the preferences of the user: one row
    per matching preference, one row of NULLs when there is none. *)
Definition outer_join (user_id : Z) (prefs : list UserAlertPreference.t)
    (alert : Alert.t) : list (Alert.t * option UserAlertPreference.t) :=
  match filter (preference_for (Alert.id alert) user_id) prefs with
  | [] => [(alert, None)]
  | matching => map (fun p => (alert, Some p)) matching
  end.

Definition unread_row (row : Alert.t * option UserAlertPreference.t) : bool :=
  match snd row with
  | Some p => negb (UserAlertPreference.is_read p)
  | None => true
  end.

Definition format_row (now : datetime)
    (row : Alert.t * option UserAlertPreference.t) : AlertView.t :=
  let alert := fst row in
  {| AlertView.id := Alert.id alert;
     AlertView.title := Alert.title alert;
     AlertView.message := Alert.message alert;
     AlertView.severity := Alert.severity alert;
     AlertView.start_time := Alert.start_time alert;
     AlertView.expiry_time := Alert.expiry_time alert;
     AlertView.is_active := Alert.is_active now alert;
     AlertView.is_read :=
       match snd row with
       | Some p => UserAlertPreference.is_read p
       | None => false
       end;
     AlertView.is_snoozed :=
       match snd row with
       | Some p => UserAlertPreference.is_snoozed p
       | None => false
       end;
     AlertView.snoozed_until :=
       match snd row with
       | Some p => UserAlertPreference.snoozed_until p
       | None => None
       end;
     AlertView.read_at :=
       match snd row with
       | Some p => UserAlertPreference.read_at p
       | None => None
       end |}.

Definition get_alerts_for_user (now : datetime) (user_id : Z)
    (include_read : bool) (skip limit : nat) (db : DB) : list AlertView.t :=
  match get_user user_id db with
  | None => []
  | Some user =>
      let visible :=
        filter (fun a => AlertStatus_eqb (Alert.status a) ACTIVE &&
                         visibility_filter user user_id a)
          (alerts db) in
      let joined := flat_map (outer_join user_id (preferences db)) visible in
      let rows := if include_read then joined else filter unread_row joined in
      map (format_row now) (firstn limit (skipn skip rows))
  end.

Definition _get_or_create_user_preference (alert_id user_id : Z)
    : M (option UserAlertPreference.t) :=
  db <- get ;;
  match find (preference_for alert_id user_id) (preferences db) with
  | Some preference => ret (Some preference)
  | None =>
      match get_by_id alert_id db, get_user user_id db with
      | Some _, Some _ =>
          let preference :=
            UserAlertPreference.create
              (next_id (map UserAlertPreference.id (preferences db)))
              user_id alert_id in
          modify (with_preferences (preferences db ++ [preference])%list) ;;;
          ret (Some preference)
      | _, _ => ret None
      end
  end.

(** A method call on the preference object that
    [_get_or_create_user_preference] returned: the first stored row of the
    pair. *)
Definition on_preference (alert_id user_id : Z)
    (method : UserAlertPreference.t -> UserAlertPreference.t) : M unit :=
  modify (fun db =>
    with_preferences
      (update_first (preference_for alert_id user_id) method (preferences db))
      db).

Definition mark_alert_as_read (now : datetime) (alert_id user_id : Z) : M bool :=
  preference <- _get_or_create_user_preference alert_id user_id ;;
  match preference with
  | Some _ =>
      on_preference alert_id user_id (UserAlertPreference.mark_as_read now) ;;;
      ret true
  | None => ret false
  end.

Definition snooze_alert_for_user (now : datetime) (alert_id user_id : Z)
    : M bool :=
  preference <- _get_or_create_user_preference alert_id user_id ;;
  match preference with
  | Some _ =>
      on_preference alert_id user_id (UserAlertPreference.snooze_for_day now) ;;;
      ret true
  | None => ret false
  end.

(** The alert filter of [get_alerts_requiring_reminders]; a comparison with
    NULL selects nothing. *)
Definition reminder_alert_filter (now : datetime) (alert : Alert.t) : bool :=
  AlertStatus_eqb (Alert.status alert) ACTIVE &&
  match Alert.reminders_enabled alert with Some b => b | None => false end &&
  (Alert.start_time alert <=? now) &&
  match Alert.expiry_time alert with
  | None => true
  | Some e => e >? now
  end.

(** The preference filter of [get_alerts_requiring_reminders]. *)
Definition reminder_preference_filter (now : datetime) (alert_id : Z)
    (interval_hours : Z) (p : UserAlertPreference.t) : bool :=
  (UserAlertPreference.alert_id p =? alert_id) &&
  negb (UserAlertPreference.is_read p) &&
  (negb (UserAlertPreference.is_snoozed p) ||
   match UserAlertPreference.snoozed_until p with
   | Some u => u <? now
   | None => false
   end) &&
  match UserAlertPreference.last_reminded_at p with
  | None => true
  | Some last => last <? now - timedelta_hours interval_hours
  end.

Fixpoint reminder_data_of (now : datetime)
    (prefs : list UserAlertPreference.t) (active_alerts : list Alert.t)
    : Res (list (Alert.t * list UserAlertPreference.t)) :=
  match active_alerts with
  | [] => Ok []
  | alert :: rest =>
      match Alert.reminder_interval_hours alert with
      | None => Raise (TypeError "unsupported type for timedelta hours component")
      | Some interval_hours =>
          let users_needing_reminders :=
            filter (reminder_preference_filter now (Alert.id alert) interval_hours)
              prefs in
          match reminder_data_of now prefs rest with
          | Ok data =>
              match users_needing_reminders with
              | [] => Ok data
              | _ => Ok ((alert, users_needing_reminders) :: data)
              end
          | Raise e => Raise e
          end
      end
  end.

Definition get_alerts_requiring_reminders (now : datetime) (db : DB)
    : Res (list (Alert.t * list UserAlertPreference.t)) :=
  reminder_data_of now (preferences db)
    (filter (reminder_alert_filter now) (alerts db)).

(** ** Delivery channels *)

(** What a channel's [send_notification] does with the delivery record it
    is given: it returns a verdict or raises, and in both cases the record
    keeps the assignments made until then. *)
Inductive Outcome :=
| Returned (success : bool) (record : NotificationDelivery.t)
| Raised (msg : string) (record : NotificationDelivery.t).

Definition NotificationChannel : Type :=
  datetime -> Alert.t -> User.t -> NotificationDelivery.t -> Outcome.

Definition InAppChannel : NotificationChannel :=
  fun now alert user delivery_record =>
    Returned true
      (NotificationDelivery.set_status DELIVERED
         (NotificationDelivery.set_delivered_at now
            (NotificationDelivery.set_sent_at now
               (NotificationDelivery.set_status SENT delivery_record)))).

Definition EmailChannel : NotificationChannel :=
  fun now alert user delivery_record =>
    Returned false
      (NotificationDelivery.set_error_message
         "Email delivery not implemented yet" delivery_record).

Definition SMSChannel : NotificationChannel :=
  fun now alert user delivery_record =>
    Returned false
      (NotificationDelivery.set_error_message
         "SMS delivery not implemented yet" delivery_record).

(** The dictionary [self.channels] built by [NotificationService.__init__]. *)
Definition service_channels (c : DeliveryChannel) : option NotificationChannel :=
  match c with
  | IN_APP => Some InAppChannel
  | EMAIL => Some EmailChannel
  | SMS => Some SMSChannel
  end.

Definition DeliveryChannel_str (c : DeliveryChannel) : string :=
  match c with
  | IN_APP => "DeliveryChannel.IN_APP"
  | EMAIL => "DeliveryChannel.EMAIL"
  | SMS => "DeliveryChannel.SMS"
  end.

(** Counters of a batch pass: rows whose send succeeded, rows whose send
    failed. *)
Record Counts := mkCounts { succeeded : Z; failed : Z }.

Module SendResults.
Record t := mk { sent : Z; failed : Z; total : Z }.
End SendResults.

Module RetryResults.
Record t := mk { retried : Z; succeeded : Z; still_failed : Z }.
End RetryResults.

Module ReminderResults.
Record t := mk { reminders_sent : Z; users_reminded : Z; alerts_processed : Z }.
End ReminderResults.

(** ** NotificationService *)

(** The [channel] argument of [schedule_notification] and of
    [send_notification_immediately], which Python does not check against
    the annotation [DeliveryChannel]: a member of [DeliveryChannel], or the
    member of [DeliveryType] that [process_reminders] passes with
    [alert.delivery_type]. *)
Inductive channel_argument :=
| AsChannel (channel : DeliveryChannel)
| AsDeliveryType (member : DeliveryType.t).

Coercion AsChannel : DeliveryChannel >-> channel_argument.

Section NotificationService.

(** [self.channels]. *)
Variable channels : DeliveryChannel -> option NotificationChannel.

Definition _get_delivery_address (user : User.t) (channel : DeliveryChannel)
    : option string :=
  match channel with
  | EMAIL => Some (User.email user)
  | SMS => None
  | IN_APP => None
  end.

(** [schedule_notification].  The column [channel] is an
    [Enum(DeliveryChannel)]: the insert binds a member of [DeliveryChannel]
    by name; a member of [DeliveryType] is neither a member of the class
    nor a [str], the statement fails on it and nothing is stored. *)
Definition schedule_notification (now : datetime) (alert : Alert.t)
    (user : User.t) (channel : channel_argument) (is_reminder : bool)
    (reminder_sequence : option Z) : M NotificationDelivery.t :=
  match channel with
  | AsChannel channel =>
      db <- get ;;
      let delivery :=
        {| NotificationDelivery.id :=
             next_id (map NotificationDelivery.id (deliveries db));
           NotificationDelivery.alert_id := Alert.id alert;
           NotificationDelivery.user_id := User.id user;
           NotificationDelivery.channel := channel;
           NotificationDelivery.status := PENDING;
           NotificationDelivery.delivery_address :=
             _get_delivery_address user channel;
           NotificationDelivery.scheduled_at := now;
           NotificationDelivery.sent_at := None;
           NotificationDelivery.delivered_at := None;
           NotificationDelivery.read_at := None;
           NotificationDelivery.retry_count := 0;
           NotificationDelivery.max_retries := 3;
           NotificationDelivery.next_retry_at := None;
           NotificationDelivery.error_message := None;
           NotificationDelivery.is_reminder := is_reminder;
           NotificationDelivery.reminder_sequence := reminder_sequence |} in
      modify (with_deliveries (deliveries db ++ [delivery])%list) ;;;
      ret delivery
  | AsDeliveryType member =>
      raise (StatementError
               (not_among ("DeliveryType." ++ DeliveryType_name member)
                  "deliverychannel" "IN_APP, EMAIL, SMS"))
  end.

(** [_send_notification]: the verdict and the delivery record after the
    call.  Every exception is caught and recorded. *)
Definition _send_notification (now : datetime) (db : DB)
    (delivery : NotificationDelivery.t) : bool * NotificationDelivery.t :=
  match get_by_id (NotificationDelivery.alert_id delivery) db,
        get_user (NotificationDelivery.user_id delivery) db with
  | Some alert, Some user =>
      match channels (NotificationDelivery.channel delivery) with
      | None =>
          (false,
           NotificationDelivery.set_error_message
             ("Unsupported channel: " ++
              DeliveryChannel_str (NotificationDelivery.channel delivery))
             (NotificationDelivery.set_status FAILED delivery))
      | Some channel =>
          match channel now alert user delivery with
          | Returned true record => (true, record)
          | Returned false record =>
              (false, NotificationDelivery.set_status FAILED record)
          | Raised msg record =>
              (false,
               NotificationDelivery.set_error_message msg
                 (NotificationDelivery.set_status FAILED record))
          end
      end
  | _, _ =>
      (false,
       NotificationDelivery.set_error_message "Alert or user not found"
         (NotificationDelivery.set_status FAILED delivery))
  end.

(** A loop [for delivery in selected: ... self._send_notification(delivery)]
    over the rows chosen by [select]: each chosen row is prepared, sent and
    left in the table as the send left it; the other rows are not
    touched. *)
Fixpoint send_each (now : datetime) (db : DB)
    (select : NotificationDelivery.t -> bool)
    (prepare : NotificationDelivery.t -> NotificationDelivery.t)
    (rows : list NotificationDelivery.t)
    : Counts * list NotificationDelivery.t :=
  match rows with
  | [] => (mkCounts 0 0, [])
  | delivery :: rest =>
      let '(counts, rest') := send_each now db select prepare rest in
      if select delivery then
        let '(success, delivery') :=
          _send_notification now db (prepare delivery) in
        (if success
         then mkCounts (succeeded counts + 1) (failed counts)
         else mkCounts (succeeded counts) (failed counts + 1),
         delivery' :: rest')
      else (counts, delivery :: rest')
  end.

Definition is_pending (d : NotificationDelivery.t) : bool :=
  DeliveryStatus_eqb (NotificationDelivery.status d) PENDING.

Definition send_pending_notifications (now : datetime) : M SendResults.t :=
  db <- get ;;
  let pending_notifications := filter is_pending (deliveries db) in
  let '(counts, rows) :=
    send_each now db is_pending (fun d => d) (deliveries db) in
  modify (with_deliveries rows) ;;;
  ret {| SendResults.sent := succeeded counts;
         SendResults.failed := failed counts;
         SendResults.total := Z.of_nat (List.length pending_notifications) |}.

(** The delivery object that [schedule_notification] returned is the row
    stored under its key. *)
Definition on_delivery (delivery_id : Z)
    (method : NotificationDelivery.t -> NotificationDelivery.t) : M unit :=
  modify (fun db =>
    with_deliveries
      (update_first (fun d => NotificationDelivery.id d =? delivery_id)
         method (deliveries db))
      db).

Definition send_notification_immediately (now : datetime) (alert : Alert.t)
    (user : User.t) (channel : channel_argument) (is_reminder : bool)
    : M bool :=
  delivery <- schedule_notification now alert user channel is_reminder None ;;
  db <- get ;;
  let '(success, delivery') := _send_notification now db delivery in
  on_delivery (NotificationDelivery.id delivery) (fun _ => delivery') ;;;
  ret success.

Definition on_preference_row (preference_id : Z)
    (method : UserAlertPreference.t -> UserAlertPreference.t) : M unit :=
  modify (fun db =>
    with_preferences
      (update_first (fun p => UserAlertPreference.id p =? preference_id)
         method (preferences db))
      db).

(** The body of the inner loop of [process_reminders]; it returns whether
    a reminder was sent. *)
Definition remind (now : datetime) (alert : Alert.t)
    (user_preference : UserAlertPreference.t) : M bool :=
  db <- get ;;
  match get_user (UserAlertPreference.user_id user_preference) db with
  | Some user =>
      let reminder_count :=
        UserAlertPreference.reminder_count user_preference + 1 in
      success <- send_notification_immediately now alert user
                   (AsDeliveryType (Alert.delivery_type alert)) true ;;
      if (success : bool) then
        on_preference_row (UserAlertPreference.id user_preference)
          (UserAlertPreference.reminded now reminder_count) ;;;
        ret true
      else ret false
  | None => ret false
  end.

Fixpoint remind_all (now : datetime) (alert : Alert.t)
    (users_needing_reminders : list UserAlertPreference.t) : M Z :=
  match users_needing_reminders with
  | [] => ret 0
  | user_preference :: rest =>
      sent <- remind now alert user_preference ;;
      n <- remind_all now alert rest ;;
      ret ((if (sent : bool) then 1 else 0) + n)
  end.

Fixpoint remind_data (now : datetime)
    (reminder_data : list (Alert.t * list UserAlertPreference.t)) : M Z :=
  match reminder_data with
  | [] => ret 0
  | (alert, users_needing_reminders) :: rest =>
      n <- remind_all now alert users_needing_reminders ;;
      m <- remind_data now rest ;;
      ret (n + m)
  end.

Definition process_reminders (now : datetime) : M ReminderResults.t :=
  reminder_data <- read (get_alerts_requiring_reminders now) ;;
  n <- remind_data now reminder_data ;;
  ret {| ReminderResults.reminders_sent := n;
         ReminderResults.users_reminded := n;
         ReminderResults.alerts_processed :=
           Z.of_nat (List.length reminder_data) |}.

Definition owned_delivery (notification_id user_id : Z)
    (d : NotificationDelivery.t) : bool :=
  (NotificationDelivery.id d =? notification_id) &&
  (NotificationDelivery.user_id d =? user_id).

(** The assignments of [mark_notification_as_read] on the record found. *)
Definition read_delivery (now : datetime) (d : NotificationDelivery.t)
    : NotificationDelivery.t :=
  let d := NotificationDelivery.set_read_at now d in
  if DeliveryStatus_eqb (NotificationDelivery.status d) DELIVERED
  then NotificationDelivery.set_status READ d
  else d.

Definition mark_notification_as_read (now : datetime)
    (notification_id user_id : Z) : M bool :=
  db <- get ;;
  match find (owned_delivery notification_id user_id) (deliveries db) with
  | Some _ =>
      modify (with_deliveries
                (update_first (owned_delivery notification_id user_id)
                   (read_delivery now) (deliveries db))) ;;;
      ret true
  | None => ret false
  end.

(** The selection of [retry_failed_notifications]. *)
Definition retry_filter (now : datetime) (max_retries : Z)
    (d : NotificationDelivery.t) : bool :=
  DeliveryStatus_eqb (NotificationDelivery.status d) FAILED &&
  (NotificationDelivery.retry_count d <? max_retries) &&
  match NotificationDelivery.next_retry_at d with
  | None => true
  | Some t => t <=? now
  end.

(** The two assignments made before the send is attempted again. *)
Definition bump_retry (now : datetime) (d : NotificationDelivery.t)
    : NotificationDelivery.t :=
  let retry_count := NotificationDelivery.retry_count d + 1 in
  NotificationDelivery.set_retry retry_count
    (now + timedelta_minutes (5 * retry_count)) d.

Definition retry_failed_notifications (now : datetime) (max_retries : Z)
    : M RetryResults.t :=
  db <- get ;;
  let '(counts, rows) :=
    send_each now db (retry_filter now max_retries) (bump_retry now)
      (deliveries db) in
  modify (with_deliveries rows) ;;;
  ret {| RetryResults.retried := succeeded counts + failed counts;
         RetryResults.succeeded := succeeded counts;
         RetryResults.still_failed := failed counts |}.

End NotificationService.

(** ** The rest of the services *)

Definition with_users (l : list User.t) (db : DB) : DB :=
  mkDB l (teams db) (alerts db) (preferences db) (deliveries db).

Definition with_teams (l : list Team.t) (db : DB) : DB :=
  mkDB (users db) l (alerts db) (preferences db) (deliveries db).

(** SQL [column == value] on a nullable integer column. *)
Definition sql_eq (column : option Z) (v : Z) : bool :=
  match column with
  | Some c => c =? v
  | None => false
  end.

(** *** BaseService, as AlertService inherits it *)

(** [BaseService.exists]. *)
Definition exists_ (alert_id : Z) (db : DB) : bool :=
  is_some (get_by_id alert_id db).




(** *** AlertService.get_alerts_by_filters *)


(** *** The alert counts of the alerts router *)

Module AlertCounts.
Record t := mk {
  total_alerts : Z;
  unread_alerts : Z;
  read_alerts : Z;
  snoozed_alerts : Z
}.
End AlertCounts.

(** [get_alert_counts]; both lists are fetched with the default window of
    [get_alerts_for_user], the first 100 rows. *)
Definition get_alert_counts (now : datetime) (current_user : User.t) (db : DB)
    : AlertCounts.t :=
  let all_alerts :=
    get_alerts_for_user now (User.id current_user) true 0 100 db in
  let unread_alerts :=
    get_alerts_for_user now (User.id current_user) false 0 100 db in
  let snoozed_count :=
    Z.of_nat (List.length (filter AlertView.is_snoozed all_alerts)) in
  {| AlertCounts.total_alerts := Z.of_nat (List.length all_alerts);
     AlertCounts.unread_alerts := Z.of_nat (List.length unread_alerts);
     AlertCounts.read_alerts :=
       Z.of_nat (List.length all_alerts) - Z.of_nat (List.length unread_alerts);
     AlertCounts.snoozed_alerts := snoozed_count |}.

(** *** UserService *)

Module UserCreate.
Record t := mk {
  name : string;
  email : string;
  is_admin : bool;
  team_id : option Z;
  is_active : bool
}.
End UserCreate.

Definition get_by_email (email : string) (db : DB) : option User.t :=
  find (fun u => (User.email u =? email)%string) (users db).

Definition get_active_users (skip limit : nat) (db : DB) : list User.t :=
  firstn limit (skipn skip (filter User.is_active (users db))).

Definition get_users_by_team (team_id : Z) (db : DB) : list User.t :=
  filter (fun u => sql_eq (User.team_id u) team_id && User.is_active u)
    (users db).

Definition get_admin_users (db : DB) : list User.t :=
  filter (fun u => User.is_admin u && User.is_active u) (users db).

(** [BaseService.create] on the users: the row gets the next key. *)
Definition create (obj_data : UserCreate.t) : M User.t :=
  db <- get ;;
  let db_obj :=
    {| User.id := next_id (map User.id (users db));
       User.name := UserCreate.name obj_data;
       User.email := UserCreate.email obj_data;
       User.is_admin := UserCreate.is_admin obj_data;
       User.team_id := UserCreate.team_id obj_data;
       User.is_active := UserCreate.is_active obj_data |} in
  modify (with_users (users db ++ [db_obj])%list) ;;;
  ret db_obj.

Definition create_user (user_data : UserCreate.t) : M User.t :=
  db <- get ;;
  match get_by_email (UserCreate.email user_data) db with
  | Some _ =>
      raise (ValueError ("User with email " ++ UserCreate.email user_data
                         ++ " already exists"))
  | None =>
      match truthy_id (UserCreate.team_id user_data) with
      | Some team_id =>
          match get_team team_id db with
          | None =>
              raise (ValueError ("Team with id " ++ str team_id
                                 ++ " does not exist"))
          | Some _ => create user_data
          end
      | None => create user_data
      end
  end.

Definition authenticate_user (email : string) (db : DB) : option User.t :=
  match get_by_email email db with
  | Some user => if User.is_active user then Some user else None
  | None => None
  end.

Definition set_is_active (b : bool) (u : User.t) : User.t :=
  User.mk (User.id u) (User.name u) (User.email u) (User.is_admin u)
    (User.team_id u) b.

Definition set_team_id (t : option Z) (u : User.t) : User.t :=
  User.mk (User.id u) (User.name u) (User.email u) (User.is_admin u)
    t (User.is_active u).

Definition deactivate_user (user_id : Z) : M bool :=
  db <- get ;;
  match get_user user_id db with
  | Some _ =>
      modify (fun db =>
        with_users
          (update_first (fun u => User.id u =? user_id) (set_is_active false)
             (users db)) db) ;;;
      ret true
  | None => ret false
  end.

(** *** TeamService *)

Definition get_team_members (team_id : Z) (db : DB) : list User.t :=
  filter (fun u => sql_eq (User.team_id u) team_id && User.is_active u)
    (users db).

Definition get_team_member_count (team_id : Z) (db : DB) : Z :=
  Z.of_nat (List.length
    (filter (fun u => sql_eq (User.team_id u) team_id && User.is_active u)
       (users db))).

Definition add_member_to_team (user_id team_id : Z) : M bool :=
  db <- get ;;
  match get_user user_id db, get_team team_id db with
  | Some _, Some _ =>
      modify (fun db =>
        with_users
          (update_first (fun u => User.id u =? user_id)
             (set_team_id (Some team_id)) (users db)) db) ;;;
      ret true
  | _, _ => ret false
  end.

Definition remove_member_from_team (user_id : Z) : M bool :=
  db <- get ;;
  match get_user user_id db with
  | Some _ =>
      modify (fun db =>
        with_users
          (update_first (fun u => User.id u =? user_id) (set_team_id None)
             (users db)) db) ;;;
      ret true
  | None => ret false
  end.

(** [deactivate_team]: a bulk update takes every user out of the team,
    then the team row is marked inactive. *)
Definition deactivate_team (team_id : Z) : M bool :=
  db <- get ;;
  match get_team team_id db with
  | Some _ =>
      modify (fun db =>
        with_users
          (map (fun u => if sql_eq (User.team_id u) team_id
                         then set_team_id None u else u) (users db)) db) ;;;
      modify (fun db =>
        with_teams
          (update_first (fun t => Team.id t =? team_id)
             (fun t => Team.mk (Team.id t) (Team.name t) false) (teams db))
          db) ;;;
      ret true
  | None => ret false
  end.

(** ** Well-formed stores *)

(** Primary keys are unique. *)
Definition unique_user_ids (db : DB) : Prop := NoDup (map User.id (users db)).

(** The unique constraint of the preference table, for one pair. *)
Definition one_preference (alert_id user_id : Z) (db : DB) : Prop :=
  (List.length (filter (preference_for alert_id user_id) (preferences db))
   <= 1)%nat.

(** ** The reminder pass *)

(** The user of a preference is stored. *)
Definition has_user (db : DB) (p : UserAlertPreference.t) : bool :=
  is_some (get_user (UserAlertPreference.user_id p) db).

(** The alert of the first entry of the reminder data with a due
    preference whose user is stored. *)
Definition first_reminded (db : DB)
    (reminder_data : list (Alert.t * list UserAlertPreference.t))
    : option Alert.t :=
  option_map fst
    (find (fun entry => existsb (has_user db) (snd entry)) reminder_data).

(** ** The predicate of the specification *)

(** [shouldReceiveReminder] as the specification words it: false when read;
    else false when snoozed and the snooze has not run out; else false when
    a reminder was sent less than the interval ago; else true. *)
Definition shouldReceiveReminder_spec (now : datetime) (interval_hours : Z)
    (pref : UserAlertPreference.t) : bool :=
  if UserAlertPreference.is_read pref then false
  else if UserAlertPreference.is_snoozed pref &&
          match UserAlertPreference.snoozed_until pref with
          | Some u => now <? u
          | None => false
          end
  then false
  else match UserAlertPreference.last_reminded_at pref with
       | Some last => negb (now - last <? timedelta_hours interval_hours)
       | None => true
       end.

(** Targeting that [_validate_alert_targeting] rejects: team visibility
    without team ids or with an unknown team, user visibility without user
    ids or with an unknown user. *)
Definition ids_of (l : option (list Z)) : list Z :=
  match l with
  | Some l => l
  | None => []
  end.

Definition bad_targeting (db : DB) (visibility_type : Schema.VisibilityType)
    (target_team_ids target_user_ids : option (list Z)) : Prop :=
  (visibility_type = Schema.TEAM /\
   (truthy_list target_team_ids = false \/
    exists i, In i (ids_of target_team_ids) /\ get_team i db = None)) \/
  (visibility_type = Schema.USER /\
   (truthy_list target_user_ids = false \/
    exists i, In i (ids_of target_user_ids) /\ get_user i db = None)).

(** A preference row with the column defaults for a user and an alert:
    unread, not snoozed, never reminded. *)
Definition default_row (user_id alert_id : Z) (p : UserAlertPreference.t)
    : Prop :=
  UserAlertPreference.user_id p = user_id /\
  UserAlertPreference.alert_id p = alert_id /\
  UserAlertPreference.is_read p = false /\
  UserAlertPreference.read_at p = None /\
  UserAlertPreference.is_snoozed p = false /\
  UserAlertPreference.snoozed_at p = None /\
  UserAlertPreference.snoozed_until p = None /\
  UserAlertPreference.snooze_count p = 0 /\
  UserAlertPreference.last_reminded_at p = None /\
  UserAlertPreference.reminder_count p = 0.

(** Every stored preference refers to a stored alert and a stored user (the
    foreign keys of the preference table). *)
Definition preferences_refer (db : DB) : Prop :=
  forall p, In p (preferences db) ->
    get_by_id (UserAlertPreference.alert_id p) db <> None /\
    get_user (UserAlertPreference.user_id p) db <> None.

(** A channel that honours the delivery contract leaves the record Sent or
    Delivered when it reports success. *)
Definition channels_mark_success
    (channels : DeliveryChannel -> option NotificationChannel) : Prop :=
  forall c channel now alert user d d',
    channels c = Some channel ->
    channel now alert user d = Returned true d' ->
    NotificationDelivery.status d' = SENT \/
    NotificationDelivery.status d' = DELIVERED.

(** The channel registered for a delivery, called with the stored alert
    and user of the delivery, reports success; false also when it raises
    and when the alert, the user or the channel is missing. *)
Definition channel_succeeds
    (channels : DeliveryChannel -> option NotificationChannel)
    (now : datetime) (db : DB) (delivery : NotificationDelivery.t) : bool :=
  match get_by_id (NotificationDelivery.alert_id delivery) db,
        get_user (NotificationDelivery.user_id delivery) db,
        channels (NotificationDelivery.channel delivery) with
  | Some alert, Some user, Some channel =>
      match channel now alert user delivery with
      | Returned true _ => true
      | _ => false
      end
  | _, _, _ => false
  end.

(** Two preferences that agree on every field except the two timestamps
    that [mark_as_read] writes. *)
Definition same_but_read_time (p q : UserAlertPreference.t) : Prop :=
  UserAlertPreference.id q = UserAlertPreference.id p /\
  UserAlertPreference.user_id q = UserAlertPreference.user_id p /\
  UserAlertPreference.alert_id q = UserAlertPreference.alert_id p /\
  UserAlertPreference.is_read q = UserAlertPreference.is_read p /\
  UserAlertPreference.is_snoozed q = UserAlertPreference.is_snoozed p /\
  UserAlertPreference.snoozed_at q = UserAlertPreference.snoozed_at p /\
  UserAlertPreference.snoozed_until q = UserAlertPreference.snoozed_until p /\
  UserAlertPreference.snooze_count q = UserAlertPreference.snooze_count p /\
  UserAlertPreference.last_reminded_at q
  = UserAlertPreference.last_reminded_at p /\
  UserAlertPreference.reminder_count q = UserAlertPreference.reminder_count p.

(** Characters of a text: all of them satisfy [P]. *)
Fixpoint all_chars (P : ascii -> bool) (s : string) : bool :=
  match s with
  | EmptyString => true
  | String c s' => P c && all_chars P s'
  end.

(** The characters of [str n]: a digit or the sign. *)
Definition is_int_char (c : ascii) : bool :=
  existsb (Ascii.eqb c)
    ["0"; "1"; "2"; "3"; "4"; "5"; "6"; "7"; "8"; "9"; "-"]%char.

(** A text that [lstrip] leaves alone. *)
Definition head_kept (s : string) : bool :=
  match s with
  | EmptyString => true
  | String c _ => negb (is_space c)
  end.

(** ** Sample stores *)

Definition hour : Z := timedelta_hours 1.
Definition minute : Z := timedelta_minutes 1.

(** 2024-01-01 00:00:00 UTC. *)
Definition t0 : datetime := 1704067200 * 1000000.

Definition engineering := Team.mk 1 "Engineering" true.
Definition design := Team.mk 11 "Design" true.

Definition carol := User.mk 1 "Carol" "carol@company.com" true (Some 1) true.
Definition dave := User.mk 2 "Dave" "dave@company.com" false (Some 11) true.
Definition erin := User.mk 3 "Erin" "erin@company.com" false None true.

Definition directory : DB :=
  mkDB [carol; dave; erin] [engineering; design] [] [] [].

Definition request (visibility : Schema.VisibilityType)
    (channel : Schema.DeliveryType)
    (interval : Z) (team_ids user_ids : option (list Z)) : AlertCreate.t :=
  {| AlertCreate.title := "Maintenance window";
     AlertCreate.message := "Save your work";
     AlertCreate.severity := Schema.WARNING;
     AlertCreate.delivery_type := channel;
     AlertCreate.visibility_type := visibility;
     AlertCreate.reminder_interval_hours := interval;
     AlertCreate.reminders_enabled := true;
     AlertCreate.start_time := None;
     AlertCreate.expiry_time := None;
     AlertCreate.target_team_ids := team_ids;
     AlertCreate.target_user_ids := user_ids |}.

(** An update request without any field. *)
Definition no_update : AlertUpdate.t :=
  AlertUpdate.mk Unset Unset Unset Unset Unset Unset Unset Unset Unset Unset
    Unset Unset.

Definition retarget (visibility : field Schema.VisibilityType)
    (team_ids : field (list Z)) : AlertUpdate.t :=
  AlertUpdate.mk Unset Unset Unset Unset visibility Unset Unset Unset Unset
    Unset team_ids Unset.

(** The sample alerts are stored with the enumerations of [app/models] and
    serialised target ids, and their preferences next to them, as
    [scripts/seed_data.py] stores its alerts and preferences. *)

(** An alert for the Design team (id 11), with a reminder interval of two
    hours. *)
Definition design_alert : Alert.t :=
  {| Alert.id := 1; Alert.title := "Maintenance window";
     Alert.message := "Save your work"; Alert.severity := WARNING;
     Alert.delivery_type := DeliveryType.IN_APP;
     Alert.visibility_type := TEAM;
     Alert.status := ACTIVE; Alert.start_time := t0;
     Alert.expiry_time := None; Alert.reminder_interval_hours := Some 2;
     Alert.reminders_enabled := Some true;
     Alert.target_team_ids := Some "[11]";
     Alert.target_user_ids := None; Alert.created_by := 1 |}.

(** The directory with the Design alert and the preference of the one user
    it resolves to, Dave. *)
Definition design_alert_db : DB :=
  mkDB [carol; dave; erin] [engineering; design] [design_alert]
    [UserAlertPreference.create 1 2 1] [].

(** An organization alert with a reminder interval of one hour, delivered
    in-app or by email. *)
Definition organization_alert (channel : DeliveryType.t) : Alert.t :=
  {| Alert.id := 1; Alert.title := "Maintenance window";
     Alert.message := "Save your work"; Alert.severity := WARNING;
     Alert.delivery_type := channel;
     Alert.visibility_type := ORGANIZATION;
     Alert.status := ACTIVE; Alert.start_time := t0;
     Alert.expiry_time := None; Alert.reminder_interval_hours := Some 1;
     Alert.reminders_enabled := Some true;
     Alert.target_team_ids := None;
     Alert.target_user_ids := None; Alert.created_by := 1 |}.

(** The directory with the organization alert and one unread preference
    for each of the three active users. *)
Definition organization_alert_db (channel : DeliveryType.t) : DB :=
  mkDB [carol; dave; erin] [engineering; design] [organization_alert channel]
    [UserAlertPreference.create 1 1 1; UserAlertPreference.create 2 2 1;
     UserAlertPreference.create 3 3 1] [].

(** An unread, unsnoozed preference last reminded at [last]. *)
Definition reminded_preference (last : datetime) : UserAlertPreference.t :=
  UserAlertPreference.reminded last 1 (UserAlertPreference.create 1 1 1).

Definition two_hourly_alert : Alert.t :=
  {| Alert.id := 1; Alert.title := "Maintenance window";
     Alert.message := "Save your work"; Alert.severity := WARNING;
     Alert.delivery_type := DeliveryType.IN_APP;
     Alert.visibility_type := ORGANIZATION;
     Alert.status := ACTIVE; Alert.start_time := t0;
     Alert.expiry_time := None; Alert.reminder_interval_hours := Some 2;
     Alert.reminders_enabled := Some true; Alert.target_team_ids := None;
     Alert.target_user_ids := None; Alert.created_by := 1 |}.

(** Carol reads the organization alert one hour after its start, and once
    more an hour later. *)
Definition read_once_db : DB :=
  snd (mark_alert_as_read (t0 + hour) 1 1
         (organization_alert_db DeliveryType.IN_APP)).

Definition read_twice_db : DB :=
  snd (mark_alert_as_read (t0 + 2 * hour) 1 1 read_once_db).

(** An in-app delivery of the organization alert to Carol and an email
    delivery to Dave are scheduled. *)
Definition schedule_two (channel : DeliveryType.t) : M unit :=
  schedule_notification t0 (organization_alert channel) carol IN_APP false
    None ;;;
  schedule_notification t0 (organization_alert channel) dave EMAIL false
    None ;;;
  ret tt.

Definition pending_db : DB :=
  snd (schedule_two DeliveryType.IN_APP
         (organization_alert_db DeliveryType.IN_APP)).

(** The store after the pending deliveries were sent at [t0]: Carol's is
    delivered, Dave's has failed. *)
Definition sent_db : DB :=
  snd (send_pending_notifications service_channels t0 pending_db).

(** Retry passes with the same [max_retries], one per clock reading. *)
Definition retry_passes (max_retries : Z) (clock : list datetime) (db : DB)
    : DB :=
  fold_left
    (fun db now =>
       snd (retry_failed_notifications service_channels now max_retries db))
    clock db.

(** Dave reads the Design alert one hour after its start.  Then an admin
    widens the target teams of the alert to Design and Engineering (ids 11
    and 1); the request sets no other field. *)
Definition design_read_db : DB :=
  snd (mark_alert_as_read (t0 + hour) 1 2 design_alert_db).

Definition widen_update : AlertUpdate.t :=
  retarget Unset (SetTo (Some [11; 1])).


(** An update of the Design alert that names the team 999, which does not
    exist, with and without the visibility type. *)
Definition unknown_team_update : AlertUpdate.t :=
  retarget Unset (SetTo (Some [999])).

Definition unknown_team_visibility_update : AlertUpdate.t :=
  retarget (SetTo (Some Schema.TEAM)) (SetTo (Some [999])).

(** A registry whose in-app channel raises. *)
Definition broken_channels (c : DeliveryChannel) : option NotificationChannel :=
  match c with
  | IN_APP => Some (fun now alert user d => Raised "connection reset" d)
  | EMAIL => Some EmailChannel
  | SMS => Some SMSChannel
  end.

(** * Properties *)

Open Scope list_scope.
Unset Implicit Arguments.

(** ** Preference state machine *)

Lemma timedelta_hours_seconds (h : Z) :
  h * 3600 * 1000000 = timedelta_hours h.
Proof. reflexivity. Qed.

(** The verdict of the property is the predicate of the specification,
    whatever the order in which the code runs its three tests. *)
Lemma should_receive_reminder_verdict (now : datetime) (alert : Alert.t)
    (h : Z) (pref : UserAlertPreference.t) :
  Alert.reminder_interval_hours alert = Some h ->
  fst (UserAlertPreference.should_receive_reminder now (Some alert) pref)
  = Some (shouldReceiveReminder_spec now h pref).
Proof.
  intros Hh.
  unfold UserAlertPreference.should_receive_reminder, shouldReceiveReminder_spec,
    UserAlertPreference.interval_of, UserAlertPreference.total_seconds_lt.
  rewrite Hh, timedelta_hours_seconds.
  destruct pref as [i u a rd ra sn sa su sc lr rc ua]; simpl.
  destruct sn; simpl.
  - destruct su as [until|]; simpl.
    + destruct (now <? until); simpl.
      * now destruct rd.
      * destruct rd; [reflexivity|].
        destruct lr as [last|]; [|reflexivity].
        now destruct (now - last <? timedelta_hours h).
    + destruct rd; [reflexivity|].
      destruct lr as [last|]; [|reflexivity].
      now destruct (now - last <? timedelta_hours h).
  - destruct rd; [reflexivity|].
    destruct lr as [last|]; [|reflexivity].
    now destruct (now - last <? timedelta_hours h).
Qed.

(** C2. For every preference and every alert with a reminder interval,
    [should_receive_reminder] answers false when the preference is read,
    else false when it is snoozed and [now < snoozed_until], else false
    when [last_reminded_at] is set and less than the interval ago, else
    true.  With an interval of two hours an unread, unsnoozed preference
    reminded 90 minutes ago is not due and one reminded 150 minutes ago
    is. *)
Theorem should_receive_reminder_spec (now : datetime) (alert : Alert.t)
    (h : Z) (pref : UserAlertPreference.t) :
  Alert.reminder_interval_hours alert = Some h ->
  fst (UserAlertPreference.should_receive_reminder now (Some alert) pref)
  = Some (shouldReceiveReminder_spec now h pref) /\
  (h = 2 ->
   UserAlertPreference.is_read pref = false ->
   UserAlertPreference.is_snoozed pref = false ->
   (UserAlertPreference.last_reminded_at pref = Some (now - 90 * minute) ->
    fst (UserAlertPreference.should_receive_reminder now (Some alert) pref)
    = Some false) /\
   (UserAlertPreference.last_reminded_at pref = Some (now - 150 * minute) ->
    fst (UserAlertPreference.should_receive_reminder now (Some alert) pref)
    = Some true)).
Proof.
  intros Hh.
  split; [now apply should_receive_reminder_verdict|].
  intros -> Hread Hsnooze.
  split; intros Hlast;
    rewrite (should_receive_reminder_verdict now alert 2 pref Hh);
    unfold shouldReceiveReminder_spec;
    rewrite Hread, Hsnooze, Hlast; simpl; f_equal;
    unfold minute, timedelta_minutes, timedelta_hours.
  - apply negb_false_iff, Z.ltb_lt. lia.
  - apply negb_true_iff, Z.ltb_ge. lia.
Qed.

Lemma should_receive_reminder_spec_witness :
  fst (UserAlertPreference.should_receive_reminder (t0 + 3 * hour)
         (Some two_hourly_alert)
         (reminded_preference (t0 + 3 * hour - 90 * minute)))
  = Some false.
Proof.
  destruct (should_receive_reminder_spec (t0 + 3 * hour) two_hourly_alert 2
              (reminded_preference (t0 + 3 * hour - 90 * minute))
              eq_refl) as [_ H].
  apply H; reflexivity.
Defined.

(** *** Rows updated in place *)

Lemma find_update_first {A : Type} (p : A -> bool) (f : A -> A) (l : list A) :
  (forall x, p (f x) = p x) ->
  find p (update_first p f l) = option_map f (find p l).
Proof.
  intros Hp. induction l as [|x r IH]; simpl; [reflexivity|].
  destruct (p x) eqn:E; simpl.
  - now rewrite Hp, E.
  - now rewrite E.
Qed.

Lemma find_update_first_const {A : Type} (p : A -> bool) (a a' : A)
    (l : list A) :
  find p l = Some a -> p a' = true ->
  find p (update_first p (fun _ => a') l) = Some a'.
Proof.
  induction l as [|x r IH]; simpl; [discriminate|].
  destruct (p x) eqn:E; simpl.
  - intros _ H. now rewrite H.
  - intros H H'. rewrite E. now apply IH.
Qed.

Lemma update_first_fixed {A : Type} (p : A -> bool) (f : A -> A) (l : list A)
    (x : A) :
  find p l = Some x -> f x = x -> update_first p f l = l.
Proof.
  induction l as [|y r IH]; simpl; [discriminate|].
  destruct (p y); intros H Hf.
  - injection H as ->. now rewrite Hf.
  - now rewrite IH.
Qed.

Lemma update_first_none {A : Type} (p : A -> bool) (f : A -> A) (l : list A) :
  find p l = None -> update_first p f l = l.
Proof.
  induction l as [|y r IH]; simpl; [reflexivity|].
  destruct (p y); [discriminate|]. intros H. now rewrite IH.
Qed.

Lemma update_first_app_new {A : Type} (p : A -> bool) (f : A -> A)
    (l : list A) (x : A) :
  find p l = None -> p x = true ->
  update_first p f (l ++ [x]) = l ++ [f x].
Proof.
  induction l as [|y r IH]; simpl; intros H Hx.
  - now rewrite Hx.
  - destruct (p y); [discriminate|]. now rewrite IH.
Qed.

Lemma find_app_new {A : Type} (p : A -> bool) (l : list A) (x : A) :
  find p l = None -> p x = true -> find p (l ++ [x]) = Some x.
Proof.
  induction l as [|y r IH]; simpl; intros H Hx.
  - now rewrite Hx.
  - destruct (p y); [discriminate|]. now apply IH.
Qed.

Lemma find_none_iff {A : Type} (p : A -> bool) (l : list A) :
  find p l = None <-> forall x, In x l -> p x = false.
Proof.
  split.
  - intros H x Hx. now apply (find_none p l H).
  - induction l as [|y r IH]; simpl; [reflexivity|]. intros H.
    rewrite (H y (or_introl eq_refl)). apply IH. intros x Hx.
    apply H. now right.
Qed.

Lemma preference_for_create (n alert_id user_id : Z) :
  preference_for alert_id user_id
    (UserAlertPreference.create n user_id alert_id) = true.
Proof.
  unfold preference_for; simpl. now rewrite !Z.eqb_refl.
Qed.

(** *** Acting on the preference of a pair *)

(** What [mark_alert_as_read] and [snooze_alert_for_user] do, by cases on
    the stored rows: the method runs on the first stored preference of the
    pair, or on a fresh default one when the alert and the user exist. *)
Lemma on_get_or_create (method : UserAlertPreference.t -> UserAlertPreference.t)
    (alert_id user_id : Z) (db : DB) :
  (preference <- _get_or_create_user_preference alert_id user_id ;;
   match preference with
   | Some _ => on_preference alert_id user_id method ;;; ret true
   | None => ret false
   end) db
  = match find (preference_for alert_id user_id) (preferences db) with
    | Some _ =>
        (Ok true,
         with_preferences
           (update_first (preference_for alert_id user_id) method
              (preferences db)) db)
    | None =>
        if is_some (get_by_id alert_id db) && is_some (get_user user_id db)
        then
          (Ok true,
           with_preferences
             (preferences db ++
              [method (UserAlertPreference.create
                         (next_id (map UserAlertPreference.id (preferences db)))
                         user_id alert_id)]) db)
        else (Ok false, db)
    end.
Proof.
  unfold _get_or_create_user_preference, on_preference, bind, get, modify, ret.
  destruct (find (preference_for alert_id user_id) (preferences db)) eqn:E.
  - reflexivity.
  - destruct (get_by_id alert_id db), (get_user user_id db); simpl;
      try reflexivity.
    rewrite update_first_app_new by (auto using preference_for_create).
    now destruct db.
Qed.

Lemma mark_as_read_keeps_pair (now : datetime) (alert_id user_id : Z)
    (p : UserAlertPreference.t) :
  preference_for alert_id user_id (UserAlertPreference.mark_as_read now p)
  = preference_for alert_id user_id p.
Proof. reflexivity. Qed.

Lemma mark_as_read_again (t1 t2 : datetime) (p : UserAlertPreference.t) :
  UserAlertPreference.mark_as_read t2 (UserAlertPreference.mark_as_read t1 p)
  = UserAlertPreference.mark_as_read t2 p.
Proof. reflexivity. Qed.

(** After a successful [mark_alert_as_read] the first stored preference of
    the pair is a row that [mark_as_read] produced at that time. *)
Lemma mark_alert_as_read_stores (t : datetime) (alert_id user_id : Z)
    (db db1 : DB) :
  mark_alert_as_read t alert_id user_id db = (Ok true, db1) ->
  exists p0,
    find (preference_for alert_id user_id) (preferences db1)
    = Some (UserAlertPreference.mark_as_read t p0).
Proof.
  unfold mark_alert_as_read. rewrite on_get_or_create.
  destruct (find (preference_for alert_id user_id) (preferences db)) as [p|] eqn:E.
  - intros H. injection H as <-. exists p. simpl.
    rewrite find_update_first by (intros; apply mark_as_read_keeps_pair).
    now rewrite E.
  - destruct (is_some (get_by_id alert_id db) && is_some (get_user user_id db));
      [|discriminate].
    intros H. injection H as <-. eexists. simpl.
    apply find_app_new; [exact E|].
    rewrite mark_as_read_keeps_pair. apply preference_for_create.
Qed.

(** C4, as the code has it.  A successful [mark_alert_as_read] leaves the
    preference of the pair read, with [read_at] the time of the call.  A
    second call succeeds too and touches that row only: it keeps [is_read]
    and every other field but stamps [read_at] and [updated_at] with the
    time of the second call, so the store is the same exactly when the two
    calls read the same clock. *)
Theorem mark_alert_as_read_twice (t1 t2 : datetime) (alert_id user_id : Z)
    (db db1 : DB) :
  mark_alert_as_read t1 alert_id user_id db = (Ok true, db1) ->
  exists p1,
    find (preference_for alert_id user_id) (preferences db1) = Some p1 /\
    UserAlertPreference.is_read p1 = true /\
    UserAlertPreference.read_at p1 = Some t1 /\
    let p2 := UserAlertPreference.mark_as_read t2 p1 in
    let db2 :=
      with_preferences
        (update_first (preference_for alert_id user_id)
           (UserAlertPreference.mark_as_read t2) (preferences db1)) db1 in
    mark_alert_as_read t2 alert_id user_id db1 = (Ok true, db2) /\
    find (preference_for alert_id user_id) (preferences db2) = Some p2 /\
    same_but_read_time p1 p2 /\
    UserAlertPreference.read_at p2 = Some t2 /\
    UserAlertPreference.updated_at p2 = Some t2 /\
    (t2 = t1 -> db2 = db1).
Proof.
  intros H1.
  destruct (mark_alert_as_read_stores _ _ _ _ _ H1) as [p0 Hp1].
  exists (UserAlertPreference.mark_as_read t1 p0).
  split; [exact Hp1|]. split; [reflexivity|]. split; [reflexivity|].
  cbv zeta. split; [|split; [|split; [|split; [|split]]]].
  - unfold mark_alert_as_read. rewrite on_get_or_create. now rewrite Hp1.
  - simpl. rewrite find_update_first by (intros; apply mark_as_read_keeps_pair).
    now rewrite Hp1.
  - repeat split.
  - reflexivity.
  - reflexivity.
  - intros ->.
    rewrite (update_first_fixed _ _ _ _ Hp1) by reflexivity.
    now destruct db1.
Qed.

Lemma mark_alert_as_read_twice_witness :
  exists p1,
    find (preference_for 1 1) (preferences read_once_db) = Some p1 /\
    UserAlertPreference.read_at p1 = Some (t0 + hour) /\
    UserAlertPreference.read_at
      (UserAlertPreference.mark_as_read (t0 + 2 * hour) p1)
    = Some (t0 + 2 * hour).
Proof.
  destruct (mark_alert_as_read_twice (t0 + hour) (t0 + 2 * hour) 1 1
              (organization_alert_db DeliveryType.IN_APP) read_once_db eq_refl)
    as (p1 & Hfind & _ & Hat & _ & _ & _ & Hat2 & _).
  exists p1. repeat split; assumption.
Defined.

(** C4, as the claim states it, fails: Carol reads the organization alert
    at 01:00 and again at 02:00; both calls succeed, and the second moves
    [read_at] from 01:00 to 02:00. *)
Lemma mark_alert_as_read_moves_read_at :
  fst (mark_alert_as_read (t0 + hour) 1 1 (organization_alert_db DeliveryType.IN_APP))
  = Ok true /\
  fst (mark_alert_as_read (t0 + 2 * hour) 1 1 read_once_db) = Ok true /\
  option_map UserAlertPreference.read_at
    (find (preference_for 1 1) (preferences read_once_db))
  = Some (Some (t0 + hour)) /\
  option_map UserAlertPreference.read_at
    (find (preference_for 1 1) (preferences read_twice_db))
  = Some (Some (t0 + 2 * hour)) /\
  read_twice_db <> read_once_db.
Proof.
  repeat split; try (vm_compute; reflexivity).
  intros H.
  assert (E : option_map UserAlertPreference.read_at
                (find (preference_for 1 1) (preferences read_twice_db))
              = option_map UserAlertPreference.read_at
                  (find (preference_for 1 1) (preferences read_once_db)))
    by now rewrite H.
  vm_compute in E. discriminate E.
Qed.


Lemma is_some_true {A : Type} (o : option A) : is_some o = true <-> o <> None.
Proof. destruct o; simpl; split; congruence. Qed.





(** ** Delivery engine *)

(** C8. [mark_notification_as_read] finds the delivery with the given id
    that belongs to the caller; when that record is Delivered it becomes
    Read with [read_at] the time of the call, no other row or table
    changes, and the call returns true.  When no delivery with that id
    belongs to the caller the call returns false, does not raise and leaves
    the whole store as it was. *)
Theorem mark_notification_as_read_spec (now : datetime)
    (notification_id user_id : Z) (db : DB) :
  (forall d,
     find (owned_delivery notification_id user_id) (deliveries db) = Some d ->
     NotificationDelivery.status d = DELIVERED ->
     let d' :=
       NotificationDelivery.set_status READ
         (NotificationDelivery.set_read_at now d) in
     let db' :=
       with_deliveries
         (update_first (owned_delivery notification_id user_id)
            (fun _ => d') (deliveries db)) db in
     mark_notification_as_read now notification_id user_id db = (Ok true, db') /\
     find (owned_delivery notification_id user_id) (deliveries db') = Some d' /\
     NotificationDelivery.status d' = READ /\
     NotificationDelivery.read_at d' = Some now) /\
  ((forall d, In d (deliveries db) ->
      ~ (NotificationDelivery.id d = notification_id /\
         NotificationDelivery.user_id d = user_id)) ->
   mark_notification_as_read now notification_id user_id db = (Ok false, db)).
Proof.
  split.
  - intros d Hfind Hstatus. cbv zeta.
    assert (Hread : read_delivery now d
                    = NotificationDelivery.set_status READ
                        (NotificationDelivery.set_read_at now d)).
    { unfold read_delivery. simpl. now rewrite Hstatus. }
    assert (Hrows :
      update_first (owned_delivery notification_id user_id)
        (read_delivery now) (deliveries db)
      = update_first (owned_delivery notification_id user_id)
          (fun _ => NotificationDelivery.set_status READ
                      (NotificationDelivery.set_read_at now d))
          (deliveries db)).
    { clear Hstatus. revert Hfind Hread.
      induction (deliveries db) as [|x r IH]; simpl; [reflexivity|].
      destruct (owned_delivery notification_id user_id x).
      - intros H Hr. injection H as ->. now rewrite Hr.
      - intros H Hr. now rewrite IH. }
    split; [|split; [|split; reflexivity]].
    + unfold mark_notification_as_read, bind, get, modify, ret.
      rewrite Hfind. simpl. now rewrite Hrows.
    + simpl. rewrite <- Hrows.
      rewrite find_update_first.
      * rewrite Hfind. simpl. now rewrite Hread.
      * intros x. unfold read_delivery, owned_delivery. simpl.
        now destruct (DeliveryStatus_eqb (NotificationDelivery.status x) DELIVERED).
  - intros Hnone.
    assert (E : find (owned_delivery notification_id user_id) (deliveries db)
                = None).
    { apply find_none_iff. intros x Hx.
      destruct (owned_delivery notification_id user_id x) eqn:O; [|reflexivity].
      exfalso. apply (Hnone x Hx).
      unfold owned_delivery in O. apply andb_prop in O as [O1 O2].
      now apply Z.eqb_eq in O1, O2. }
    unfold mark_notification_as_read, bind, get, ret. now rewrite E.
Qed.

(** Carol opens her delivered notification; Dave tries the same id. *)
Lemma mark_notification_as_read_spec_witness :
  fst (mark_notification_as_read (t0 + hour) 1 1 sent_db) = Ok true /\
  option_map NotificationDelivery.status
    (find (owned_delivery 1 1)
       (deliveries (snd (mark_notification_as_read (t0 + hour) 1 1 sent_db))))
  = Some READ /\
  mark_notification_as_read (t0 + hour) 1 2 sent_db = (Ok false, sent_db).
Proof.
  destruct (mark_notification_as_read_spec (t0 + hour) 1 1 sent_db) as [Hown _].
  destruct (mark_notification_as_read_spec (t0 + hour) 1 2 sent_db) as [_ Hnot].
  destruct (find (owned_delivery 1 1) (deliveries sent_db)) as [d|] eqn:E;
    [|discriminate E].
  destruct (Hown d eq_refl) as (Hcall & Hfind & Hstatus & _).
  { vm_compute in E. injection E as <-. reflexivity. }
  split; [now rewrite Hcall|]. split.
  - rewrite Hcall. cbn [snd]. cbv zeta in Hfind, Hstatus.
    rewrite Hfind. cbn [option_map]. now rewrite Hstatus.
  - apply Hnot. intros x Hx [H1 H2]. vm_compute in Hx.
    destruct Hx as [<-|[<-|[]]]; discriminate.
Defined.

(** *** Batch passes *)

Section Batch.

Variable channels : DeliveryChannel -> option NotificationChannel.
Variables (now : datetime) (db : DB).
Variable select : NotificationDelivery.t -> bool.
Variable prepare : NotificationDelivery.t -> NotificationDelivery.t.

Let attempt (d : NotificationDelivery.t) : bool * NotificationDelivery.t :=
  _send_notification channels now db (prepare d).

(** The row that a pass leaves in the place of [d]. *)
Let after (d : NotificationDelivery.t) : NotificationDelivery.t :=
  if select d then snd (attempt d) else d.

(** A pass visits every row: the table it leaves is the old one with each
    selected row replaced by the outcome of its own send. *)
Lemma send_each_rows (rows : list NotificationDelivery.t) :
  snd (send_each channels now db select prepare rows) = map after rows.
Proof.
  induction rows as [|d r IH]; simpl; [reflexivity|].
  destruct (send_each channels now db select prepare r) as [counts r'].
  simpl in IH. subst r'. unfold after, attempt.
  destruct (select d); [|reflexivity].
  now destruct (_send_notification channels now db (prepare d)).
Qed.

Lemma send_each_counts (rows : list NotificationDelivery.t) :
  let counts := fst (send_each channels now db select prepare rows) in
  succeeded counts
  = Z.of_nat (List.length (filter (fun d => select d && fst (attempt d)) rows)) /\
  failed counts
  = Z.of_nat (List.length (filter (fun d => select d && negb (fst (attempt d))) rows)).
Proof.
  induction rows as [|d r IH]; simpl; [split; reflexivity|].
  destruct (send_each channels now db select prepare r) as [counts r'].
  simpl in IH. destruct IH as [IHs IHf]. unfold attempt in *.
  destruct (select d); simpl; [|split; assumption].
  destruct (_send_notification channels now db (prepare d)) as [ok d'].
  destruct ok; simpl; split; try assumption.
  - rewrite IHs. lia.
  - rewrite IHf. lia.
Qed.

Lemma send_each_total (rows : list NotificationDelivery.t) :
  let counts := fst (send_each channels now db select prepare rows) in
  succeeded counts + failed counts
  = Z.of_nat (List.length (filter select rows)).
Proof.
  induction rows as [|d r IH]; simpl; [reflexivity|].
  destruct (send_each channels now db select prepare r) as [counts r'].
  simpl in IH.
  destruct (select d); simpl; [|assumption].
  destruct (_send_notification channels now db (prepare d)) as [ok d'].
  destruct ok; simpl; lia.
Qed.

Lemma map_Forall2 (R : NotificationDelivery.t -> NotificationDelivery.t -> Prop)
    (rows : list NotificationDelivery.t) :
  (forall d, In d rows -> R d (after d)) ->
  Forall2 R rows (map after rows).
Proof.
  induction rows as [|d r IH]; simpl; intros H; constructor.
  - apply H. now left.
  - apply IH. intros x Hx. apply H. now right.
Qed.

End Batch.

(** Whatever the channel does, [_send_notification] returns, and a send
    that did not succeed leaves the record Failed. *)
Lemma _send_notification_failed
    (channels : DeliveryChannel -> option NotificationChannel)
    (now : datetime) (db : DB) (d : NotificationDelivery.t) :
  fst (_send_notification channels now db d) = false ->
  NotificationDelivery.status (snd (_send_notification channels now db d))
  = FAILED.
Proof.
  unfold _send_notification.
  destruct (get_by_id (NotificationDelivery.alert_id d) db) as [alert|];
    [|reflexivity].
  destruct (get_user (NotificationDelivery.user_id d) db) as [user|];
    [|reflexivity].
  destruct (channels (NotificationDelivery.channel d)) as [channel|];
    [|reflexivity].
  destruct (channel now alert user d) as [[|] record|msg record];
    simpl; try reflexivity; discriminate.
Qed.

Lemma _send_notification_succeeded
    (channels : DeliveryChannel -> option NotificationChannel)
    (now : datetime) (db : DB) (d : NotificationDelivery.t) :
  channels_mark_success channels ->
  fst (_send_notification channels now db d) = true ->
  NotificationDelivery.status (snd (_send_notification channels now db d)) = SENT \/
  NotificationDelivery.status (snd (_send_notification channels now db d))
  = DELIVERED.
Proof.
  intros Hcontract. unfold _send_notification.
  destruct (get_by_id (NotificationDelivery.alert_id d) db) as [alert|];
    [|discriminate].
  destruct (get_user (NotificationDelivery.user_id d) db) as [user|];
    [|discriminate].
  destruct (channels (NotificationDelivery.channel d)) as [channel|] eqn:C;
    [|discriminate].
  destruct (channel now alert user d) as [[|] record|msg record] eqn:S;
    simpl; try discriminate.
  intros _. exact (Hcontract _ _ _ _ _ _ _ C S).
Qed.

Lemma service_channels_mark_success : channels_mark_success service_channels.
Proof.
  intros c channel now alert user d d' Hc Hsend.
  destruct c; injection Hc as <-;
    unfold InAppChannel, EmailChannel, SMSChannel in Hsend;
    try discriminate Hsend.
  injection Hsend as <-. now right.
Qed.

(** The verdict of [_send_notification] is the verdict of the channel
    registered for the delivery, called with the stored alert and user;
    without one of the three the verdict is false. *)
Lemma _send_notification_verdict
    (channels : DeliveryChannel -> option NotificationChannel)
    (now : datetime) (db : DB) (d : NotificationDelivery.t) :
  fst (_send_notification channels now db d)
  = channel_succeeds channels now db d.
Proof.
  unfold _send_notification, channel_succeeds.
  destruct (get_by_id (NotificationDelivery.alert_id d) db) as [alert|];
    [|reflexivity].
  destruct (get_user (NotificationDelivery.user_id d) db) as [user|];
    [|reflexivity].
  destruct (channels (NotificationDelivery.channel d)) as [channel|];
    [|reflexivity].
  now destruct (channel now alert user d) as [[|] record|msg record].
Qed.

(** The record that [_send_notification] leaves, by what the channel did
    with it. *)
Lemma _send_notification_channel
    (channels : DeliveryChannel -> option NotificationChannel)
    (now : datetime) (db : DB) (d : NotificationDelivery.t)
    (alert : Alert.t) (user : User.t) (channel : NotificationChannel) :
  get_by_id (NotificationDelivery.alert_id d) db = Some alert ->
  get_user (NotificationDelivery.user_id d) db = Some user ->
  channels (NotificationDelivery.channel d) = Some channel ->
  match channel now alert user d with
  | Returned true record =>
      snd (_send_notification channels now db d) = record
  | Returned false record =>
      snd (_send_notification channels now db d)
      = NotificationDelivery.set_status FAILED record
  | Raised msg record =>
      snd (_send_notification channels now db d)
      = NotificationDelivery.set_error_message msg
          (NotificationDelivery.set_status FAILED record)
  end.
Proof.
  intros Ha Hu Hc. unfold _send_notification. rewrite Ha, Hu, Hc.
  now destruct (channel now alert user d) as [[|] record|msg record].
Qed.

(** C7. With channels that leave a record Sent or Delivered when they
    report success, [send_pending_notifications] returns without raising,
    whatever the channels do.  Every Pending row is handed to the channel
    registered for it, with the stored alert and user of the row, and is
    replaced by the outcome: the record as the channel left it, Sent or
    Delivered, when the channel reported success; that record marked
    Failed when the channel reported failure; that record marked Failed
    with the message of the exception when the channel raised; the row
    marked Failed when its alert, its user or its channel is missing.
    Every other row and table is kept.  [sent] counts the Pending rows
    whose channel reported success, [failed] the other Pending rows, and
    [sent + failed = total], where [total] is the number of Pending rows
    at the start. *)
Theorem send_pending_notifications_spec
    (channels : DeliveryChannel -> option NotificationChannel)
    (now : datetime) (db : DB) :
  channels_mark_success channels ->
  exists results db',
    send_pending_notifications channels now db = (Ok results, db') /\
    SendResults.total results
    = Z.of_nat (List.length (filter is_pending (deliveries db))) /\
    SendResults.sent results + SendResults.failed results
    = SendResults.total results /\
    SendResults.sent results
    = Z.of_nat (List.length
        (filter (fun d => is_pending d && channel_succeeds channels now db d)
           (deliveries db))) /\
    SendResults.failed results
    = Z.of_nat (List.length
        (filter (fun d => is_pending d &&
                          negb (channel_succeeds channels now db d))
           (deliveries db))) /\
    db' = with_deliveries (deliveries db') db /\
    Forall2
      (fun d d' =>
         if is_pending d then
           d' = snd (_send_notification channels now db d) /\
           (forall alert user channel,
              get_by_id (NotificationDelivery.alert_id d) db = Some alert ->
              get_user (NotificationDelivery.user_id d) db = Some user ->
              channels (NotificationDelivery.channel d) = Some channel ->
              match channel now alert user d with
              | Returned true record =>
                  d' = record /\
                  (NotificationDelivery.status d' = SENT \/
                   NotificationDelivery.status d' = DELIVERED)
              | Returned false record =>
                  d' = NotificationDelivery.set_status FAILED record
              | Raised msg record =>
                  d' = NotificationDelivery.set_error_message msg
                         (NotificationDelivery.set_status FAILED record)
              end) /\
           (channel_succeeds channels now db d = true ->
            NotificationDelivery.status d' = SENT \/
            NotificationDelivery.status d' = DELIVERED) /\
           (channel_succeeds channels now db d = false ->
            NotificationDelivery.status d' = FAILED)
         else d' = d)
      (deliveries db) (deliveries db').
Proof.
  intros Hcontract.
  unfold send_pending_notifications, bind, get, modify, ret.
  pose proof (send_each_rows channels now db is_pending (fun d => d)
                (deliveries db)) as Hrows.
  pose proof (send_each_counts channels now db is_pending (fun d => d)
                (deliveries db)) as [Hsent Hfailed].
  pose proof (send_each_total channels now db is_pending (fun d => d)
                (deliveries db)) as Htotal.
  destruct (send_each channels now db is_pending (fun d => d) (deliveries db))
    as [counts rows].
  simpl in Hrows, Hsent, Hfailed, Htotal. subst rows.
  eexists. eexists. split; [reflexivity|]. simpl.
  split; [reflexivity|]. split; [exact Htotal|].
  split.
  { rewrite Hsent. f_equal. f_equal. apply filter_ext. intros d.
    now rewrite _send_notification_verdict. }
  split.
  { rewrite Hfailed. f_equal. f_equal. apply filter_ext. intros d.
    now rewrite _send_notification_verdict. }
  split; [reflexivity|].
  apply map_Forall2. intros d _.
  destruct (is_pending d); [|reflexivity].
  split; [reflexivity|]. split; [|split].
  - intros alert user channel Ha Hu Hc.
    pose proof (_send_notification_channel channels now db d alert user
                  channel Ha Hu Hc) as Hrecord.
    destruct (channel now alert user d) as [[|] record|msg record] eqn:S;
      try exact Hrecord.
    split; [exact Hrecord|]. rewrite Hrecord.
    exact (Hcontract _ _ _ _ _ _ _ Hc S).
  - rewrite <- _send_notification_verdict.
    now apply _send_notification_succeeded.
  - rewrite <- _send_notification_verdict.
    apply _send_notification_failed.
Qed.

Lemma broken_channels_mark_success : channels_mark_success broken_channels.
Proof.
  intros c channel now alert user d d' Hc Hsend.
  destruct c; injection Hc as <-; discriminate Hsend.
Qed.

(** Carol's in-app delivery and Dave's email delivery are pending: the pass
    delivers the first, fails the second and reports both.  With an in-app
    channel that raises, the pass fails both and reports both. *)
Lemma send_pending_notifications_spec_witness :
  channels_mark_success service_channels /\
  fst (send_pending_notifications service_channels t0 pending_db)
  = Ok (SendResults.mk 1 1 2) /\
  map NotificationDelivery.status (deliveries sent_db) = [DELIVERED; FAILED] /\
  channels_mark_success broken_channels /\
  fst (send_pending_notifications broken_channels t0 pending_db)
  = Ok (SendResults.mk 0 2 2).
Proof.
  split; [exact service_channels_mark_success|].
  destruct (send_pending_notifications_spec service_channels t0 pending_db
              service_channels_mark_success)
    as (results & db' & Hcall & _).
  destruct (send_pending_notifications_spec broken_channels t0 pending_db
              broken_channels_mark_success)
    as (results' & db'' & Hcall' & _).
  split; [rewrite Hcall; injection Hcall as <- _; reflexivity|].
  split; [reflexivity|].
  split; [exact broken_channels_mark_success|].
  rewrite Hcall'. injection Hcall' as <- _. reflexivity.
Defined.

(** A channel that raises on Carol's delivery does not stop the pass: her
    record is Failed with the message of the exception, and Dave's record
    is processed after it. *)
Example send_pending_notifications_isolates_exceptions :
  fst (send_pending_notifications broken_channels t0 pending_db)
  = Ok (SendResults.mk 0 2 2) /\
  map (fun d => (NotificationDelivery.status d,
                 NotificationDelivery.error_message d))
    (deliveries (snd (send_pending_notifications broken_channels t0 pending_db)))
  = [(FAILED, Some "connection reset"%string);
     (FAILED, Some "Email delivery not implemented yet"%string)].
Proof. split; reflexivity. Qed.

Lemma DeliveryStatus_eqb_eq (a b : DeliveryStatus) :
  DeliveryStatus_eqb a b = true <-> a = b.
Proof. destruct a, b; simpl; split; congruence. Qed.

(** The selection of a retry pass, in words: Failed, fewer retries than
    [max_retries], and a retry time that is unset or reached. *)
Lemma retry_filter_iff (now : datetime) (max_retries : Z)
    (d : NotificationDelivery.t) :
  retry_filter now max_retries d = true <->
  NotificationDelivery.status d = FAILED /\
  NotificationDelivery.retry_count d < max_retries /\
  (NotificationDelivery.next_retry_at d = None \/
   exists t, NotificationDelivery.next_retry_at d = Some t /\ t <= now).
Proof.
  unfold retry_filter. rewrite !andb_true_iff, DeliveryStatus_eqb_eq, Z.ltb_lt.
  destruct (NotificationDelivery.next_retry_at d) as [t|].
  - rewrite Z.leb_le. split.
    + intros [[H1 H2] H3]. repeat split; try assumption. right. now exists t.
    + intros (H1 & H2 & [H3|(t' & H3 & H4)]); [discriminate|].
      injection H3 as ->. now repeat split.
  - split.
    + intros [[H1 H2] _]. repeat split; try assumption. now left.
    + intros (H1 & H2 & _). now repeat split.
Qed.

(** The channels of the service write the status, the send and delivery
    times and the error message of a record, nothing else. *)
Lemma _send_notification_service (now : datetime) (db : DB)
    (d : NotificationDelivery.t) :
  let d' := snd (_send_notification service_channels now db d) in
  NotificationDelivery.id d' = NotificationDelivery.id d /\
  NotificationDelivery.retry_count d' = NotificationDelivery.retry_count d /\
  NotificationDelivery.next_retry_at d' = NotificationDelivery.next_retry_at d /\
  (NotificationDelivery.status d' = DELIVERED \/
   NotificationDelivery.status d' = FAILED).
Proof.
  unfold _send_notification.
  destruct (get_by_id (NotificationDelivery.alert_id d) db) as [alert|];
    [|simpl; auto].
  destruct (get_user (NotificationDelivery.user_id d) db) as [user|];
    [|simpl; auto].
  destruct (NotificationDelivery.channel d); simpl; auto.
Qed.

Lemma retry_pass_rows (now : datetime) (max_retries : Z) (db : DB) :
  deliveries (snd (retry_failed_notifications service_channels now max_retries db))
  = map (fun d =>
           if retry_filter now max_retries d
           then snd (_send_notification service_channels now db (bump_retry now d))
           else d)
      (deliveries db).
Proof.
  unfold retry_failed_notifications, bind, get, modify, ret.
  pose proof (send_each_rows service_channels now db
                (retry_filter now max_retries) (bump_retry now)
                (deliveries db)) as Hrows.
  destruct (send_each service_channels now db (retry_filter now max_retries)
              (bump_retry now) (deliveries db)) as [counts rows].
  simpl in *. exact Hrows.
Qed.

Lemma retry_filter_exhausted (now : datetime) (max_retries : Z)
    (d : NotificationDelivery.t) :
  max_retries <= NotificationDelivery.retry_count d ->
  retry_filter now max_retries d = false.
Proof.
  intros H. unfold retry_filter.
  replace (NotificationDelivery.retry_count d <? max_retries) with false
    by (symmetry; apply Z.ltb_ge; exact H).
  now rewrite andb_false_r.
Qed.

(** A record that has used up its retries stays in the table, as it is,
    through any number of retry passes. *)
Lemma retry_passes_keep (max_retries : Z) (d : NotificationDelivery.t)
    (clock : list datetime) :
  max_retries <= NotificationDelivery.retry_count d ->
  forall db, In d (deliveries db) ->
  In d (deliveries (retry_passes max_retries clock db)).
Proof.
  intros Hmax. induction clock as [|now clock IH]; intros db Hin; simpl.
  - exact Hin.
  - apply IH. rewrite retry_pass_rows. apply in_map_iff. exists d.
    now rewrite (retry_filter_exhausted now max_retries d Hmax).
Qed.

(** C6, as the code has it.  [retry_failed_notifications] selects exactly
    the Failed records with [retry_count < max_retries] whose
    [next_retry_at] is unset or not after [now].  Each selected record gets
    [retry_count + 1] and [next_retry_at = now + 5 * retry_count] minutes
    (with the new count), and its send is attempted again, which leaves it
    Delivered or Failed; [retried] counts the selected records.  The other
    records are not touched.  A Failed record with
    [retry_count >= max_retries] is never selected and stays in the table,
    as it is, through any number of passes. *)
Theorem retry_failed_notifications_spec (now : datetime) (max_retries : Z)
    (db : DB) :
  exists results db',
    retry_failed_notifications service_channels now max_retries db
    = (Ok results, db') /\
    (forall d,
       retry_filter now max_retries d = true <->
       NotificationDelivery.status d = FAILED /\
       NotificationDelivery.retry_count d < max_retries /\
       (NotificationDelivery.next_retry_at d = None \/
        exists t, NotificationDelivery.next_retry_at d = Some t /\ t <= now)) /\
    RetryResults.retried results
    = Z.of_nat (List.length (filter (retry_filter now max_retries) (deliveries db))) /\
    RetryResults.succeeded results + RetryResults.still_failed results
    = RetryResults.retried results /\
    db' = with_deliveries (deliveries db') db /\
    Forall2
      (fun d d' =>
         if retry_filter now max_retries d then
           d' = snd (_send_notification service_channels now db
                       (bump_retry now d)) /\
           NotificationDelivery.retry_count d'
           = NotificationDelivery.retry_count d + 1 /\
           NotificationDelivery.next_retry_at d'
           = Some (now + timedelta_minutes
                           (5 * (NotificationDelivery.retry_count d + 1))) /\
           (NotificationDelivery.status d' = DELIVERED \/
            NotificationDelivery.status d' = FAILED)
         else d' = d)
      (deliveries db) (deliveries db') /\
    (forall d,
       In d (deliveries db) ->
       NotificationDelivery.status d = FAILED ->
       max_retries <= NotificationDelivery.retry_count d ->
       (forall now', retry_filter now' max_retries d = false) /\
       (forall clock, In d (deliveries (retry_passes max_retries clock db)))).
Proof.
  pose proof (retry_pass_rows now max_retries db) as Hpass.
  unfold retry_failed_notifications, bind, get, modify, ret in *.
  pose proof (send_each_total service_channels now db
                (retry_filter now max_retries) (bump_retry now)
                (deliveries db)) as Htotal.
  destruct (send_each service_channels now db (retry_filter now max_retries)
              (bump_retry now) (deliveries db)) as [counts rows].
  simpl in Hpass, Htotal. subst rows.
  eexists. eexists. split; [reflexivity|]. simpl.
  split; [intros d; apply retry_filter_iff|].
  split; [exact Htotal|]. split; [reflexivity|]. split; [reflexivity|].
  split.
  - apply map_Forall2. intros d _.
    destruct (retry_filter now max_retries d); [|reflexivity].
    destruct (_send_notification_service now db (bump_retry now d))
      as (_ & Hcount & Hnext & Hstatus).
    cbv zeta in Hcount, Hnext, Hstatus.
    split; [reflexivity|]. split; [exact Hcount|]. split; [exact Hnext|].
    exact Hstatus.
  - intros d Hin _ Hmax. split.
    + intros now'. now apply retry_filter_exhausted.
    + intros clock. now apply retry_passes_keep.
Qed.

(** One pass over the store with Dave's failed email delivery retries that
    delivery and leaves Carol's delivered one alone. *)
Lemma retry_failed_notifications_spec_witness :
  exists results db',
    retry_failed_notifications service_channels (t0 + 5 * minute) 3 sent_db
    = (Ok results, db') /\
    RetryResults.retried results = 1 /\
    map NotificationDelivery.retry_count (deliveries db') = [0; 1].
Proof.
  destruct (retry_failed_notifications_spec (t0 + 5 * minute) 3 sent_db)
    as (results & db' & Hcall & _ & Hretried & _).
  exists results, db'. split; [exact Hcall|]. split.
  - rewrite Hretried. vm_compute. reflexivity.
  - replace db' with
      (snd (retry_failed_notifications service_channels (t0 + 5 * minute) 3
              sent_db)) by now rewrite Hcall.
    vm_compute. reflexivity.
Defined.

(** Five passes, each after the retry time of the one before: the email
    delivery is retried three times and then left alone. *)
Example retry_passes_exhaust :
  map (fun d => (NotificationDelivery.status d,
                 NotificationDelivery.retry_count d,
                 NotificationDelivery.next_retry_at d))
    (deliveries
       (retry_passes 3
          [t0; t0 + 5 * minute; t0 + 15 * minute; t0 + 30 * minute;
           t0 + 60 * minute] sent_db))
  = [(DELIVERED, 0, None); (FAILED, 3, Some (t0 + 30 * minute))].
Proof. vm_compute. reflexivity. Qed.

(** C6, as the claim states it, fails: Dave's email delivery failed at
    [t0] and has no retry time; a retry pass at that very instant selects
    it, although no retry time has been reached. *)
Lemma retry_selects_unscheduled_failure :
  exists d,
    In d (deliveries sent_db) /\
    NotificationDelivery.status d = FAILED /\
    NotificationDelivery.retry_count d = 0 /\
    NotificationDelivery.next_retry_at d = None /\
    ~ (exists t, NotificationDelivery.next_retry_at d = Some t /\ t <= t0) /\
    retry_filter t0 3 d = true /\
    fst (retry_failed_notifications service_channels t0 3 sent_db)
    = Ok (RetryResults.mk 1 0 1) /\
    map NotificationDelivery.retry_count
      (deliveries (snd (retry_failed_notifications service_channels t0 3 sent_db)))
    = [0; 1].
Proof.
  destruct (deliveries sent_db) as [|d1 [|d2 r]] eqn:E;
    try (vm_compute in E; discriminate E).
  exists d2. vm_compute in E. injection E as <- <- <-.
  split; [vm_compute; auto|].
  repeat split.
  intros (t & Ht & _). discriminate Ht.
Qed.

(** ** Enumeration columns *)

Lemma SeverityLevel_of_name_name (m : SeverityLevel) :
  SeverityLevel_of_name (SeverityLevel_name m) = Some m.
Proof. now destruct m. Qed.

Lemma DeliveryType_of_name_name (m : DeliveryType.t) :
  DeliveryType_of_name (DeliveryType_name m) = Some m.
Proof. now destruct m. Qed.

Lemma VisibilityType_of_name_name (m : VisibilityType) :
  VisibilityType_of_name (VisibilityType_name m) = Some m.
Proof. now destruct m. Qed.

Lemma AlertStatus_of_name_name (m : AlertStatus) :
  AlertStatus_of_name (AlertStatus_name m) = Some m.
Proof. now destruct m. Qed.

(** The value of a schema member is not the name of a member. *)
Lemma SeverityLevel_of_value (m : Schema.SeverityLevel) :
  SeverityLevel_of_name (Schema.SeverityLevel_value m) = None.
Proof. now destruct m. Qed.










Lemma store_eta (s : Store) : mkStore (readable s) (unreadable s) = s.
Proof. now destruct s. Qed.

(** ** Validation of the targeting *)

(** The two comparisons of [_validate_alert_targeting] are false for every
    request. *)
Lemma visibility_is_false (visibility_type : option Schema.VisibilityType)
    (m : VisibilityType) :
  visibility_is visibility_type m = false.
Proof. now destruct visibility_type. Qed.

(** So the validation returns on every request and leaves the store as it
    is. *)
Lemma _validate_alert_targeting_returns
    (visibility_type : option Schema.VisibilityType)
    (target_team_ids target_user_ids : option (list Z)) (db : DB) :
  _validate_alert_targeting visibility_type target_team_ids target_user_ids db
  = (Ok tt, db).
Proof.
  unfold _validate_alert_targeting, bind, get.
  now rewrite !visibility_is_false.
Qed.

(** ** create_alert and update_alert on the store *)

(** The row of a new alert does not read back: its severity is the value
    of a schema member. *)
Lemma refresh_new_alert_row (new_id : Z) (now : datetime)
    (alert_data : AlertCreate.t) (created_by : Z)
    (team_column user_column : option string) :
  refresh (new_alert_row new_id now alert_data created_by team_column
             user_column)
  = Raise (LookupError
             (not_among
                (Schema.SeverityLevel_value (AlertCreate.severity alert_data))
                "severitylevel" "INFO, WARNING, CRITICAL")).
Proof.
  unfold refresh, new_alert_row. cbn [RawAlert.severity bound_text].
  now rewrite SeverityLevel_of_value.
Qed.

(** [create_alert] on every request and store: a request with an empty
    target list fails at the insert; every other request is committed as a
    row that does not read back, and the refresh raises. *)
Lemma create_alert_run (now : datetime) (alert_data : AlertCreate.t)
    (created_by : Z) (s : Store) :
  create_alert now alert_data created_by s
  = match create_target_column (AlertCreate.target_team_ids alert_data),
          create_target_column (AlertCreate.target_user_ids alert_data) with
    | Some team_column, Some user_column =>
        (Raise (LookupError
                  (not_among
                     (Schema.SeverityLevel_value
                        (AlertCreate.severity alert_data))
                     "severitylevel" "INFO, WARNING, CRITICAL")),
         mkStore (readable s)
           (unreadable s ++
            [new_alert_row (next_alert_id s) now alert_data created_by
               team_column user_column]))
    | _, _ => (Raise (DbError "unsupported type for a text column"), s)
    end.
Proof.
  unfold create_alert, lift.
  rewrite _validate_alert_targeting_returns, store_eta.
  destruct (create_target_column (AlertCreate.target_team_ids alert_data))
    as [team_column|]; [|reflexivity].
  destruct (create_target_column (AlertCreate.target_user_ids alert_data))
    as [user_column|]; [|reflexivity].
  cbv zeta. unfold commit_insert.
  now rewrite refresh_new_alert_row.
Qed.

Lemma lift_validation (alert_data : AlertUpdate.t) (s : Store) :
  lift (if is_some (value (AlertUpdate.visibility_type alert_data))
        then
          _validate_alert_targeting
            (value (AlertUpdate.visibility_type alert_data))
            (value (AlertUpdate.target_team_ids alert_data))
            (value (AlertUpdate.target_user_ids alert_data))
        else ret tt) s
  = (Ok tt, s).
Proof.
  unfold lift.
  destruct (is_some (value (AlertUpdate.visibility_type alert_data)));
    [rewrite _validate_alert_targeting_returns | unfold ret];
    now rewrite store_eta.
Qed.

(** [update_alert] of a row that reads back, up to the refresh. *)
Lemma update_alert_run (alert_id : Z) (alert_data : AlertUpdate.t)
    (s : Store) (alert : Alert.t) :
  find (fun r => RawAlert.id r =? alert_id) (unreadable s) = None ->
  get_by_id alert_id (readable s) = Some alert ->
  update_alert alert_id alert_data s
  = match apply_update alert_data alert with
    | None => (Raise (DbError "NOT NULL constraint failed"), s)
    | Some row =>
        match refresh row with
        | Raise e =>
            (Raise e,
             mkStore
               (with_alerts
                  (remove_first (fun a => Alert.id a =? alert_id)
                     (alerts (readable s)))
                  (readable s))
               (unreadable s ++ [row]))
        | Ok alert' =>
            lift ((if targeting_changed alert_data then
                     _update_user_preferences_for_alert alert'
                   else ret tt) ;;;
                  ret (Some alert'))
              (mkStore
                 (with_alerts
                    (update_first (fun a => Alert.id a =? alert_id)
                       (fun _ => alert') (alerts (readable s)))
                    (readable s))
                 (unreadable s))
        end
    end.
Proof.
  intros Hraw Hrow. unfold update_alert, load_by_id.
  rewrite Hraw, Hrow, lift_validation.
  destruct (apply_update alert_data alert) as [row|]; [|reflexivity].
  cbv zeta. unfold commit_update.
  now destruct (refresh row).
Qed.

Lemma apply_update_columns (u : AlertUpdate.t) (alert : Alert.t)
    (row : RawAlert.t) :
  apply_update u alert = Some row ->
  RawAlert.id row = Alert.id alert /\
  RawAlert.created_by row = Alert.created_by alert /\
  RawAlert.target_team_ids row
  = update_target_column (AlertUpdate.target_team_ids u)
      (Alert.target_team_ids alert) /\
  RawAlert.target_user_ids row
  = update_target_column (AlertUpdate.target_user_ids u)
      (Alert.target_user_ids alert) /\
  required_text Schema.SeverityLevel_value SeverityLevel_name
    (AlertUpdate.severity u) (Alert.severity alert)
  = Some (RawAlert.severity row) /\
  required_text Schema.DeliveryType_value DeliveryType_name
    (AlertUpdate.delivery_type u) (Alert.delivery_type alert)
  = Some (RawAlert.delivery_type row) /\
  required_text Schema.VisibilityType_value VisibilityType_name
    (AlertUpdate.visibility_type u) (Alert.visibility_type alert)
  = Some (RawAlert.visibility_type row) /\
  required_text Schema.AlertStatus_value AlertStatus_name
    (AlertUpdate.status u) (Alert.status alert)
  = Some (RawAlert.status row).
Proof.
  unfold apply_update.
  destruct (required (AlertUpdate.title u) (Alert.title alert));
    [|discriminate].
  destruct (required (AlertUpdate.message u) (Alert.message alert));
    [|discriminate].
  destruct (required_text _ _ (AlertUpdate.severity u) _); [|discriminate].
  destruct (required_text _ _ (AlertUpdate.delivery_type u) _);
    [|discriminate].
  destruct (required_text _ _ (AlertUpdate.visibility_type u) _);
    [|discriminate].
  destruct (required_text _ _ (AlertUpdate.status u) _); [|discriminate].
  destruct (required (AlertUpdate.start_time u) (Alert.start_time alert));
    [|discriminate].
  intros H. injection H as <-. simpl. repeat split.
Qed.


(** ** Target resolution and preference seeding *)

Lemma _get_target_users_with_preferences (alert : Alert.t)
    (l : list UserAlertPreference.t) (db : DB) :
  _get_target_users_for_alert alert (with_preferences l db)
  = _get_target_users_for_alert alert db.
Proof. reflexivity. Qed.

Lemma _get_target_users_with_alerts (alert : Alert.t)
    (l : list Alert.t) (db : DB) :
  _get_target_users_for_alert alert (with_alerts l db)
  = _get_target_users_for_alert alert db.
Proof. reflexivity. Qed.

(** Seeding an alert that has no stored preference gives every target user
    a row with the column defaults. *)
Lemma new_preferences_fresh (alert_id : Z)
    (existing : list UserAlertPreference.t) (target_users : list User.t) :
  (forall p, In p existing -> UserAlertPreference.alert_id p <> alert_id) ->
  forall next,
    Forall2
      (fun user p =>
         p = UserAlertPreference.create (UserAlertPreference.id p)
               (User.id user) alert_id)
      target_users
      (new_preferences next alert_id existing target_users).
Proof.
  intros Hother.
  assert (Hnone : forall user_id,
             existsb (preference_for alert_id user_id) existing = false).
  { intros user_id. apply not_true_is_false. intros H.
    apply existsb_exists in H as (p & Hin & Hp).
    unfold preference_for in Hp. apply andb_prop in Hp as [Ha _].
    apply Z.eqb_eq in Ha. exact (Hother p Hin Ha). }
  induction target_users as [|user rest IH]; intros next; simpl.
  - constructor.
  - rewrite Hnone. constructor; [reflexivity | apply IH].
Qed.

Lemma Forall2_impl {A B : Type} (R R' : A -> B -> Prop) (l : list A)
    (l' : list B) :
  (forall x y, R x y -> R' x y) -> Forall2 R l l' -> Forall2 R' l l'.
Proof. intros H F. induction F; constructor; auto. Qed.

(** Re-resolution deletes every preference row of the alert and seeds one
    row with the column defaults for each user the alert targets. *)
Lemma _update_user_preferences_run (alert : Alert.t) (db : DB)
    (target_users : list User.t) :
  _get_target_users_for_alert alert db = Ok target_users ->
  exists seeded,
    _update_user_preferences_for_alert alert db
    = (Ok tt,
       with_preferences
         (filter (fun p => negb (UserAlertPreference.alert_id p
                                 =? Alert.id alert))
            (preferences db) ++ seeded) db) /\
    Forall2 (fun user p => default_row (User.id user) (Alert.id alert) p)
      target_users seeded.
Proof.
  intros Htargets.
  unfold _update_user_preferences_for_alert,
    _create_user_preferences_for_alert, bind, modify, read, ret.
  rewrite _get_target_users_with_preferences, Htargets.
  eexists. split; [reflexivity|].
  cbn [preferences with_preferences].
  eapply Forall2_impl; [|apply new_preferences_fresh].
  - intros user p ->. repeat split.
  - intros p Hp. apply filter_In in Hp as [_ Hp].
    apply negb_true_iff, Z.eqb_neq in Hp. exact Hp.
Qed.




(** C9 fails: the validation never rejects.  The two comparisons of
    [_validate_alert_targeting] are between a member of a schema
    enumeration and a member of the model enumeration, so the validator
    returns on every request and [create_alert] never raises [ValueError].
    On the Design store, a request for the team 999, which does not exist,
    is committed as a new alert row, and only the refresh of that row
    raises, a [LookupError]; an update of the Design alert that names team
    visibility and the team 999 is committed in the same way, and one that
    names only the team 999 returns the alert, which now targets team 999,
    with Dave's preference row gone. *)
Theorem alert_validation_never_rejects :
  (forall visibility_type target_team_ids target_user_ids db,
     _validate_alert_targeting visibility_type target_team_ids
       target_user_ids db = (Ok tt, db)) /\
  (forall now alert_data created_by s msg,
     fst (create_alert now alert_data created_by s)
     <> Raise (ValueError msg)) /\
  bad_targeting design_alert_db Schema.TEAM (Some [999]) None /\
  (exists msg row,
     create_alert t0 (request Schema.TEAM Schema.IN_APP 2 (Some [999]) None) 1
       (typed design_alert_db)
     = (Raise (LookupError msg), mkStore design_alert_db [row]) /\
     RawAlert.id row = 2 /\
     RawAlert.visibility_type row = "team"%string /\
     RawAlert.target_team_ids row = Some "[999]"%string) /\
  (exists msg row,
     update_alert 1 unknown_team_visibility_update (typed design_alert_db)
     = (Raise (LookupError msg),
        mkStore (with_alerts [] design_alert_db) [row]) /\
     RawAlert.id row = 1 /\
     RawAlert.visibility_type row = "team"%string /\
     RawAlert.target_team_ids row = Some "[999]"%string) /\
  (exists alert s',
     update_alert 1 unknown_team_update (typed design_alert_db)
     = (Ok (Some alert), s') /\
     Alert.target_team_ids alert = Some "[999]"%string /\
     map UserAlertPreference.user_id (preferences design_alert_db) = [2] /\
     preferences (readable s') = []).
Proof.
  split; [exact _validate_alert_targeting_returns|].
  split.
  { intros now alert_data created_by s msg. rewrite create_alert_run.
    destruct (create_target_column (AlertCreate.target_team_ids alert_data));
      [|discriminate].
    destruct (create_target_column (AlertCreate.target_user_ids alert_data));
      discriminate. }
  split.
  { left. split; [reflexivity|]. right. exists 999.
    split; [now left | reflexivity]. }
  split; [|split].
  - eexists. eexists. split; [vm_compute; reflexivity|].
    repeat split.
  - eexists. eexists. split; [vm_compute; reflexivity|].
    repeat split.
  - eexists. eexists. split; [vm_compute; reflexivity|].
    repeat split.
Qed.

(** ** Team targeting *)

Lemma mem_In (x : Z) (l : list Z) : mem x l = true <-> In x l.
Proof.
  unfold mem. rewrite existsb_exists. split.
  - intros (y & Hy & E). apply Z.eqb_eq in E. now subst.
  - intros H. exists x. split; [exact H | apply Z.eqb_refl].
Qed.

(** The target resolver tests exact membership: for a team alert whose
    stored ids decode to [team_ids], the resolved users are the active
    users whose team is one of [team_ids]. *)
Lemma _get_target_users_team_exact (alert : Alert.t) (db : DB)
    (team_ids : list Z) :
  Alert.visibility_type alert = TEAM ->
  load_ids (Alert.target_team_ids alert) = Ok team_ids ->
  exists target_users,
    _get_target_users_for_alert alert db = Ok target_users /\
    forall user,
      In user target_users <->
      In user (users db) /\ User.is_active user = true /\
      exists team_id, User.team_id user = Some team_id /\ In team_id team_ids.
Proof.
  intros Hv Hids. unfold _get_target_users_for_alert. rewrite Hv, Hids.
  eexists. split; [reflexivity|]. intros user.
  rewrite filter_In, andb_true_iff. unfold sql_in.
  destruct (User.team_id user) as [t|].
  - rewrite mem_In. split.
    + intros (Hin & Ha & Ht). repeat split; try assumption. now exists t.
    + intros (Hin & Ha & t' & E & Ht). injection E as ->. now repeat split.
  - split.
    + intros (_ & _ & H). discriminate.
    + intros (_ & _ & t' & E & _). discriminate.
Qed.

(** C1 fails on [get_alerts_for_user].  The Design alert targets team 11
    only.  The target resolver excludes Carol, an active member of team 1,
    and seeds a preference for Dave only; yet the alert is in the list that
    [get_alerts_for_user] returns for Carol, because the text ["1"] occurs
    in the stored text ["[11]"]. *)
Theorem get_alerts_for_user_matches_substring :
  get_by_id 1 design_alert_db = Some design_alert /\
  Alert.visibility_type design_alert = TEAM /\
  load_ids (Alert.target_team_ids design_alert) = Ok [11] /\
  User.is_active carol = true /\
  User.team_id carol = Some 1 /\
  _get_target_users_for_alert design_alert design_alert_db = Ok [dave] /\
  map UserAlertPreference.user_id (preferences design_alert_db) = [User.id dave] /\
  sql_like_id (Alert.target_team_ids design_alert) 1 = true /\
  map AlertView.id
    (get_alerts_for_user (t0 + hour) (User.id carol) true 0 100 design_alert_db)
  = [Alert.id design_alert].
Proof. repeat split; vm_compute; reflexivity. Qed.

(** ** Reminder pass *)

Lemma next_id_above (ids : list Z) (x : Z) : In x ids -> x < next_id ids.
Proof.
  unfold next_id. induction ids as [|y r IH]; cbn [fold_right In];
    [contradiction|].
  intros [->|H]; [lia|]. specialize (IH H). lia.
Qed.

Lemma find_next_id {A : Type} (key : A -> Z) (l : list A) :
  find (fun x => key x =? next_id (map key l)) l = None.
Proof.
  apply find_none_iff. intros x Hx. apply Z.eqb_neq.
  pose proof (next_id_above (map key l) (key x) (in_map key l x Hx)). lia.
Qed.

(** The channels of the service keep the keys and the reminder fields of
    a record. *)
Lemma _send_notification_service_keeps (now : datetime) (db : DB)
    (d : NotificationDelivery.t) :
  let d' := snd (_send_notification service_channels now db d) in
  NotificationDelivery.alert_id d' = NotificationDelivery.alert_id d /\
  NotificationDelivery.user_id d' = NotificationDelivery.user_id d /\
  NotificationDelivery.is_reminder d' = NotificationDelivery.is_reminder d /\
  NotificationDelivery.reminder_sequence d'
  = NotificationDelivery.reminder_sequence d.
Proof.
  unfold _send_notification.
  destruct (get_by_id (NotificationDelivery.alert_id d) db) as [alert|];
    [|simpl; auto].
  destruct (get_user (NotificationDelivery.user_id d) db) as [user|];
    [|simpl; auto].
  destruct (NotificationDelivery.channel d); simpl; auto.
Qed.

(** Called with a member of [DeliveryChannel], which no caller in the
    services does, [send_notification_immediately] stores a delivery
    without [reminder_sequence], for a reminder or not: the function has
    no parameter for it, schedules the record without one, and no channel
    of the service writes the field. *)
Lemma send_notification_immediately_sequence (now : datetime)
    (alert : Alert.t) (user : User.t) (channel : DeliveryChannel)
    (is_reminder : bool) (db : DB) :
  exists success d',
    send_notification_immediately service_channels now alert user channel
      is_reminder db
    = (Ok success, with_deliveries (deliveries db ++ [d']) db) /\
    NotificationDelivery.alert_id d' = Alert.id alert /\
    NotificationDelivery.user_id d' = User.id user /\
    NotificationDelivery.is_reminder d' = is_reminder /\
    NotificationDelivery.reminder_sequence d' = None.
Proof.
  unfold send_notification_immediately, schedule_notification, on_delivery,
    bind, get, modify, ret.
  cbn [fst snd].
  match goal with
  | |- context [_send_notification service_channels now ?db1 ?d] =>
      pose proof (_send_notification_service_keeps now db1 d) as Hkeep;
      destruct (_send_notification service_channels now db1 d)
        as [success d'] eqn:E
  end.
  cbv zeta in Hkeep. cbn [snd] in Hkeep.
  destruct Hkeep as (Ha & Hu & Hr & Hs).
  exists success, d'. split.
  - cbn [deliveries with_deliveries NotificationDelivery.id].
    rewrite update_first_app_new.
    + now destruct db.
    + apply (find_next_id NotificationDelivery.id).
    + apply Z.eqb_refl.
  - now rewrite Ha, Hu, Hr, Hs.
Qed.

(** One step of the inner loop of the reminder pass: a due preference
    whose user is stored is handed to the send with [alert.delivery_type],
    and the insert of the delivery raises; a preference whose user is not
    stored is skipped. *)
Lemma remind_run (channels : DeliveryChannel -> option NotificationChannel)
    (now : datetime) (alert : Alert.t)
    (user_preference : UserAlertPreference.t) (db : DB) :
  remind channels now alert user_preference db
  = match get_user (UserAlertPreference.user_id user_preference) db with
    | Some _ =>
        (Raise (StatementError
                  (not_among
                     ("DeliveryType." ++
                      DeliveryType_name (Alert.delivery_type alert))
                     "deliverychannel" "IN_APP, EMAIL, SMS")), db)
    | None => (Ok false, db)
    end.
Proof.
  unfold remind. unfold bind at 1. unfold get. cbv beta iota.
  now destruct (get_user (UserAlertPreference.user_id user_preference) db).
Qed.

Lemma remind_all_run (channels : DeliveryChannel -> option NotificationChannel)
    (now : datetime) (alert : Alert.t)
    (users_needing_reminders : list UserAlertPreference.t) (db : DB) :
  remind_all channels now alert users_needing_reminders db
  = if existsb (has_user db) users_needing_reminders
    then (Raise (StatementError
                   (not_among
                      ("DeliveryType." ++
                       DeliveryType_name (Alert.delivery_type alert))
                      "deliverychannel" "IN_APP, EMAIL, SMS")), db)
    else (Ok 0, db).
Proof.
  induction users_needing_reminders as [|p rest IH]; [reflexivity|].
  cbn [remind_all existsb]. unfold bind at 1. rewrite remind_run.
  unfold has_user at 1.
  destruct (get_user (UserAlertPreference.user_id p) db); [reflexivity|].
  cbn [is_some orb]. unfold bind. rewrite IH.
  now destruct (existsb (has_user db) rest).
Qed.

Lemma remind_data_run (channels : DeliveryChannel -> option NotificationChannel)
    (now : datetime)
    (reminder_data : list (Alert.t * list UserAlertPreference.t)) (db : DB) :
  remind_data channels now reminder_data db
  = match first_reminded db reminder_data with
    | Some alert =>
        (Raise (StatementError
                  (not_among
                     ("DeliveryType." ++
                      DeliveryType_name (Alert.delivery_type alert))
                     "deliverychannel" "IN_APP, EMAIL, SMS")), db)
    | None => (Ok 0, db)
    end.
Proof.
  induction reminder_data as [|[alert due] rest IH]; [reflexivity|].
  cbn [remind_data]. unfold bind at 1. rewrite remind_all_run.
  unfold first_reminded. cbn [find fst snd].
  destruct (existsb (has_user db) due); [reflexivity|].
  unfold bind. rewrite IH. unfold first_reminded.
  now destruct (find (fun entry => existsb (has_user db) (snd entry)) rest).
Qed.

(** The reminder pass on every store: it raises with the query, or at the
    first due preference whose user is stored, and else returns with no
    reminder sent; in each case the store is as it was. *)
Lemma process_reminders_run
    (channels : DeliveryChannel -> option NotificationChannel)
    (now : datetime) (db : DB) :
  process_reminders channels now db
  = match get_alerts_requiring_reminders now db with
    | Raise e => (Raise e, db)
    | Ok reminder_data =>
        match first_reminded db reminder_data with
        | Some alert =>
            (Raise (StatementError
                      (not_among
                         ("DeliveryType." ++
                          DeliveryType_name (Alert.delivery_type alert))
                         "deliverychannel" "IN_APP, EMAIL, SMS")), db)
        | None =>
            (Ok (ReminderResults.mk 0 0
                   (Z.of_nat (List.length reminder_data))), db)
        end
    end.
Proof.
  unfold process_reminders. unfold bind at 1. unfold read.
  destruct (get_alerts_requiring_reminders now db) as [data|e];
    [|reflexivity].
  unfold bind. rewrite remind_data_run.
  now destruct (first_reminded db data).
Qed.

(** C3 fails before the sequence number matters.  In the end-to-end
    scenario (an organization alert with a reminder interval of one hour,
    three active users with unread preferences, a reminder pass two hours
    after the start) the three preferences are due, and the pass raises at
    the first of them, whatever the channels are: it hands
    [alert.delivery_type], a member of [DeliveryType], to a column of
    [DeliveryChannel].  No reminder delivery is stored and no preference
    is updated. *)
Theorem process_reminders_raises_at_first_send :
  (exists due,
     get_alerts_requiring_reminders (t0 + 2 * hour)
       (organization_alert_db DeliveryType.IN_APP)
     = Ok [(organization_alert DeliveryType.IN_APP, due)] /\
     map (fun p => (UserAlertPreference.user_id p,
                    UserAlertPreference.reminder_count p)) due
     = [(1, 0); (2, 0); (3, 0)]) /\
  (exists msg,
     forall channels,
       process_reminders channels (t0 + 2 * hour)
         (organization_alert_db DeliveryType.IN_APP)
       = (Raise (StatementError msg),
          organization_alert_db DeliveryType.IN_APP)) /\
  deliveries (organization_alert_db DeliveryType.IN_APP) = [] /\
  map (fun p => (UserAlertPreference.reminder_count p,
                 UserAlertPreference.last_reminded_at p))
    (preferences (organization_alert_db DeliveryType.IN_APP))
  = [(0, None); (0, None); (0, None)].
Proof.
  split; [eexists; split; vm_compute; reflexivity|].
  split; [|split; reflexivity].
  eexists. intros channels. rewrite process_reminders_run.
  vm_compute. reflexivity.
Qed.

(** The query of the reminder pass selects only preferences that the
    predicate of the specification accepts.  (It is stricter at the two
    instants [now = snoozed_until] and
    [now - last_reminded_at = interval].) *)
Lemma reminder_preference_filter_sound (now : datetime) (alert_id h : Z)
    (p : UserAlertPreference.t) :
  reminder_preference_filter now alert_id h p = true ->
  UserAlertPreference.alert_id p = alert_id /\
  shouldReceiveReminder_spec now h p = true.
Proof.
  unfold reminder_preference_filter, shouldReceiveReminder_spec.
  rewrite !andb_true_iff, orb_true_iff, negb_true_iff, Z.eqb_eq.
  intros [[[Ha Hread] Hsnooze] Hlast]. split; [exact Ha|].
  rewrite Hread.
  assert (S : UserAlertPreference.is_snoozed p &&
              match UserAlertPreference.snoozed_until p with
              | Some u => now <? u
              | None => false
              end = false).
  { destruct Hsnooze as [Hs|Hs].
    - apply negb_true_iff in Hs. now rewrite Hs.
    - destruct (UserAlertPreference.snoozed_until p) as [u|]; [|discriminate].
      apply Z.ltb_lt in Hs.
      replace (now <? u) with false by (symmetry; apply Z.ltb_ge; lia).
      apply andb_false_r. }
  rewrite S.
  destruct (UserAlertPreference.last_reminded_at p) as [last|]; [|reflexivity].
  apply Z.ltb_lt in Hlast. apply negb_true_iff, Z.ltb_ge. lia.
Qed.

(** ** Serialised target ids *)

Lemma append_nil_r (s : string) : (s ++ "")%string = s.
Proof. induction s as [|c s IH]; simpl; [reflexivity | now rewrite IH]. Qed.

Lemma append_assoc (a b c : string) :
  ((a ++ b) ++ c)%string = (a ++ b ++ c)%string.
Proof. induction a as [|x a IH]; simpl; [reflexivity | now rewrite IH]. Qed.

Lemma prefix_append (n post : string) : String.prefix n (n ++ post) = true.
Proof.
  induction n as [|c n IH]; simpl; [now destruct post|].
  destruct (ascii_dec c c) as [_|N]; [exact IH | now destruct N].
Qed.

Lemma sql_like_contains_prefix (n hay : string) :
  String.prefix n hay = true -> sql_like_contains n hay = true.
Proof.
  intros H. destruct hay; cbn [sql_like_contains]; rewrite H; reflexivity.
Qed.

Lemma sql_like_contains_append (pre n post : string) :
  sql_like_contains n (pre ++ n ++ post) = true.
Proof.
  induction pre as [|c pre IH]; simpl.
  - apply sql_like_contains_prefix, prefix_append.
  - rewrite IH. apply orb_true_r.
Qed.

Lemma join_In (sep x : string) (l : list string) :
  In x l -> exists pre post, join sep l = (pre ++ x ++ post)%string.
Proof.
  induction l as [|y r IH]; [contradiction|].
  intros [->|H].
  - exists ""%string. destruct r as [|z r'].
    + exists ""%string. simpl. now rewrite append_nil_r.
    + exists (sep ++ join sep (z :: r'))%string. reflexivity.
  - destruct (IH H) as (pre & post & E). destruct r as [|z r'];
      [contradiction|].
    exists (y ++ sep ++ pre)%string, post.
    change (join sep (y :: z :: r'))
      with (y ++ sep ++ join sep (z :: r'))%string.
    now rewrite E, !append_assoc.
Qed.

(** The text match of [get_alerts_for_user] accepts every id that was
    serialised into the column: it errs only by accepting too much. *)
Lemma sql_like_id_member (ids : list Z) (n : Z) :
  In n ids -> sql_like_id (Some (json_dumps ids)) n = true.
Proof.
  intros H. unfold sql_like_id, json_dumps.
  destruct (join_In ", " (str n) (map str ids) (in_map str ids n H))
    as (pre & post & E).
  rewrite E.
  change ("[" ++ (pre ++ str n ++ post) ++ "]")%string
    with (String "[" ((pre ++ str n ++ post) ++ "]"))%string.
  rewrite !append_assoc.
  apply (sql_like_contains_append (String "[" pre) (str n) (post ++ "]")).
Qed.

Lemma all_chars_append (P : ascii -> bool) (a b : string) :
  all_chars P (a ++ b) = all_chars P a && all_chars P b.
Proof.
  induction a as [|c a IH]; simpl; [reflexivity|].
  now rewrite IH, andb_assoc.
Qed.

Lemma all_chars_impl (P Q : ascii -> bool) (s : string) :
  (forall c, P c = true -> Q c = true) ->
  all_chars P s = true -> all_chars Q s = true.
Proof.
  intros H. induction s as [|c s IH]; simpl; [reflexivity|].
  rewrite !andb_true_iff. intros [Hc Hs]. split; [now apply H | now apply IH].
Qed.

Lemma string_rev_append (a b : string) :
  string_rev (a ++ b) = (string_rev b ++ string_rev a)%string.
Proof.
  induction a as [|c a IH]; simpl.
  - now rewrite append_nil_r.
  - now rewrite IH, append_assoc.
Qed.

Lemma string_rev_involutive (s : string) : string_rev (string_rev s) = s.
Proof.
  induction s as [|c s IH]; simpl; [reflexivity|].
  now rewrite string_rev_append, IH.
Qed.

Lemma all_chars_rev (P : ascii -> bool) (s : string) :
  all_chars P (string_rev s) = all_chars P s.
Proof.
  induction s as [|c s IH]; simpl; [reflexivity|].
  rewrite all_chars_append, IH. simpl. rewrite andb_true_r. apply andb_comm.
Qed.

Lemma lstrip_kept (s : string) : head_kept s = true -> lstrip s = s.
Proof.
  destruct s as [|c s]; simpl; [reflexivity|].
  intros H. apply negb_true_iff in H. now rewrite H.
Qed.

Lemma strip_kept (s : string) :
  head_kept s = true -> head_kept (string_rev s) = true -> strip s = s.
Proof.
  intros H1 H2. unfold strip.
  now rewrite (lstrip_kept s H1), (lstrip_kept _ H2), string_rev_involutive.
Qed.

Lemma head_kept_all (s : string) :
  all_chars (fun c => negb (is_space c)) s = true -> head_kept s = true.
Proof.
  destruct s as [|c s]; simpl; [reflexivity|].
  intros H. now apply andb_prop in H as [H _].
Qed.

Lemma head_kept_append (a b : string) :
  a <> ""%string -> head_kept a = true -> head_kept (a ++ b) = true.
Proof. destruct a as [|c a]; [congruence | auto]. Qed.

Lemma is_int_char_not_space (c : ascii) :
  is_int_char c = true -> negb (is_space c) = true.
Proof.
  destruct c as [[] [] [] [] [] [] [] []]; vm_compute; congruence.
Qed.

Lemma is_int_char_not_comma (c : ascii) :
  is_int_char c = true -> negb (c =? ",")%char = true.
Proof.
  destruct c as [[] [] [] [] [] [] [] []]; vm_compute; congruence.
Qed.

Lemma string_of_uint_int_chars (u : Decimal.uint) :
  all_chars is_int_char (NilEmpty.string_of_uint u) = true.
Proof. induction u; simpl; auto. Qed.

Lemma str_int_chars (n : Z) : all_chars is_int_char (str n) = true.
Proof.
  unfold str, NilZero.string_of_int, NilZero.string_of_uint.
  destruct (Z.to_int n) as [u|u]; destruct u; simpl;
    rewrite ?string_of_uint_int_chars; reflexivity.
Qed.

Lemma str_nonempty (n : Z) : str n <> ""%string.
Proof.
  unfold str, NilZero.string_of_int, NilZero.string_of_uint.
  destruct (Z.to_int n) as [u|u]; destruct u; simpl; discriminate.
Qed.

Lemma strip_str (n : Z) : strip (str n) = str n.
Proof.
  apply strip_kept; apply head_kept_all; rewrite ?all_chars_rev;
    apply (all_chars_impl is_int_char _ _ is_int_char_not_space),
      str_int_chars.
Qed.

Lemma json_int_str (n : Z) : json_int (str n) = Some n.
Proof.
  unfold json_int, str. rewrite NilZero.isi.
  - now rewrite DecimalZ.of_to, String.eqb_refl.
  - destruct n as [|p|p]; simpl; intros H; try discriminate H.
    injection H as H. exact (Unsigned.to_uint_nonnil p H).
  - destruct n as [|p|p]; simpl; intros H; try discriminate H.
    injection H as H. exact (Unsigned.to_uint_nonnil p H).
Qed.

Lemma split_on_plain (sep : ascii) (a : string) :
  all_chars (fun c => negb (c =? sep)%char) a = true ->
  split_on sep a = [a].
Proof.
  induction a as [|x a IH]; simpl; [reflexivity|].
  rewrite andb_true_iff, negb_true_iff. intros [Hx Ha].
  now rewrite Hx, (IH Ha).
Qed.

Lemma split_on_separator (sep : ascii) (a b : string) :
  all_chars (fun c => negb (c =? sep)%char) a = true ->
  split_on sep (a ++ String sep b) = a :: split_on sep b.
Proof.
  induction a as [|x a IH]; simpl.
  - intros _. now rewrite Ascii.eqb_refl.
  - rewrite andb_true_iff, negb_true_iff. intros [Hx Ha].
    now rewrite Hx, (IH Ha).
Qed.

Lemma str_no_comma (n : Z) :
  all_chars (fun c => negb (c =? ",")%char) (str n) = true.
Proof.
  apply (all_chars_impl is_int_char _ _ is_int_char_not_comma), str_int_chars.
Qed.

Lemma join_cons (sep x y : string) (r : list string) :
  join sep (x :: y :: r) = (x ++ sep ++ join sep (y :: r))%string.
Proof. reflexivity. Qed.

(** The tokens between the commas of a serialised list: the first number,
    and every other number after a space. *)
Lemma split_on_join (x : Z) (r : list Z) :
  split_on "," (join ", " (map str (x :: r)))
  = str x :: map (fun y => String " " (str y)) r.
Proof.
  revert x. induction r as [|y r IH]; intros x.
  - simpl. apply split_on_plain, str_no_comma.
  - cbn [map]. rewrite join_cons.
    change (", " ++ join ", " (str y :: map str r))%string
      with (String "," (String " " (join ", " (map str (y :: r))))).
    rewrite split_on_separator by apply str_no_comma.
    cbn [split_on]. change (" " =? ",")%char with false. cbv iota.
    now rewrite IH.
Qed.

Lemma join_nonempty (x : Z) (r : list Z) :
  join ", " (map str (x :: r)) <> ""%string.
Proof.
  pose proof (str_nonempty x) as H.
  destruct r as [|y r]; cbn [map]; [simpl; exact H|].
  rewrite join_cons. destruct (str x); [congruence | discriminate].
Qed.

Lemma string_rev_nonempty (s : string) :
  s <> ""%string -> string_rev s <> ""%string.
Proof.
  intros H E. apply H. rewrite <- (string_rev_involutive s), E. reflexivity.
Qed.

Lemma head_kept_str (n : Z) : head_kept (str n) = true.
Proof.
  apply head_kept_all,
    (all_chars_impl is_int_char _ _ is_int_char_not_space), str_int_chars.
Qed.

Lemma head_kept_rev_str (n : Z) : head_kept (string_rev (str n)) = true.
Proof.
  apply head_kept_all. rewrite all_chars_rev.
  apply (all_chars_impl is_int_char _ _ is_int_char_not_space), str_int_chars.
Qed.

Lemma head_kept_join (x : Z) (r : list Z) :
  head_kept (join ", " (map str (x :: r))) = true.
Proof.
  destruct r as [|y r]; cbn [map]; [apply head_kept_str|].
  rewrite join_cons.
  apply head_kept_append; [apply str_nonempty | apply head_kept_str].
Qed.

Lemma head_kept_rev_join (x : Z) (r : list Z) :
  head_kept (string_rev (join ", " (map str (x :: r)))) = true.
Proof.
  revert x. induction r as [|y r IH]; intros x.
  - apply head_kept_rev_str.
  - cbn [map]. rewrite join_cons, !string_rev_append.
    rewrite append_assoc.
    apply head_kept_append; [|apply IH].
    apply string_rev_nonempty, join_nonempty.
Qed.

Lemma strip_after_space (s : string) : strip (String " " s) = strip s.
Proof. reflexivity. Qed.

Lemma sequence_map_Some {A : Type} (l : list A) : sequence (map Some l) = Some l.
Proof. induction l as [|a l IH]; simpl; [reflexivity | now rewrite IH]. Qed.

(** [json.loads(json.dumps(ids)) == ids]: the resolver reads back the list
    of ids that [create_alert] and [update_alert] stored. *)
Lemma json_loads_dumps (ids : list Z) : json_loads (json_dumps ids) = Some ids.
Proof.
  unfold json_loads, json_dumps.
  set (J := join ", " (map str ids)).
  change ("[" ++ J ++ "]")%string with (String "[" (J ++ "]")).
  assert (Hrev : string_rev (J ++ "]") = String "]" (string_rev J))
    by now rewrite string_rev_append.
  rewrite strip_kept; [|reflexivity|].
  - rewrite Hrev, string_rev_involutive.
    destruct ids as [|x r].
    + reflexivity.
    + subst J.
      rewrite strip_kept by (apply head_kept_join || apply head_kept_rev_join).
      destruct (String.eqb_spec (join ", " (map str (x :: r))) "") as [E|_];
        [now apply join_nonempty in E|].
      rewrite split_on_join. cbn [map].
      rewrite strip_str, json_int_str, map_map. cbn [sequence].
      replace (map (fun y => json_int (strip (String " " (str y)))) r)
        with (map Some r).
      * now rewrite sequence_map_Some.
      * apply map_ext. intros y.
        now rewrite strip_after_space, strip_str, json_int_str.
  - cbn [string_rev]. now rewrite Hrev.
Qed.

Lemma load_ids_dumps (ids : list Z) : load_ids (Some (json_dumps ids)) = Ok ids.
Proof.
  unfold load_ids. rewrite json_loads_dumps. reflexivity.
Qed.

(** The resolver half of C1 holds on every store: for a team alert whose
    column holds the serialisation of [team_ids], the resolved users are
    exactly the active users whose team is a member of [team_ids]. *)
Lemma _get_target_users_team_members (alert : Alert.t) (db : DB)
    (team_ids : list Z) :
  Alert.visibility_type alert = TEAM ->
  Alert.target_team_ids alert = Some (json_dumps team_ids) ->
  exists target_users,
    _get_target_users_for_alert alert db = Ok target_users /\
    forall user,
      In user target_users <->
      In user (users db) /\ User.is_active user = true /\
      exists team_id, User.team_id user = Some team_id /\ In team_id team_ids.
Proof.
  intros Hv Hcolumn. apply _get_target_users_team_exact; [exact Hv|].
  rewrite Hcolumn. apply load_ids_dumps.
Qed.

(** The list half of C1 holds in one direction only: the filter of
    [get_alerts_for_user] accepts a team alert for every user whose team
    was serialised into the column; it can accept other users too. *)
Lemma visibility_filter_covers_team (alert : Alert.t) (team_ids : list Z)
    (user : User.t) (user_id team_id : Z) :
  Alert.visibility_type alert = TEAM ->
  Alert.target_team_ids alert = Some (json_dumps team_ids) ->
  User.team_id user = Some team_id -> team_id <> 0 ->
  In team_id team_ids ->
  visibility_filter user user_id alert = true.
Proof.
  intros Hv Hcolumn Hteam Hnz Hin. unfold visibility_filter.
  rewrite Hv, Hcolumn, Hteam.
  assert (T : truthy_id (Some team_id) = Some team_id)
    by (destruct team_id; [congruence | reflexivity | reflexivity]).
  rewrite T, (sql_like_id_member team_ids team_id Hin). reflexivity.
Qed.

(** ** The foreign keys of the preference table are kept *)

Lemma In_update_first {A : Type} (p : A -> bool) (f : A -> A) (l : list A)
    (y : A) :
  In y (update_first p f l) -> In y l \/ exists x, In x l /\ y = f x.
Proof.
  induction l as [|x r IH]; simpl; [tauto|].
  destruct (p x); simpl.
  - intros [<-|H]; [right; exists x; auto | left; auto].
  - intros [<-|H]; [left; auto|].
    destruct (IH H) as [H'|(x' & Hx' & ->)]; [left; auto|].
    right. exists x'. auto.
Qed.

(** Marking read and snoozing keep every stored preference attached to a
    stored alert and a stored user. *)
Lemma mark_and_snooze_keep_references (now : datetime) (alert_id user_id : Z)
    (db : DB) :
  preferences_refer db ->
  preferences_refer (snd (mark_alert_as_read now alert_id user_id db)) /\
  preferences_refer (snd (snooze_alert_for_user now alert_id user_id db)).
Proof.
  intros Hrefer.
  assert (H : forall method,
             (forall p, UserAlertPreference.alert_id (method p)
                        = UserAlertPreference.alert_id p /\
                        UserAlertPreference.user_id (method p)
                        = UserAlertPreference.user_id p) ->
             preferences_refer
               (snd ((preference <-
                        _get_or_create_user_preference alert_id user_id ;;
                      match preference with
                      | Some _ =>
                          on_preference alert_id user_id method ;;; ret true
                      | None => ret false
                      end) db))).
  { intros method Hkeep. rewrite on_get_or_create.
    destruct (find (preference_for alert_id user_id) (preferences db)) eqn:E.
    - intros p Hp. cbn [snd preferences with_preferences] in Hp.
      apply In_update_first in Hp as [Hp|(x & Hx & ->)].
      + exact (Hrefer p Hp).
      + destruct (Hkeep x) as [-> ->]. exact (Hrefer x Hx).
    - destruct (is_some (get_by_id alert_id db) &&
                is_some (get_user user_id db)) eqn:B; [|exact Hrefer].
      apply andb_prop in B as [BA BU]. apply is_some_true in BA, BU.
      intros p Hp. cbn [snd preferences with_preferences] in Hp.
      apply in_app_or in Hp as [Hp|[<-|[]]]; [exact (Hrefer p Hp)|].
      destruct (Hkeep (UserAlertPreference.create
                         (next_id (map UserAlertPreference.id (preferences db)))
                         user_id alert_id)) as [-> ->].
      split; assumption. }
  split; apply H; intros p; split; reflexivity.
Qed.

(** * Further properties of the code *)

(** ** Snoozing *)

Lemma end_of_day_bounds (now : datetime) :
  now - 86400000000 < UserAlertPreference.end_of_day now - 86399000000 <= now /\
  UserAlertPreference.end_of_day now / 86400000000 = now / 86400000000.
Proof.
  unfold UserAlertPreference.end_of_day.
  pose proof (Z.mod_pos_bound now 86400000000 eq_refl) as Hm.
  pose proof (Z.div_mod now 86400000000 ltac:(lia)) as Hd.
  split; [lia|].
  rewrite Z.mul_comm. symmetry.
  apply (Z.div_unique _ _ _ (86399 * 1000000)); lia.
Qed.

(** X1. A preference snoozed at [now] is not due at any instant before the
    [snoozed_until] that the snooze set, whatever its other fields: the
    property answers false and leaves the preference alone, and the query
    of the reminder pass does not select it (not even at the instant
    [snoozed_until] itself). *)
Theorem snooze_defers_reminder (now now' : datetime) (alert : option Alert.t)
    (alert_id h : Z) (p : UserAlertPreference.t) :
  now' < UserAlertPreference.end_of_day now ->
  UserAlertPreference.should_receive_reminder now' alert
    (UserAlertPreference.snooze_for_day now p)
  = (Some false, UserAlertPreference.snooze_for_day now p) /\
  reminder_preference_filter now' alert_id h
    (UserAlertPreference.snooze_for_day now p) = false /\
  reminder_preference_filter (UserAlertPreference.end_of_day now) alert_id h
    (UserAlertPreference.snooze_for_day now p) = false.
Proof.
  intros Hlt. split; [|split].
  - unfold UserAlertPreference.should_receive_reminder. simpl.
    now apply Z.ltb_lt in Hlt as ->.
  - unfold reminder_preference_filter. simpl.
    replace (UserAlertPreference.end_of_day now <? now') with false
      by (symmetry; apply Z.ltb_ge; lia).
    now rewrite !andb_false_r.
  - unfold reminder_preference_filter. simpl.
    rewrite Z.ltb_irrefl. now rewrite !andb_false_r.
Qed.

Lemma snooze_defers_reminder_witness :
  UserAlertPreference.should_receive_reminder (t0 + 3 * hour)
    (Some two_hourly_alert)
    (UserAlertPreference.snooze_for_day (t0 + hour)
       (UserAlertPreference.create 1 1 1))
  = (Some false,
     UserAlertPreference.snooze_for_day (t0 + hour)
       (UserAlertPreference.create 1 1 1)).
Proof.
  apply (snooze_defers_reminder (t0 + hour) (t0 + 3 * hour)
           (Some two_hourly_alert) 1 2 (UserAlertPreference.create 1 1 1)).
  vm_compute. reflexivity.
Defined.

(** X2. Once the clock has reached [snoozed_until], the property treats an
    unread snoozed preference as due when it was never reminded or the
    interval has passed since the last reminder, and it un-snoozes the
    preference on that occasion: [is_snoozed] and [snoozed_until] are
    cleared, the snooze counter and every other field are kept. *)
Theorem snooze_runs_out (now now' : datetime) (alert : Alert.t) (h : Z)
    (p : UserAlertPreference.t) :
  Alert.reminder_interval_hours alert = Some h ->
  UserAlertPreference.is_read p = false ->
  UserAlertPreference.end_of_day now <= now' ->
  (forall last, UserAlertPreference.last_reminded_at p = Some last ->
                last + timedelta_hours h <= now') ->
  UserAlertPreference.should_receive_reminder now' (Some alert)
    (UserAlertPreference.snooze_for_day now p)
  = (Some true,
     UserAlertPreference.reset_snooze
       (UserAlertPreference.snooze_for_day now p)) /\
  UserAlertPreference.snooze_count
    (UserAlertPreference.reset_snooze
       (UserAlertPreference.snooze_for_day now p))
  = UserAlertPreference.snooze_count p + 1.
Proof.
  intros Hh Hread Hover Hlast. split; [|reflexivity].
  unfold UserAlertPreference.should_receive_reminder,
    UserAlertPreference.interval_of, UserAlertPreference.total_seconds_lt.
  rewrite Hh. simpl. rewrite Hread.
  replace (now' <? UserAlertPreference.end_of_day now) with false
    by (symmetry; apply Z.ltb_ge; lia).
  destruct (UserAlertPreference.last_reminded_at p) as [last|]; [|reflexivity].
  specialize (Hlast last eq_refl). unfold timedelta_hours in Hlast.
  replace (now' - last <? h * 3600 * 1000000) with false
    by (symmetry; apply Z.ltb_ge; lia).
  reflexivity.
Qed.

Lemma snooze_runs_out_witness :
  fst (UserAlertPreference.should_receive_reminder (t0 + 24 * hour)
         (Some two_hourly_alert)
         (UserAlertPreference.snooze_for_day (t0 + hour)
            (reminded_preference t0)))
  = Some true.
Proof.
  destruct (snooze_runs_out (t0 + hour) (t0 + 24 * hour) two_hourly_alert 2
              (reminded_preference t0) eq_refl eq_refl) as [H _].
  - vm_compute. discriminate.
  - intros last E. injection E as <-. vm_compute. discriminate.
  - now rewrite H.
Defined.

(** X3. A snooze in the last second of the day does not defer anything:
    for an unread preference that was never reminded, the property
    evaluated at the instant of the snooze answers false exactly when the
    time of day is before 23:59:59. *)
Theorem snooze_last_second (now : datetime) (alert : option Alert.t)
    (p : UserAlertPreference.t) :
  UserAlertPreference.is_read p = false ->
  UserAlertPreference.last_reminded_at p = None ->
  fst (UserAlertPreference.should_receive_reminder now alert
         (UserAlertPreference.snooze_for_day now p))
  = Some (negb (now mod 86400000000 <? 86399000000)).
Proof.
  intros Hread Hlast.
  unfold UserAlertPreference.should_receive_reminder. simpl.
  rewrite Hread, Hlast.
  assert (E : (now <? UserAlertPreference.end_of_day now)
              = (now mod 86400000000 <? 86399000000)).
  { unfold UserAlertPreference.end_of_day.
    pose proof (Z.div_mod now 86400000000 ltac:(lia)) as Hd.
    destruct (now mod 86400000000 <? 86399000000) eqn:M.
    - apply Z.ltb_lt in M. apply Z.ltb_lt. lia.
    - apply Z.ltb_ge in M. apply Z.ltb_ge. lia. }
  rewrite E. now destruct (now mod 86400000000 <? 86399000000).
Qed.

Lemma snooze_last_second_witness :
  fst (UserAlertPreference.should_receive_reminder
         (t0 + 24 * hour - 500000) (Some two_hourly_alert)
         (UserAlertPreference.snooze_for_day (t0 + 24 * hour - 500000)
            (UserAlertPreference.create 1 1 1)))
  = Some true.
Proof.
  rewrite (snooze_last_second (t0 + 24 * hour - 500000)
             (Some two_hourly_alert) (UserAlertPreference.create 1 1 1)
             eq_refl eq_refl).
  vm_compute. reflexivity.
Defined.

(** X4. The property settles in one evaluation: evaluated again at the same
    instant on the preference it returned, it gives the same verdict and
    changes nothing more.  Its only possible write is the reset of
    [is_snoozed] and [snoozed_until], made only for a snoozed preference
    whose snooze has run out. *)
Theorem should_receive_reminder_settles (now : datetime)
    (alert : option Alert.t) (p : UserAlertPreference.t) :
  let r := UserAlertPreference.should_receive_reminder now alert p in
  UserAlertPreference.should_receive_reminder now alert (snd r) = r /\
  (snd r = p \/
   snd r = UserAlertPreference.reset_snooze p /\
   UserAlertPreference.is_snoozed p = true /\
   forall u, UserAlertPreference.snoozed_until p = Some u -> u <= now).
Proof.
  assert (Hno : forall x : datetime, @None datetime = Some x -> x <= now)
    by discriminate.
  unfold UserAlertPreference.should_receive_reminder.
  generalize UserAlertPreference.total_seconds_lt. intros test.
  destruct p as [i u a rd ra sn sa su sc lr rc ua]; simpl.
  destruct sn, su as [until|], rd, lr as [last|];
    try destruct (now <? until) eqn:L;
    try (assert (R : forall x, Some until = Some x -> x <= now)
           by (intros x E; injection E as <-; apply Z.ltb_ge; exact L));
    simpl; rewrite ?L;
    try destruct (UserAlertPreference.interval_of alert) as [z|] eqn:I;
    try destruct (test (now - last) (z * 3600)) eqn:T;
    simpl; rewrite ?L, ?I, ?T;
    (split; [reflexivity|]);
    first [left; reflexivity | right; repeat split; assumption].
Qed.

(** X5. Snoozing is counted, not idempotent: after a run of snoozes the
    snooze counter has grown by the number of calls and [snoozed_until] is
    the end of the day of the last call, while the read state and the
    reminder bookkeeping are what they were. *)
Theorem snooze_for_day_counts (times : list datetime)
    (p : UserAlertPreference.t) :
  let q := fold_left (fun p t => UserAlertPreference.snooze_for_day t p)
             times p in
  UserAlertPreference.snooze_count q
  = UserAlertPreference.snooze_count p + Z.of_nat (List.length times) /\
  UserAlertPreference.is_read q = UserAlertPreference.is_read p /\
  UserAlertPreference.read_at q = UserAlertPreference.read_at p /\
  UserAlertPreference.last_reminded_at q
  = UserAlertPreference.last_reminded_at p /\
  UserAlertPreference.reminder_count q = UserAlertPreference.reminder_count p /\
  (times <> [] ->
   UserAlertPreference.is_snoozed q = true /\
   UserAlertPreference.snoozed_until q
   = Some (UserAlertPreference.end_of_day (last times 0))).
Proof.
  revert p. induction times as [|t r IH]; intros p.
  - cbn [fold_left List.length]. rewrite Z.add_0_r.
    repeat split; congruence.
  - cbn [fold_left].
    destruct (IH (UserAlertPreference.snooze_for_day t p))
      as (Hc & Hr & Ha & Hl & Hn & Hs).
    cbv zeta. rewrite Hc, Hr, Ha, Hl, Hn.
    change (List.length (t :: r)) with (S (List.length r)).
    cbn [UserAlertPreference.snooze_for_day
           UserAlertPreference.snooze_count UserAlertPreference.is_read
           UserAlertPreference.read_at UserAlertPreference.last_reminded_at
           UserAlertPreference.reminder_count].
    repeat split; try lia.
    + destruct r as [|t' r']; [reflexivity|]. apply Hs. discriminate.
    + destruct r as [|t' r']; [reflexivity|].
      change (last (t :: t' :: r') 0) with (last (t' :: r') 0).
      apply Hs. discriminate.
Qed.

(** ** Active alerts *)

(** X6. The alerts that the reminder pass selects are exactly the alerts
    with reminders enabled that the [is_active] property accepts and that
    do not expire at this very instant: the query requires
    [expiry_time > now] where the property accepts [now <= expiry_time]. *)
Theorem reminder_alert_filter_active (now : datetime) (alert : Alert.t) :
  reminder_alert_filter now alert = true <->
  Alert.is_active now alert = true /\
  Alert.reminders_enabled alert = Some true /\
  Alert.expiry_time alert <> Some now.
Proof.
  unfold reminder_alert_filter, Alert.is_active.
  destruct (AlertStatus_eqb (Alert.status alert) ACTIVE); simpl;
    [|split; [discriminate | intros [H _]; discriminate H]].
  destruct (Alert.reminders_enabled alert) as [[|]|]; simpl;
    try (split; [discriminate | intros (_ & H & _); discriminate H]).
  destruct (Z.ltb_spec now (Alert.start_time alert)) as [L|L].
  - replace (Alert.start_time alert <=? now) with false
      by (symmetry; apply Z.leb_gt; lia).
    split; [discriminate | intros [H _]; discriminate H].
  - replace (Alert.start_time alert <=? now) with true
      by (symmetry; apply Z.leb_le; lia).
    simpl. destruct (Alert.expiry_time alert) as [e|].
    + destruct (Z.gtb_spec e now) as [G|G].
      * replace (now >? e) with false
          by (symmetry; rewrite Z.gtb_ltb; apply Z.ltb_ge; lia).
        split; [|reflexivity]. intros _. repeat split. intros E.
        injection E as ->. lia.
      * split; [discriminate|]. intros (H & _ & N).
        destruct (Z.gtb_spec now e) as [G'|G']; [discriminate H|].
        exfalso. apply N. f_equal. lia.
    + split; [|reflexivity]. intros _. repeat split. discriminate.
Qed.

(** ** Seeding preferences *)

Lemma new_preferences_covers (alert_id : Z)
    (existing : list UserAlertPreference.t) (target_users : list User.t) :
  forall next user,
    In user target_users ->
    existsb (preference_for alert_id (User.id user))
      (existing ++ new_preferences next alert_id existing target_users)
    = true.
Proof.
  induction target_users as [|u rest IH]; intros next user Hin;
    [contradiction|].
  rewrite existsb_app. cbn [new_preferences].
  destruct (existsb (preference_for alert_id (User.id u)) existing) eqn:E.
  - destruct Hin as [->|Hin].
    + now rewrite E.
    + rewrite <- existsb_app. now apply IH.
  - destruct Hin as [->|Hin].
    + cbn [existsb]. rewrite preference_for_create. simpl.
      apply orb_true_r.
    + specialize (IH (next + 1) user Hin). rewrite existsb_app in IH.
      cbn [existsb]. apply orb_true_iff in IH as [IH|IH]; rewrite IH;
        [reflexivity|]. rewrite !orb_true_r. reflexivity.
Qed.

Lemma new_preferences_none (alert_id : Z)
    (existing : list UserAlertPreference.t) (target_users : list User.t) :
  (forall user, In user target_users ->
     existsb (preference_for alert_id (User.id user)) existing = true) ->
  forall next, new_preferences next alert_id existing target_users = [].
Proof.
  induction target_users as [|u rest IH]; intros H next; [reflexivity|].
  cbn [new_preferences]. rewrite (H u (or_introl eq_refl)).
  apply IH. intros user Hin. apply H. now right.
Qed.

(** X7. Seeding is idempotent and only ever appends: running
    [_create_user_preferences_for_alert] adds rows behind the stored ones,
    and running it again on the result adds nothing. *)
Theorem create_user_preferences_idempotent (alert : Alert.t) (db db' : DB) :
  _create_user_preferences_for_alert alert db = (Ok tt, db') ->
  (exists seeded, preferences db' = preferences db ++ seeded) /\
  _create_user_preferences_for_alert alert db' = (Ok tt, db').
Proof.
  unfold _create_user_preferences_for_alert, bind, read, modify.
  destruct (_get_target_users_for_alert alert db) as [targets|e] eqn:T;
    [|discriminate].
  intros H. injection H as Hdb.
  assert (Hp : preferences db'
               = preferences db ++
                 new_preferences
                   (next_id (map UserAlertPreference.id (preferences db)))
                   (Alert.id alert) (preferences db) targets)
    by now rewrite <- Hdb.
  assert (Ht : _get_target_users_for_alert alert db' = Ok targets)
    by now rewrite <- Hdb.
  split; [eexists; exact Hp|].
  rewrite Ht.
  rewrite (new_preferences_none (Alert.id alert) (preferences db') targets).
  - rewrite app_nil_r. now destruct db'.
  - intros user Hin. rewrite Hp. now apply new_preferences_covers.
Qed.

Lemma create_user_preferences_idempotent_witness :
  _create_user_preferences_for_alert design_alert design_alert_db
  = (Ok tt, design_alert_db).
Proof.
  apply (create_user_preferences_idempotent design_alert
           (with_preferences [] design_alert_db) design_alert_db).
  vm_compute. reflexivity.
Defined.

(** ** Creating an alert *)

Lemma create_target_column_some (ids : option (list Z)) :
  ids <> Some [] -> exists column, create_target_column ids = Some column.
Proof.
  destruct ids as [[|x r]|]; intros H; [congruence| |]; eexists; reflexivity.
Qed.

Lemma next_alert_id_readable (s : Store) (a : Alert.t) :
  In a (alerts (readable s)) -> Alert.id a <> next_alert_id s.
Proof.
  intros H. unfold next_alert_id.
  pose proof (next_id_above
                (map Alert.id (alerts (readable s)) ++
                 map RawAlert.id (unreadable s)) (Alert.id a)) as Habove.
  assert (Alert.id a < next_id (map Alert.id (alerts (readable s)) ++
                                map RawAlert.id (unreadable s))); [|lia].
  apply Habove, in_or_app. left. now apply in_map.
Qed.

Lemma next_alert_id_unreadable (s : Store) (r : RawAlert.t) :
  In r (unreadable s) -> RawAlert.id r <> next_alert_id s.
Proof.
  intros H. unfold next_alert_id.
  pose proof (next_id_above
                (map Alert.id (alerts (readable s)) ++
                 map RawAlert.id (unreadable s)) (RawAlert.id r)) as Habove.
  assert (RawAlert.id r < next_id (map Alert.id (alerts (readable s)) ++
                                   map RawAlert.id (unreadable s))); [|lia].
  apply Habove, in_or_app. right. now apply in_map.
Qed.

(** X8. [create_alert] never returns an alert and never seeds a
    preference.  For every request and every store the readable rows,
    the preferences among them, are as before.  A request whose id lists
    are absent or not empty is committed as one new row under a key that
    no stored alert has, with the lowercase values of the request's schema
    enumerations in its severity, delivery type and visibility columns;
    that row does not read back, and the call raises the [LookupError] of
    the refresh.  A request with an empty id list fails at the insert and
    leaves the store as it was. *)
Theorem create_alert_never_returns (now : datetime)
    (alert_data : AlertCreate.t) (created_by : Z) (s : Store) :
  (forall alert,
     fst (create_alert now alert_data created_by s) <> Ok alert) /\
  readable (snd (create_alert now alert_data created_by s)) = readable s /\
  (forall team_column user_column,
     create_target_column (AlertCreate.target_team_ids alert_data)
     = Some team_column ->
     create_target_column (AlertCreate.target_user_ids alert_data)
     = Some user_column ->
     exists msg row,
       create_alert now alert_data created_by s
       = (Raise (LookupError msg),
          mkStore (readable s) (unreadable s ++ [row])) /\
       refresh row = Raise (LookupError msg) /\
       RawAlert.id row = next_alert_id s /\
       (forall a, In a (alerts (readable s)) ->
                  Alert.id a <> RawAlert.id row) /\
       (forall r, In r (unreadable s) -> RawAlert.id r <> RawAlert.id row) /\
       RawAlert.severity row
       = Schema.SeverityLevel_value (AlertCreate.severity alert_data) /\
       RawAlert.delivery_type row
       = Schema.DeliveryType_value (AlertCreate.delivery_type alert_data) /\
       RawAlert.visibility_type row
       = Schema.VisibilityType_value
           (AlertCreate.visibility_type alert_data) /\
       RawAlert.status row = "ACTIVE"%string /\
       RawAlert.created_by row = created_by /\
       RawAlert.target_team_ids row = team_column /\
       RawAlert.target_user_ids row = user_column) /\
  (AlertCreate.target_team_ids alert_data = Some [] \/
   AlertCreate.target_user_ids alert_data = Some [] ->
   exists msg,
     create_alert now alert_data created_by s = (Raise (DbError msg), s)).
Proof.
  rewrite create_alert_run.
  split; [|split; [|split]].
  - intros alert.
    destruct (create_target_column (AlertCreate.target_team_ids alert_data));
      [|discriminate].
    destruct (create_target_column (AlertCreate.target_user_ids alert_data));
      discriminate.
  - destruct (create_target_column (AlertCreate.target_team_ids alert_data));
      [|reflexivity].
    destruct (create_target_column (AlertCreate.target_user_ids alert_data));
      reflexivity.
  - intros team_column user_column -> ->.
    eexists. eexists. split; [reflexivity|].
    split; [apply refresh_new_alert_row|].
    split; [reflexivity|].
    split; [apply next_alert_id_readable|].
    split; [apply next_alert_id_unreadable|].
    repeat split.
  - intros [E|E]; rewrite E; cbn [create_target_column].
    + eexists. reflexivity.
    + destruct (create_target_column
                  (AlertCreate.target_team_ids alert_data));
        eexists; reflexivity.
Qed.

(** X10. An alert that [create_alert] stored cannot be loaded again: for
    every request whose id lists are absent or not empty, [get_by_id] with
    the key of the new row raises the [LookupError] of the refresh, and so
    does every [update_alert] of that alert, which changes nothing. *)
Theorem created_alert_cannot_be_updated (now : datetime)
    (alert_data : AlertCreate.t) (created_by : Z) (s : Store)
    (update_data : AlertUpdate.t) :
  AlertCreate.target_team_ids alert_data <> Some [] ->
  AlertCreate.target_user_ids alert_data <> Some [] ->
  exists msg s',
    create_alert now alert_data created_by s = (Raise (LookupError msg), s') /\
    load_by_id (next_alert_id s) s' = Raise (LookupError msg) /\
    update_alert (next_alert_id s) update_data s'
    = (Raise (LookupError msg), s').
Proof.
  intros Hteams Husers. rewrite create_alert_run.
  destruct (create_target_column_some _ Hteams) as [team_column ->].
  destruct (create_target_column_some _ Husers) as [user_column ->].
  eexists. eexists. split; [reflexivity|].
  assert (Hload : load_by_id (next_alert_id s)
                    (mkStore (readable s)
                       (unreadable s ++
                        [new_alert_row (next_alert_id s) now alert_data
                           created_by team_column user_column]))
                  = Raise (LookupError
                             (not_among
                                (Schema.SeverityLevel_value
                                   (AlertCreate.severity alert_data))
                                "severitylevel" "INFO, WARNING, CRITICAL"))).
  { unfold load_by_id. cbn [unreadable].
    rewrite (find_app_new _ (unreadable s)
               (new_alert_row (next_alert_id s) now alert_data created_by
                  team_column user_column)).
    - now rewrite refresh_new_alert_row.
    - apply find_none_iff. intros r Hr. apply Z.eqb_neq.
      now apply next_alert_id_unreadable.
    - apply Z.eqb_refl. }
  split; [exact Hload|].
  unfold update_alert. now rewrite Hload.
Qed.

Lemma created_alert_cannot_be_updated_witness :
  exists msg s',
    create_alert t0 (request Schema.TEAM Schema.IN_APP 2 (Some [11]) None) 1
      (typed directory)
    = (Raise (LookupError msg), s') /\
    load_by_id 1 s' = Raise (LookupError msg) /\
    update_alert 1 no_update s' = (Raise (LookupError msg), s').
Proof.
  apply (created_alert_cannot_be_updated t0
           (request Schema.TEAM Schema.IN_APP 2 (Some [11]) None) 1
           (typed directory) no_update); discriminate.
Defined.

Lemma Forall2_In_l {A B : Type} (R : A -> B -> Prop) (l : list A)
    (l' : list B) (x : A) :
  Forall2 R l l' -> In x l -> exists y, In y l' /\ R x y.
Proof.
  induction 1 as [|a b l l' Hab _ IH]; [contradiction|].
  intros [->|H].
  - exists b. split; [now left | exact Hab].
  - destruct (IH H) as (y & Hy & Hxy). exists y. split; [now right | exact Hxy].
Qed.

Lemma Forall2_In_r {A B : Type} (R : A -> B -> Prop) (l : list A)
    (l' : list B) (y : B) :
  Forall2 R l l' -> In y l' -> exists x, In x l /\ R x y.
Proof.
  induction 1 as [|a b l l' Hab _ IH]; [contradiction|].
  intros [->|H].
  - exists a. split; [now left | exact Hab].
  - destruct (IH H) as (x & Hx & Hxy). exists x. split; [now right | exact Hxy].
Qed.

(** ** Updating and archiving an alert *)

(** A row in which the update set no enumeration column reads back, with
    the enumeration members, the key and the creator of the loaded alert
    and the target columns of the update. *)
Lemma refresh_after_plain_update (u : AlertUpdate.t) (alert : Alert.t)
    (row : RawAlert.t) :
  apply_update u alert = Some row ->
  sets_enumeration u = false ->
  exists alert',
    refresh row = Ok alert' /\
    Alert.id alert' = Alert.id alert /\
    Alert.severity alert' = Alert.severity alert /\
    Alert.delivery_type alert' = Alert.delivery_type alert /\
    Alert.visibility_type alert' = Alert.visibility_type alert /\
    Alert.status alert' = Alert.status alert /\
    Alert.target_team_ids alert'
    = update_target_column (AlertUpdate.target_team_ids u)
        (Alert.target_team_ids alert) /\
    Alert.target_user_ids alert'
    = update_target_column (AlertUpdate.target_user_ids u)
        (Alert.target_user_ids alert) /\
    Alert.created_by alert' = Alert.created_by alert.
Proof.
  intros Hrow Hset.
  destruct (apply_update_columns u alert row Hrow)
    as (Hid & Hby & Hteams & Husers & Hs & Hd & Hv & Ht).
  unfold sets_enumeration in Hset.
  destruct (AlertUpdate.severity u); [|simpl in Hset; discriminate Hset].
  destruct (AlertUpdate.delivery_type u); [|simpl in Hset; discriminate Hset].
  destruct (AlertUpdate.visibility_type u);
    [|simpl in Hset; discriminate Hset].
  destruct (AlertUpdate.status u); [|simpl in Hset; discriminate Hset].
  cbn [required_text bound_text] in Hs, Hd, Hv, Ht.
  injection Hs as Hs. injection Hd as Hd. injection Hv as Hv.
  injection Ht as Ht.
  unfold refresh.
  rewrite <- Hs, <- Hd, <- Hv, <- Ht, SeverityLevel_of_name_name,
    DeliveryType_of_name_name, VisibilityType_of_name_name,
    AlertStatus_of_name_name.
  eexists. split; [reflexivity|].
  cbn [Alert.id Alert.severity Alert.delivery_type Alert.visibility_type
       Alert.status Alert.target_team_ids Alert.target_user_ids
       Alert.created_by].
  rewrite Hid, Hby, Hteams, Husers. repeat split.
Qed.

Lemma targeting_unset (u : AlertUpdate.t) :
  targeting_changed u = false ->
  AlertUpdate.target_team_ids u = Unset /\
  AlertUpdate.target_user_ids u = Unset.
Proof.
  unfold targeting_changed. intros H.
  apply orb_false_iff in H as [H Hu].
  apply orb_false_iff in H as [_ Ht].
  split.
  - destruct (AlertUpdate.target_team_ids u); [reflexivity | discriminate Ht].
  - destruct (AlertUpdate.target_user_ids u); [reflexivity | discriminate Hu].
Qed.

(** X11. An update that sets neither a targeting field nor an enumeration
    field, of an alert whose row reads back, touches no preference: every
    read and snooze state is kept, as are the users, the teams, the
    deliveries and the rows that do not read back.  On an unknown key it
    returns [None] and changes nothing.  On a stored alert it raises only
    when the request sets the title, the message or the start time to
    null, and then changes nothing; else it returns the updated alert,
    which is stored under the same key and keeps the creator, the
    enumeration members and the targeting. *)
Theorem update_alert_without_targeting (alert_id : Z)
    (alert_data : AlertUpdate.t) (s : Store) :
  find (fun r => RawAlert.id r =? alert_id) (unreadable s) = None ->
  targeting_changed alert_data = false ->
  sets_enumeration alert_data = false ->
  exists r s',
    update_alert alert_id alert_data s = (r, s') /\
    preferences (readable s') = preferences (readable s) /\
    users (readable s') = users (readable s) /\
    teams (readable s') = teams (readable s) /\
    deliveries (readable s') = deliveries (readable s) /\
    unreadable s' = unreadable s /\
    (get_by_id alert_id (readable s) = None -> r = Ok None /\ s' = s) /\
    (forall alert,
       get_by_id alert_id (readable s) = Some alert ->
       (apply_update alert_data alert = None ->
        (exists msg, r = Raise (DbError msg)) /\ s' = s) /\
       (apply_update alert_data alert <> None ->
        exists alert',
          r = Ok (Some alert') /\
          get_by_id alert_id (readable s') = Some alert' /\
          Alert.id alert' = alert_id /\
          Alert.created_by alert' = Alert.created_by alert /\
          Alert.severity alert' = Alert.severity alert /\
          Alert.delivery_type alert' = Alert.delivery_type alert /\
          Alert.visibility_type alert' = Alert.visibility_type alert /\
          Alert.status alert' = Alert.status alert /\
          Alert.target_team_ids alert' = Alert.target_team_ids alert /\
          Alert.target_user_ids alert' = Alert.target_user_ids alert)).
Proof.
  intros Hraw Hunchanged Hplain.
  destruct (get_by_id alert_id (readable s)) as [alert|] eqn:G.
  - rewrite (update_alert_run alert_id alert_data s alert Hraw G).
    destruct (apply_update alert_data alert) as [row|] eqn:A.
    + destruct (refresh_after_plain_update _ _ _ A Hplain)
        as (alert' & Hback & Hid & Hsev & Hdel & Hvis & Hstatus & Hteams &
            Husers & Hby).
      destruct (targeting_unset _ Hunchanged) as [Et Eu].
      rewrite Et in Hteams. rewrite Eu in Husers.
      cbn [update_target_column] in Hteams, Husers.
      rewrite Hback, Hunchanged.
      eexists. eexists. split; [reflexivity|].
      cbn [readable unreadable preferences users teams deliveries
           with_alerts].
      do 5 (split; [reflexivity|]). split; [discriminate|].
      intros a Ha. injection Ha as <-. split; [congruence|]. intros _.
      exists alert'. split; [reflexivity|].
      assert (Hkey : Alert.id alert = alert_id).
      { apply find_some in G as [_ E]. now apply Z.eqb_eq in E. }
      split.
      { unfold get_by_id in *. cbn [alerts with_alerts].
        apply (find_update_first_const _ alert); [exact G|].
        apply Z.eqb_eq. congruence. }
      repeat split; congruence.
    + eexists. eexists. split; [reflexivity|].
      do 5 (split; [reflexivity|]). split; [discriminate|].
      intros a Ha. injection Ha as <-. split.
      * intros _. split; [eexists|]; reflexivity.
      * congruence.
  - exists (Ok None), s. split.
    { unfold update_alert, load_by_id. now rewrite Hraw, G. }
    do 5 (split; [reflexivity|]). split; [auto|].
    intros a Ha. discriminate Ha.
Qed.

(** Carol has read the organization alert; its title is changed. *)
Lemma update_alert_without_targeting_witness :
  exists alert' s',
    update_alert 1
      (AlertUpdate.mk (SetTo (Some "Maintenance moved"%string)) Unset Unset
         Unset Unset Unset Unset Unset Unset Unset Unset Unset)
      (typed read_once_db)
    = (Ok (Some alert'), s') /\
    preferences (readable s') = preferences read_once_db.
Proof.
  destruct (update_alert_without_targeting 1
              (AlertUpdate.mk (SetTo (Some "Maintenance moved"%string)) Unset
                 Unset Unset Unset Unset Unset Unset Unset Unset Unset Unset)
              (typed read_once_db) eq_refl eq_refl eq_refl)
    as (r & s' & Hcall & Hprefs & _ & _ & _ & _ & _ & Hstored).
  destruct (Hstored (organization_alert DeliveryType.IN_APP) eq_refl)
    as [_ Hupdated].
  destruct Hupdated as (alert' & -> & _); [discriminate|].
  exists alert', s'. split; [exact Hcall | exact Hprefs].
Defined.

(** X9. The team ids of an update go through the store and come back:
    when an update sets the target teams of a stored team alert to
    [team_ids] and sets no enumeration field, the update returns the
    alert, and the users who hold a preference for the alert afterwards
    are exactly the active users whose team is a member of [team_ids]. *)
Theorem update_team_alert_recipients (alert_id : Z)
    (alert_data : AlertUpdate.t) (s : Store) (alert : Alert.t)
    (team_ids : list Z) :
  find (fun r => RawAlert.id r =? alert_id) (unreadable s) = None ->
  get_by_id alert_id (readable s) = Some alert ->
  Alert.visibility_type alert = TEAM ->
  sets_enumeration alert_data = false ->
  AlertUpdate.target_team_ids alert_data = SetTo (Some team_ids) ->
  apply_update alert_data alert <> None ->
  exists alert' s',
    update_alert alert_id alert_data s = (Ok (Some alert'), s') /\
    Alert.target_team_ids alert' = Some (json_dumps team_ids) /\
    forall user_id,
      (exists p, In p (preferences (readable s')) /\
                 UserAlertPreference.alert_id p = alert_id /\
                 UserAlertPreference.user_id p = user_id) <->
      (exists user, In user (users (readable s)) /\ User.id user = user_id /\
                    User.is_active user = true /\
                    exists team_id, User.team_id user = Some team_id /\
                                    In team_id team_ids).
Proof.
  intros Hraw G Hteam Hplain Hset Hcommit.
  rewrite (update_alert_run alert_id alert_data s alert Hraw G).
  destruct (apply_update alert_data alert) as [row|] eqn:A;
    [|now contradiction Hcommit].
  destruct (refresh_after_plain_update _ _ _ A Hplain)
    as (alert' & Hback & Hid & _ & _ & Hvis & _ & Hteams & _).
  rewrite Hset in Hteams. cbn [update_target_column] in Hteams.
  rewrite Hteam in Hvis.
  assert (Hkey : Alert.id alert' = alert_id).
  { rewrite Hid. apply find_some in G as [_ E]. now apply Z.eqb_eq in E. }
  assert (Hchanged : targeting_changed alert_data = true).
  { unfold targeting_changed. rewrite Hset. cbn [is_set].
    now rewrite orb_true_r. }
  rewrite Hback, Hchanged.
  destruct (_get_target_users_team_members alert' (readable s) team_ids
              Hvis Hteams) as (targets & Htargets & Hmembers).
  destruct (_update_user_preferences_run alert'
              (with_alerts
                 (update_first (fun a => Alert.id a =? alert_id)
                    (fun _ => alert') (alerts (readable s)))
                 (readable s))
              targets)
    as (seeded & Hupdate & Hseeded).
  { now rewrite _get_target_users_with_alerts. }
  rewrite Hkey in Hupdate, Hseeded.
  exists alert'. eexists. split.
  { unfold lift, bind. cbn [readable unreadable]. rewrite Hupdate.
    reflexivity. }
  split; [exact Hteams|].
  cbn [readable preferences with_preferences with_alerts].
  intros user_id. split.
  - intros (p & Hp & Ha & Hu).
    apply in_app_or in Hp as [Hp|Hp].
    + apply filter_In in Hp as [_ Hp].
      apply negb_true_iff, Z.eqb_neq in Hp. contradiction.
    + destruct (Forall2_In_r _ _ _ p Hseeded Hp) as (user & Huser & Hrow).
      exists user. apply Hmembers in Huser as (Hin & Hact & Hmember).
      destruct Hrow as (E & _). rewrite E in Hu. auto.
  - intros (user & Hin & Huser & Hact & Hmember).
    assert (Htarget : In user targets) by (apply Hmembers; auto).
    destruct (Forall2_In_l _ _ _ user Hseeded Htarget) as (p & Hp & Hrow).
    exists p. split; [apply in_or_app; now right|].
    destruct Hrow as (Eu & Ea & _). split; congruence.
Qed.

(** The target teams of the Design alert are widened to Design and
    Engineering: Carol, of Engineering, holds a preference afterwards. *)
Lemma update_team_alert_recipients_witness :
  exists alert' s',
    update_alert 1 widen_update (typed design_read_db)
    = (Ok (Some alert'), s') /\
    exists p, In p (preferences (readable s')) /\
              UserAlertPreference.alert_id p = 1 /\
              UserAlertPreference.user_id p = 1.
Proof.
  destruct (update_team_alert_recipients 1 widen_update
              (typed design_read_db) design_alert [11; 1] eq_refl eq_refl
              eq_refl eq_refl eq_refl)
    as (alert' & s' & Hcall & _ & Hrecipients); [discriminate|].
  exists alert', s'. split; [exact Hcall|].
  apply Hrecipients. exists carol. split; [left; reflexivity|].
  split; [reflexivity|]. split; [reflexivity|].
  exists 1. split; [reflexivity | right; left; reflexivity].
Defined.

(** *** What the list of a user shows *)

Lemma In_firstn {A : Type} (n : nat) (l : list A) (x : A) :
  In x (firstn n l) -> In x l.
Proof.
  revert l. induction n as [|n IH]; intros [|y r]; simpl; try tauto.
  intros [->|H]; [now left | right; now apply IH].
Qed.

Lemma In_skipn {A : Type} (n : nat) (l : list A) (x : A) :
  In x (skipn n l) -> In x l.
Proof.
  revert l. induction n as [|n IH]; intros [|y r]; simpl; try tauto.
  intros H. right. now apply IH.
Qed.

Lemma In_outer_join (user_id : Z) (prefs : list UserAlertPreference.t)
    (alert alert' : Alert.t) (o : option UserAlertPreference.t) :
  In (alert', o) (outer_join user_id prefs alert) ->
  alert' = alert /\
  match o with
  | Some p => In p prefs /\ preference_for (Alert.id alert) user_id p = true
  | None => filter (preference_for (Alert.id alert) user_id) prefs = []
  end.
Proof.
  unfold outer_join.
  destruct (filter (preference_for (Alert.id alert) user_id) prefs)
    as [|q r] eqn:F.
  - intros [E|[]]. injection E as <- <-. auto.
  - intros H. apply in_map_iff in H as (p & E & Hp). injection E as <- <-.
    split; [reflexivity|]. rewrite <- F in Hp. apply filter_In in Hp. exact Hp.
Qed.

(** Every entry of [get_alerts_for_user] comes from a stored alert with
    status active that passes the visibility filter of a stored user, and
    from the stored preference of the pair, if there is one. *)
Lemma get_alerts_for_user_In (now : datetime) (user_id : Z)
    (include_read : bool) (skip limit : nat) (db : DB) (view : AlertView.t) :
  In view (get_alerts_for_user now user_id include_read skip limit db) ->
  exists user alert o,
    get_user user_id db = Some user /\
    In alert (alerts db) /\
    Alert.status alert = ACTIVE /\
    visibility_filter user user_id alert = true /\
    view = format_row now (alert, o) /\
    (include_read = false -> unread_row (alert, o) = true) /\
    match o with
    | Some p => In p (preferences db) /\
                preference_for (Alert.id alert) user_id p = true
    | None =>
        filter (preference_for (Alert.id alert) user_id) (preferences db) = []
    end.
Proof.
  unfold get_alerts_for_user.
  destruct (get_user user_id db) as [user|]; [|contradiction].
  intros H. apply in_map_iff in H as ([alert o] & <- & H).
  apply In_firstn, In_skipn in H.
  assert (Hrow : In (alert, o)
                   (flat_map (outer_join user_id (preferences db))
                      (filter (fun a => AlertStatus_eqb (Alert.status a) ACTIVE &&
                                        visibility_filter user user_id a)
                         (alerts db))) /\
                 (include_read = false -> unread_row (alert, o) = true)).
  { destruct include_read.
    - split; [exact H | discriminate].
    - apply filter_In in H. destruct H. split; auto. }
  destruct Hrow as [Hrow Hunread].
  apply in_flat_map in Hrow as (a & Ha & Hrow).
  apply In_outer_join in Hrow as [-> Ho].
  apply filter_In in Ha as [Ha Hf]. apply andb_prop in Hf as [Hs Hvis].
  exists user, a, o. repeat split; auto.
  now destruct (Alert.status a).
Qed.

(** The key of every entry of [get_alerts_for_user] is the key of a stored
    alert whose status is active. *)
Lemma get_alerts_for_user_stored (now : datetime) (user_id : Z)
    (include_read : bool) (skip limit : nat) (db : DB) (view : AlertView.t) :
  In view (get_alerts_for_user now user_id include_read skip limit db) ->
  exists alert,
    In alert (alerts db) /\ Alert.status alert = ACTIVE /\
    AlertView.id view = Alert.id alert.
Proof.
  intros H.
  apply get_alerts_for_user_In in H
    as (user & alert & o & _ & Hin & Hs & _ & -> & _ & _).
  exists alert. auto.
Qed.

(** X12. [get_alerts_for_user] gives an unknown user the empty list and
    never more than [limit] entries.  Every entry is a stored alert whose
    status is active; the time window of the alert is not a condition, it
    only shows in the entry's [is_active] flag; and with
    [include_read = false] no entry is read. *)
Theorem get_alerts_for_user_entries (now : datetime) (user_id : Z)
    (include_read : bool) (skip limit : nat) (db : DB) :
  (get_user user_id db = None ->
   get_alerts_for_user now user_id include_read skip limit db = []) /\
  (List.length (get_alerts_for_user now user_id include_read skip limit db)
   <= limit)%nat /\
  forall view,
    In view (get_alerts_for_user now user_id include_read skip limit db) ->
    (exists alert,
       In alert (alerts db) /\ Alert.status alert = ACTIVE /\
       AlertView.id view = Alert.id alert /\
       AlertView.is_active view = Alert.is_active now alert) /\
    (include_read = false -> AlertView.is_read view = false).
Proof.
  split; [|split].
  - intros H. unfold get_alerts_for_user. now rewrite H.
  - unfold get_alerts_for_user. destruct (get_user user_id db); simpl;
      [|lia]. rewrite length_map. apply firstn_le_length.
  - intros view H.
    apply get_alerts_for_user_In in H
      as (user & alert & o & _ & Hin & Hs & _ & -> & Hunread & Ho).
    split.
    + exists alert. auto.
    + intros E. specialize (Hunread E). unfold unread_row in Hunread.
      simpl in *. destruct o as [p|]; [|reflexivity].
      now apply negb_true_iff in Hunread.
Qed.

Lemma update_first_unique {A : Type} (key : A -> Z) (k : Z) (f : A -> A)
    (l : list A) :
  NoDup (map key l) ->
  update_first (fun x => key x =? k) f l
  = map (fun x => if key x =? k then f x else x) l.
Proof.
  induction l as [|x r IH]; simpl; [reflexivity|].
  intros Hnd. apply NoDup_cons_iff in Hnd as [Hx Hr].
  destruct (key x =? k) eqn:E.
  - f_equal. apply Z.eqb_eq in E.
    rewrite <- (map_id r) at 1. apply map_ext_in. intros y Hy.
    destruct (key y =? k) eqn:E'; [|reflexivity].
    apply Z.eqb_eq in E'. exfalso. apply Hx. rewrite E, <- E'.
    now apply in_map.
  - f_equal. now apply IH.
Qed.

Lemma reminder_data_of_In (now : datetime)
    (prefs : list UserAlertPreference.t) (active_alerts : list Alert.t)
    (data : list (Alert.t * list UserAlertPreference.t))
    (alert : Alert.t) (due : list UserAlertPreference.t) :
  reminder_data_of now prefs active_alerts = Ok data ->
  In (alert, due) data ->
  In alert active_alerts /\ due <> [] /\
  exists h, Alert.reminder_interval_hours alert = Some h /\
            due = filter (reminder_preference_filter now (Alert.id alert) h)
                    prefs.
Proof.
  revert data. induction active_alerts as [|a r IH]; intros data; simpl.
  - intros H. injection H as <-. contradiction.
  - destruct (Alert.reminder_interval_hours a) as [h|] eqn:Hh; [|discriminate].
    destruct (reminder_data_of now prefs r) as [data'|e]; [|discriminate].
    specialize (IH data' eq_refl).
    destruct (filter (reminder_preference_filter now (Alert.id a) h) prefs)
      as [|p ps] eqn:F; intros H; injection H as <-.
    + intros Hin. destruct (IH Hin) as (Ha & Hd & He). auto.
    + intros [E|Hin].
      * injection E as <- <-. split; [now left|]. split; [discriminate|].
        exists h. now rewrite F.
      * destruct (IH Hin) as (Ha & Hd & He). auto.
Qed.



(** ** Reading an alert and the list of unread alerts *)

Lemma update_first_single {A : Type} (p : A -> bool) (f : A -> A)
    (l : list A) :
  (List.length (filter p l) <= 1)%nat ->
  update_first p f l = map (fun x => if p x then f x else x) l.
Proof.
  induction l as [|x r IH]; simpl; [reflexivity|].
  destruct (p x) eqn:E; simpl; intros H.
  - f_equal. rewrite <- (map_id r) at 1. apply map_ext_in. intros y Hy.
    destruct (p y) eqn:E'; [|reflexivity].
    exfalso. assert (Hin : In y (filter p r)) by (apply filter_In; auto).
    destruct (filter p r); [contradiction | simpl in H; lia].
  - f_equal. now apply IH.
Qed.

(** After a successful [mark_alert_as_read], under the unique constraint
    for the pair, the pair has a stored preference and every stored
    preference of the pair is read at the time of the call. *)
Lemma mark_alert_as_read_rows (now : datetime) (alert_id user_id : Z)
    (db db1 : DB) :
  one_preference alert_id user_id db ->
  mark_alert_as_read now alert_id user_id db = (Ok true, db1) ->
  users db1 = users db /\ alerts db1 = alerts db /\
  filter (preference_for alert_id user_id) (preferences db1) <> [] /\
  forall p, In p (preferences db1) ->
            preference_for alert_id user_id p = true ->
            UserAlertPreference.is_read p = true /\
            UserAlertPreference.read_at p = Some now.
Proof.
  intros Hone Hcall.
  assert (Hsome : filter (preference_for alert_id user_id) (preferences db1)
                  <> []).
  { destruct (mark_alert_as_read_stores _ _ _ _ _ Hcall) as [p0 Hp0].
    apply find_some in Hp0. intros E.
    assert (Hin : In (UserAlertPreference.mark_as_read now p0)
                    (filter (preference_for alert_id user_id)
                       (preferences db1)))
      by (apply filter_In; exact Hp0).
    now rewrite E in Hin. }
  unfold mark_alert_as_read in Hcall. rewrite on_get_or_create in Hcall.
  destruct (find (preference_for alert_id user_id) (preferences db))
    as [p0|] eqn:F.
  - injection Hcall as <-. do 2 (split; [reflexivity|]).
    split; [exact Hsome|].
    cbn [preferences with_preferences].
    rewrite (update_first_single _ _ _ Hone).
    intros p Hp Hpair. apply in_map_iff in Hp as (x & <- & Hx).
    destruct (preference_for alert_id user_id x) eqn:E.
    + split; reflexivity.
    + rewrite E in Hpair. discriminate.
  - destruct (is_some (get_by_id alert_id db) && is_some (get_user user_id db));
      [|discriminate].
    injection Hcall as <-. do 2 (split; [reflexivity|]).
    split; [exact Hsome|].
    cbn [preferences with_preferences].
    intros p Hp Hpair. apply in_app_or in Hp as [Hp|[<-|[]]].
    + rewrite (proj1 (find_none_iff _ _) F p Hp) in Hpair. discriminate.
    + split; reflexivity.
Qed.

(** X14. Under the unique constraint of the preference table for the pair,
    an alert that a user has marked read is no longer in that user's list
    of unread alerts, whatever the window and the time of the listing; in
    the full list its entry is read, with [read_at] the time of the
    call. *)
Theorem mark_read_leaves_unread_list (now now' : datetime)
    (alert_id user_id : Z) (skip limit : nat) (db db1 : DB) :
  one_preference alert_id user_id db ->
  mark_alert_as_read now alert_id user_id db = (Ok true, db1) ->
  (forall view,
     In view (get_alerts_for_user now' user_id false skip limit db1) ->
     AlertView.id view <> alert_id) /\
  (forall view,
     In view (get_alerts_for_user now' user_id true skip limit db1) ->
     AlertView.id view = alert_id ->
     AlertView.is_read view = true /\ AlertView.read_at view = Some now).
Proof.
  intros Hone Hcall.
  destruct (mark_alert_as_read_rows now alert_id user_id db db1 Hone Hcall)
    as (_ & _ & Hsome & Hrows).
  split.
  - intros view Hview Hid.
    apply get_alerts_for_user_In in Hview
      as (user & alert & o & _ & _ & _ & _ & -> & Hunread & Ho).
    simpl in Hid. rewrite Hid in Ho. specialize (Hunread eq_refl).
    destruct o as [p|].
    + destruct Ho as [Hp Hpair]. destruct (Hrows p Hp Hpair) as [Hread _].
      unfold unread_row in Hunread. simpl in Hunread.
      rewrite Hread in Hunread. discriminate.
    + contradiction.
  - intros view Hview Hid.
    apply get_alerts_for_user_In in Hview
      as (user & alert & o & _ & _ & _ & _ & -> & _ & Ho).
    simpl in Hid. rewrite Hid in Ho. simpl.
    destruct o as [p|]; [|contradiction].
    destruct Ho as [Hp Hpair]. exact (Hrows p Hp Hpair).
Qed.

Lemma mark_read_leaves_unread_list_witness :
  get_alerts_for_user (t0 + 2 * hour) 1 false 0 100 read_once_db = [] /\
  map AlertView.id
    (get_alerts_for_user (t0 + 2 * hour) 1 true 0 100 read_once_db) = [1].
Proof.
  assert (Hone : one_preference 1 1 (organization_alert_db DeliveryType.IN_APP))
    by (unfold one_preference; vm_compute; repeat constructor).
  destruct (mark_read_leaves_unread_list (t0 + hour) (t0 + 2 * hour) 1 1 0 100
              (organization_alert_db DeliveryType.IN_APP) read_once_db Hone eq_refl)
    as [Hunread _].
  split; [|vm_compute; reflexivity].
  destruct (get_alerts_for_user (t0 + 2 * hour) 1 false 0 100 read_once_db)
    as [|view rest] eqn:E; [reflexivity|].
  exfalso. apply (Hunread view (or_introl eq_refl)).
  assert (Hin : In view
                  (get_alerts_for_user (t0 + 2 * hour) 1 false 0 100
                     read_once_db)) by (rewrite E; now left).
  apply (get_alerts_for_user_stored (t0 + 2 * hour) 1 false 0 100) in Hin
    as (a & Ha & _ & Hid).
  rewrite Hid. vm_compute in Ha. destruct Ha as [<-|[]]. reflexivity.
Defined.

(** ** The delivery engine, further *)

Lemma filter_none {A : Type} (p : A -> bool) (l : list A) :
  (forall x, In x l -> p x = false) -> filter p l = [].
Proof.
  induction l as [|x r IH]; simpl; intros H; [reflexivity|].
  rewrite (H x (or_introl eq_refl)). apply IH. intros y Hy. apply H. now right.
Qed.

(** A pass that selects no row sends nothing and keeps the rows. *)
Lemma send_each_idle
    (channels : DeliveryChannel -> option NotificationChannel)
    (now : datetime) (db : DB) (select : NotificationDelivery.t -> bool)
    (prepare : NotificationDelivery.t -> NotificationDelivery.t)
    (rows : list NotificationDelivery.t) :
  (forall d, In d rows -> select d = false) ->
  send_each channels now db select prepare rows = (mkCounts 0 0, rows).
Proof.
  induction rows as [|d r IH]; simpl; intros H; [reflexivity|].
  rewrite IH by (intros x Hx; apply H; now right).
  now rewrite (H d (or_introl eq_refl)).
Qed.

(** X15. With channels that leave a record Sent or Delivered when they
    report success, a pass of [send_pending_notifications] leaves no
    Pending row, so the next pass, whenever it runs, finds nothing to
    send, reports zeros and leaves the store as it is. *)
Theorem send_pending_notifications_drains
    (channels : DeliveryChannel -> option NotificationChannel)
    (now now' : datetime) (db db1 : DB) (results : SendResults.t) :
  channels_mark_success channels ->
  send_pending_notifications channels now db = (Ok results, db1) ->
  filter is_pending (deliveries db1) = [] /\
  send_pending_notifications channels now' db1
  = (Ok (SendResults.mk 0 0 0), db1).
Proof.
  intros Hcontract Hcall.
  unfold send_pending_notifications, bind, get, modify, ret in Hcall.
  pose proof (send_each_rows channels now db is_pending (fun d => d)
                (deliveries db)) as Hrows.
  destruct (send_each channels now db is_pending (fun d => d) (deliveries db))
    as [counts rows].
  simpl in Hrows, Hcall. injection Hcall as _ <-.
  assert (Hnone : forall d, In d (deliveries (with_deliveries rows db)) ->
                            is_pending d = false).
  { cbn [deliveries with_deliveries]. subst rows. intros d' Hd'.
    apply in_map_iff in Hd' as (d & <- & _).
    destruct (is_pending d) eqn:P; [|exact P].
    unfold is_pending.
    destruct (fst (_send_notification channels now db d)) eqn:S.
    - destruct (_send_notification_succeeded channels now db d Hcontract S)
        as [-> | ->]; reflexivity.
    - now rewrite (_send_notification_failed channels now db d S). }
  split; [now apply filter_none|].
  unfold send_pending_notifications, bind, get, modify, ret.
  rewrite (send_each_idle _ _ _ _ _ _ Hnone).
  rewrite (filter_none _ _ Hnone). reflexivity.
Qed.

Lemma send_pending_notifications_drains_witness :
  filter is_pending (deliveries sent_db) = [] /\
  send_pending_notifications service_channels (t0 + hour) sent_db
  = (Ok (SendResults.mk 0 0 0), sent_db).
Proof.
  apply (send_pending_notifications_drains service_channels t0 (t0 + hour)
           pending_db sent_db (SendResults.mk 1 1 2)).
  - exact service_channels_mark_success.
  - vm_compute. reflexivity.
Defined.

(** X16. With the channels that the service registers, a send succeeds
    exactly when the alert and the user of the record are stored and the
    channel is in-app.  A success leaves the record Delivered, sent and
    delivered at the time of the call; every failure leaves it Failed with
    an error message, and its send and delivery times as they were. *)
Theorem _send_notification_in_app_only (now : datetime) (db : DB)
    (d : NotificationDelivery.t) :
  let r := _send_notification service_channels now db d in
  (fst r = true <->
   get_by_id (NotificationDelivery.alert_id d) db <> None /\
   get_user (NotificationDelivery.user_id d) db <> None /\
   NotificationDelivery.channel d = IN_APP) /\
  (fst r = true ->
   NotificationDelivery.status (snd r) = DELIVERED /\
   NotificationDelivery.sent_at (snd r) = Some now /\
   NotificationDelivery.delivered_at (snd r) = Some now /\
   NotificationDelivery.error_message (snd r)
   = NotificationDelivery.error_message d) /\
  (fst r = false ->
   NotificationDelivery.status (snd r) = FAILED /\
   NotificationDelivery.error_message (snd r) <> None /\
   NotificationDelivery.sent_at (snd r) = NotificationDelivery.sent_at d /\
   NotificationDelivery.delivered_at (snd r)
   = NotificationDelivery.delivered_at d).
Proof.
  unfold _send_notification.
  destruct (get_by_id (NotificationDelivery.alert_id d) db) as [alert|];
    [destruct (get_user (NotificationDelivery.user_id d) db) as [user|];
     [destruct (NotificationDelivery.channel d)|]|];
    cbn; repeat split; try discriminate; try tauto; try congruence;
    intros (H1 & H2 & H3); congruence.
Qed.

Lemma Forall2_trans_map {A : Type} (R : A -> A -> Prop) (f : A -> A)
    (l l' : list A) :
  (forall x y, R x y -> R x (f y)) ->
  Forall2 R l l' -> Forall2 R l (map f l').
Proof.
  intros Hf H. induction H; simpl; constructor; auto.
Qed.

(** X17. Through any number of retry passes with the same [max_retries] the
    delivery table keeps its rows in place, the retry count of a row never
    goes down, and it never goes past [max_retries] unless it was already
    there: no record is attempted again more than [max_retries] times. *)
Theorem retry_passes_bounded (max_retries : Z) (clock : list datetime)
    (db : DB) :
  Forall2
    (fun d d' =>
       NotificationDelivery.id d' = NotificationDelivery.id d /\
       NotificationDelivery.retry_count d
       <= NotificationDelivery.retry_count d'
       <= Z.max (NotificationDelivery.retry_count d) max_retries)
    (deliveries db) (deliveries (retry_passes max_retries clock db)).
Proof.
  unfold retry_passes.
  induction clock as [|now passes IH] using rev_ind.
  - simpl. induction (deliveries db); constructor; auto.
    split; [reflexivity|lia].
  - rewrite fold_left_app. cbn [fold_left]. rewrite retry_pass_rows. apply Forall2_trans_map; [|exact IH].
    intros d d' (Hid & Hlow & Hhigh).
    match goal with
    | |- context [_send_notification service_channels now ?db1 _] =>
        pose proof (_send_notification_service now db1 (bump_retry now d'))
          as Hsend
    end.
    cbv zeta in Hsend. destruct Hsend as (Hid' & Hcount & _).
    destruct (retry_filter now max_retries d') eqn:F.
    + apply retry_filter_iff in F as (_ & Hlt & _).
      rewrite Hid', Hcount. unfold bump_retry. simpl. split; [exact Hid|lia].
    + split; [exact Hid|lia].
Qed.

(** X18. A record that a retry pass at [now] selects, with a retry count
    that is not negative, is not selected again by any pass before
    [now + 5 * retry_count] minutes (with the new count), whatever that
    pass's [max_retries]: the record is then Delivered, or Failed with its
    next retry at that time. *)
Theorem retry_backs_off (now now' : datetime) (max_retries max_retries' : Z)
    (db : DB) (d : NotificationDelivery.t) :
  retry_filter now max_retries d = true ->
  0 <= NotificationDelivery.retry_count d ->
  now' < now + timedelta_minutes
                 (5 * (NotificationDelivery.retry_count d + 1)) ->
  let d' := snd (_send_notification service_channels now db (bump_retry now d)) in
  now < now + timedelta_minutes (5 * (NotificationDelivery.retry_count d + 1)) /\
  NotificationDelivery.next_retry_at d'
  = Some (now + timedelta_minutes
                  (5 * (NotificationDelivery.retry_count d + 1))) /\
  retry_filter now' max_retries' d' = false.
Proof.
  intros _ Hcount Hnow'.
  pose proof (_send_notification_service now db (bump_retry now d)) as Hsend.
  cbv zeta in *. destruct Hsend as (_ & _ & Hnext & _).
  split; [unfold timedelta_minutes; lia|].
  split; [rewrite Hnext; reflexivity|].
  unfold retry_filter. rewrite Hnext. unfold bump_retry. simpl.
  replace (_ <=? now') with false by (symmetry; apply Z.leb_gt; exact Hnow').
  apply andb_false_r.
Qed.

Lemma retry_backs_off_witness :
  exists d,
    nth_error (deliveries sent_db) 1 = Some d /\
    retry_filter (t0 + hour) 3 d = true /\
    retry_filter (t0 + hour + 4 * minute) 3
      (snd (_send_notification service_channels (t0 + hour) sent_db
              (bump_retry (t0 + hour) d))) = false.
Proof.
  destruct (nth_error (deliveries sent_db) 1) as [d|] eqn:E;
    [|vm_compute in E; discriminate E].
  exists d. split; [reflexivity|].
  assert (Hd : Some d = nth_error (deliveries sent_db) 1) by (now rewrite E).
  clear E. vm_compute in Hd. injection Hd as ->.
  split; [vm_compute; reflexivity|].
  apply (retry_backs_off (t0 + hour) (t0 + hour + 4 * minute) 3 3);
    vm_compute; first [reflexivity | discriminate].
Defined.

(** ** The reminder query *)

Lemma reminder_alert_filter_is_active (now : datetime) (alert : Alert.t) :
  reminder_alert_filter now alert = true ->
  Alert.is_active now alert = true /\
  Alert.reminders_enabled alert = Some true.
Proof.
  unfold reminder_alert_filter, Alert.is_active.
  rewrite !andb_true_iff. intros [[[Hs He] Hstart] Hexp].
  rewrite Hs. simpl. apply Z.leb_le in Hstart.
  replace (now <? Alert.start_time alert) with false
    by (symmetry; apply Z.ltb_ge; exact Hstart).
  split.
  - destruct (Alert.expiry_time alert) as [e|]; [|reflexivity].
    replace (now >? e) with false; [reflexivity|].
    symmetry. rewrite Z.gtb_ltb. apply Z.ltb_ge.
    rewrite Z.gtb_ltb in Hexp. apply Z.ltb_lt in Hexp. lia.
  - now destruct (Alert.reminders_enabled alert) as [[|]|].
Qed.

(** X19. Every entry that [get_alerts_requiring_reminders] returns pairs a
    stored alert that is active by [Alert.is_active], with reminders
    enabled, with a list of stored preferences that is not empty; each of
    them belongs to that alert, is unread, and is due by the
    [should_receive_reminder] property of the model. *)
Theorem get_alerts_requiring_reminders_sound (now : datetime) (db : DB)
    (data : list (Alert.t * list UserAlertPreference.t)) :
  get_alerts_requiring_reminders now db = Ok data ->
  forall alert due, In (alert, due) data ->
    In alert (alerts db) /\
    Alert.is_active now alert = true /\
    Alert.reminders_enabled alert = Some true /\
    due <> [] /\
    forall p, In p due ->
      In p (preferences db) /\
      UserAlertPreference.alert_id p = Alert.id alert /\
      UserAlertPreference.is_read p = false /\
      fst (UserAlertPreference.should_receive_reminder now (Some alert) p)
      = Some true.
Proof.
  intros Hdata alert due Hin.
  unfold get_alerts_requiring_reminders in Hdata.
  destruct (reminder_data_of_In _ _ _ _ _ _ Hdata Hin)
    as (Ha & Hne & h & Hh & ->).
  apply filter_In in Ha as [Ha Hf].
  destruct (reminder_alert_filter_is_active now alert Hf) as [Hact Hen].
  repeat split; try assumption.
  - now apply filter_In in H.
  - apply filter_In in H as [_ H].
    now apply reminder_preference_filter_sound in H.
  - apply filter_In in H as [_ H]. unfold reminder_preference_filter in H.
    rewrite !andb_true_iff, negb_true_iff in H. tauto.
  - apply filter_In in H as [_ H].
    apply reminder_preference_filter_sound in H as [_ H].
    rewrite (should_receive_reminder_verdict now alert h p Hh). now f_equal.
Qed.

Lemma get_alerts_requiring_reminders_sound_witness :
  exists alert due,
    get_alerts_requiring_reminders (t0 + 2 * hour) (organization_alert_db DeliveryType.IN_APP)
    = Ok [(alert, due)] /\
    List.length due = 3%nat /\
    Alert.is_active (t0 + 2 * hour) alert = true /\
    forall p, In p due ->
      fst (UserAlertPreference.should_receive_reminder (t0 + 2 * hour)
             (Some alert) p) = Some true.
Proof.
  destruct (get_alerts_requiring_reminders (t0 + 2 * hour)
              (organization_alert_db DeliveryType.IN_APP)) as [data|e] eqn:E;
    [|exfalso; vm_compute in E; discriminate E].
  destruct data as [|[alert due] [|x r]];
    try (exfalso; vm_compute in E; discriminate E).
  exists alert, due. split; [reflexivity|].
  destruct (get_alerts_requiring_reminders_sound (t0 + 2 * hour)
              (organization_alert_db DeliveryType.IN_APP) [(alert, due)] E alert due
              (or_introl eq_refl)) as (_ & Hact & _ & _ & Hdue).
  split.
  - assert (H : Ok [(alert, due)]
                = get_alerts_requiring_reminders (t0 + 2 * hour)
                    (organization_alert_db DeliveryType.IN_APP)) by (now rewrite E).
    clear - H. vm_compute in H. injection H as -> ->. reflexivity.
  - split; [exact Hact|]. intros p Hp. now apply Hdue.
Defined.



(** ** Users and teams *)

Lemma find_unique_key {A : Type} (key : A -> Z) (l : list A) (x : A) :
  NoDup (map key l) -> In x l ->
  find (fun y => key y =? key x) l = Some x.
Proof.
  induction l as [|y r IH]; simpl; [contradiction|].
  intros Hnd Hin. apply NoDup_cons_iff in Hnd as [Hy Hr].
  destruct Hin as [->|Hin].
  - now rewrite Z.eqb_refl.
  - destruct (key y =? key x) eqn:E; [|now apply IH].
    apply Z.eqb_eq in E. exfalso. apply Hy. rewrite E. now apply in_map.
Qed.

Lemma NoDup_app_fresh {A : Type} (l : list A) (x : A) :
  NoDup l -> ~ In x l -> NoDup (l ++ [x]).
Proof.
  intros Hl Hx. induction Hl as [|y r Hy Hr IH]; simpl.
  - constructor; [intros []|constructor].
  - constructor.
    + intros H. apply in_app_or in H as [H|[->|[]]]; [now apply Hy|].
      apply Hx. now left.
    + apply IH. intros H. apply Hx. now right.
Qed.

Lemma next_id_fresh (ids : list Z) : ~ In (next_id ids) ids.
Proof. intros H. apply next_id_above in H. lia. Qed.

(** X21. A successful [create_user] appends the user it returns, with the
    fields of the request, under a key and with an email that no stored
    user had.  The user is read back by key and by email; unique keys and
    unique emails stay unique; and a team that the user names (other than
    0) is stored. *)
Theorem create_user_stores (user_data : UserCreate.t) (db db' : DB)
    (user : User.t) :
  create_user user_data db = (Ok user, db') ->
  db' = with_users (users db ++ [user]) db /\
  User.email user = UserCreate.email user_data /\
  User.team_id user = UserCreate.team_id user_data /\
  get_user (User.id user) db = None /\
  get_by_email (User.email user) db = None /\
  get_user (User.id user) db' = Some user /\
  get_by_email (User.email user) db' = Some user /\
  (unique_user_ids db -> unique_user_ids db') /\
  (NoDup (map User.email (users db)) -> NoDup (map User.email (users db'))) /\
  (forall team_id, User.team_id user = Some team_id -> team_id <> 0 ->
                   get_team team_id db' <> None) /\
  User.name user = UserCreate.name user_data /\
  User.is_admin user = UserCreate.is_admin user_data /\
  User.is_active user = UserCreate.is_active user_data.
Proof.
  intros H. unfold create_user in H. unfold bind at 1 in H. unfold get in H.
  cbv beta iota in H.
  destruct (get_by_email (UserCreate.email user_data) db) eqn:Hmail;
    [discriminate H|].
  assert (Hcreate : create user_data db = (Ok user, db') /\
                    (forall team_id,
                       UserCreate.team_id user_data = Some team_id ->
                       team_id <> 0 -> get_team team_id db <> None)).
  { destruct (UserCreate.team_id user_data) as [[|t|t]|]; simpl in H.
    - split; [exact H|]. intros t E N. injection E as <-. now contradiction N.
    - destruct (get_team (Z.pos t) db) eqn:T; [|discriminate H].
      split; [exact H|]. intros t' E _. injection E as <-. now rewrite T.
    - destruct (get_team (Z.neg t) db) eqn:T; [|discriminate H].
      split; [exact H|]. intros t' E _. injection E as <-. now rewrite T.
    - split; [exact H|]. discriminate. }
  clear H. destruct Hcreate as [H Hteam].
  unfold create, bind, get, modify, ret in H. injection H as <- <-.
  cbn [User.id User.email User.team_id User.name User.is_admin User.is_active
       users with_users teams].
  assert (Hfresh : get_user (next_id (map User.id (users db))) db = None)
    by apply (find_next_id User.id).
  split; [reflexivity|]. split; [reflexivity|]. split; [reflexivity|].
  split; [exact Hfresh|]. split; [exact Hmail|].
  split; [|split; [|split; [|split; [|repeat split]]]].
  - unfold get_user. cbn [users with_users].
    rewrite find_app_new; [reflexivity | exact Hfresh | apply Z.eqb_refl].
  - unfold get_by_email. cbn [users with_users].
    rewrite find_app_new; [reflexivity | exact Hmail | apply String.eqb_refl].
  - unfold unique_user_ids. cbn [users with_users]. intros Hnd.
    rewrite map_app. apply NoDup_app_fresh; [exact Hnd|]. apply next_id_fresh.
  - cbn [users with_users]. intros Hnd.
    rewrite map_app. apply NoDup_app_fresh; [exact Hnd|].
    cbn [map User.email]. intros Hin. apply in_map_iff in Hin as (u & E & Hu).
    unfold get_by_email in Hmail.
    pose proof (proj1 (find_none_iff _ _) Hmail u Hu) as N. cbv beta in N.
    apply String.eqb_neq in N. contradiction.
  - exact Hteam.
Qed.

Lemma create_user_stores_witness :
  exists user db',
    create_user (UserCreate.mk "Frank" "frank@company.com" false (Some 11) true)
      directory = (Ok user, db') /\
    User.id user = 4 /\
    get_by_email "frank@company.com" db' = Some user /\
    get_team 11 db' <> None.
Proof.
  destruct (create_user
              (UserCreate.mk "Frank" "frank@company.com" false (Some 11) true)
              directory) as [[user|e] db'] eqn:E.
  - exists user, db'. split; [reflexivity|].
    destruct (create_user_stores _ _ _ _ E)
      as (_ & Hmail & Hteam & _ & _ & _ & Hread & _ & _ & Hstored & _).
    assert (H : (Ok user, db')
                = create_user
                    (UserCreate.mk "Frank" "frank@company.com" false (Some 11)
                       true) directory) by (now rewrite E).
    split; [|split].
    + clear - H. vm_compute in H. injection H as -> _. reflexivity.
    + rewrite <- Hread. f_equal. symmetry. exact Hmail.
    + apply Hstored; [exact Hteam | discriminate].
  - exfalso. vm_compute in E. discriminate E.
Defined.

(** X22. [create_user] raises exactly when the email of the request is
    that of a stored user, or the request names a team (other than 0) that
    is not stored; the error is a [ValueError] and the store is left as it
    was.  A request with the team id 0 passes the team check. *)
Theorem create_user_rejects (user_data : UserCreate.t) (db : DB) :
  ((exists e db', create_user user_data db = (Raise e, db')) <->
   get_by_email (UserCreate.email user_data) db <> None \/
   exists team_id, UserCreate.team_id user_data = Some team_id /\
                   team_id <> 0 /\ get_team team_id db = None) /\
  (forall e db', create_user user_data db = (Raise e, db') ->
                 db' = db /\ exists msg, e = ValueError msg).
Proof.
  cbv beta iota delta [create_user bind get].
  destruct (get_by_email (UserCreate.email user_data) db) eqn:Hmail.
  - split.
    + split; [intros _; left; discriminate|]. intros _.
      eexists. eexists. reflexivity.
    + unfold raise. intros e db' H. injection H as <- <-.
      split; [reflexivity|]. eexists. reflexivity.
  - assert (Hcreate : forall e db', create user_data db <> (Raise e, db')).
    { intros e db'. unfold create, bind, get, modify, ret. discriminate. }
    destruct (UserCreate.team_id user_data) as [[|t|t]|]; simpl.
    + split.
      * split; [intros (e & db' & H); now apply Hcreate in H|].
        intros [H|(t & E & N & _)]; [now contradiction H|].
        injection E as <-. now contradiction N.
      * intros e db' H. now apply Hcreate in H.
    + destruct (get_team (Z.pos t) db) eqn:T.
      * split.
        -- split; [intros (e & db' & H); now apply Hcreate in H|].
           intros [H|(t' & E & _ & N)]; [now contradiction H|].
           injection E as <-. congruence.
        -- intros e db' H. now apply Hcreate in H.
      * split.
        -- split; [|intros _; eexists; eexists; reflexivity].
           intros _. right. exists (Z.pos t). now repeat split.
        -- unfold raise. intros e db' H. injection H as <- <-.
           split; [reflexivity|]. eexists. reflexivity.
    + destruct (get_team (Z.neg t) db) eqn:T.
      * split.
        -- split; [intros (e & db' & H); now apply Hcreate in H|].
           intros [H|(t' & E & _ & N)]; [now contradiction H|].
           injection E as <-. congruence.
        -- intros e db' H. now apply Hcreate in H.
      * split.
        -- split; [|intros _; eexists; eexists; reflexivity].
           intros _. right. exists (Z.neg t). now repeat split.
        -- unfold raise. intros e db' H. injection H as <- <-.
           split; [reflexivity|]. eexists. reflexivity.
    + split.
      * split; [intros (e & db' & H); now apply Hcreate in H|].
        intros [H|(t & E & _)]; [now contradiction H | discriminate E].
      * intros e db' H. now apply Hcreate in H.
Qed.

(** The rows of a keyed table after the row [k] was rewritten by [f]. *)
Lemma In_update_unique {A : Type} (key : A -> Z) (k : Z) (f : A -> A)
    (l : list A) (y : A) :
  NoDup (map key l) ->
  (In y (update_first (fun x => key x =? k) f l) <->
   exists x, In x l /\ y = if key x =? k then f x else x).
Proof.
  intros Hnd. rewrite (update_first_unique key k f l Hnd), in_map_iff.
  split; intros (x & H1 & H2); exists x; auto.
Qed.

Lemma map_key_update_first {A : Type} (key : A -> Z) (p : A -> bool)
    (f : A -> A) (l : list A) :
  (forall x, key (f x) = key x) ->
  map key (update_first p f l) = map key l.
Proof.
  intros Hf. induction l as [|x r IH]; simpl; [reflexivity|].
  destruct (p x); simpl; [now rewrite Hf | now rewrite IH].
Qed.

(** X23. With unique user keys, [deactivate_user] of an unknown user
    returns False and changes nothing.  Of a known user it returns True and
    writes only that user's [is_active]: every other field of the row and
    every other row is as before.  Afterwards no alert resolves to
    the user, the user cannot authenticate and is in no list of active
    users, team users or admins, but the stored preferences are kept, so
    the reminder query answers as before, and the user's own alert list is
    as before. *)
Theorem deactivate_user_excludes (user_id : Z) (db : DB) :
  unique_user_ids db ->
  (get_user user_id db = None -> deactivate_user user_id db = (Ok false, db)) /\
  (get_user user_id db <> None ->
   exists db',
     deactivate_user user_id db = (Ok true, db') /\
     teams db' = teams db /\ alerts db' = alerts db /\
     preferences db' = preferences db /\ deliveries db' = deliveries db /\
     map User.id (users db') = map User.id (users db) /\
     (forall u, User.id u <> user_id -> In u (users db') <-> In u (users db)) /\
     (forall u, In u (users db') -> User.id u = user_id ->
                User.is_active u = false) /\
     (forall alert targets u,
        _get_target_users_for_alert alert db' = Ok targets ->
        In u targets -> User.id u <> user_id) /\
     (forall email u, authenticate_user email db' = Some u ->
                      User.id u <> user_id) /\
     (forall u,
        (exists skip limit, In u (get_active_users skip limit db')) \/
        (exists team_id, In u (get_users_by_team team_id db')) \/
        In u (get_admin_users db') ->
        User.id u <> user_id) /\
     (forall now, get_alerts_requiring_reminders now db'
                  = get_alerts_requiring_reminders now db) /\
     (forall now include_read skip limit,
        get_alerts_for_user now user_id include_read skip limit db'
        = get_alerts_for_user now user_id include_read skip limit db) /\
     (forall u,
        In u (users db') <->
        exists x, In x (users db) /\
                  u = if User.id x =? user_id
                      then set_is_active false x else x)).
Proof.
  intros Hunique. unfold deactivate_user, bind, get, modify, ret. split.
  - intros ->. reflexivity.
  - destruct (get_user user_id db) as [user|] eqn:Huser; [|congruence].
    intros _. eexists. split; [reflexivity|].
    cbn [users teams alerts preferences deliveries with_users].
    do 4 (split; [reflexivity|]).
    split; [now apply map_key_update_first|].
    assert (Hrows : forall u,
              In u (update_first (fun u => User.id u =? user_id)
                      (set_is_active false) (users db)) <->
              exists x, In x (users db) /\
                        u = if User.id x =? user_id
                            then set_is_active false x else x)
      by (intros u; now apply In_update_unique).
    assert (Hactive : forall u,
              In u (update_first (fun u => User.id u =? user_id)
                      (set_is_active false) (users db)) ->
              User.is_active u = true -> User.id u <> user_id).
    { intros u Hu Ha. apply Hrows in Hu as (x & Hx & ->).
      destruct (User.id x =? user_id) eqn:E; [discriminate Ha|].
      now apply Z.eqb_neq. }
    split; [|split; [|split; [|split; [|split; [|split; [|split]]]]]].
    + intros u Hne. rewrite Hrows. split.
      * intros (x & Hx & ->). destruct (User.id x =? user_id) eqn:E; [|exact Hx].
        apply Z.eqb_eq in E. now contradiction Hne.
      * intros Hu. exists u. split; [exact Hu|].
        now apply Z.eqb_neq in Hne as ->.
    + intros u Hu Hid. apply Hrows in Hu as (x & Hx & ->).
      destruct (User.id x =? user_id) eqn:E; [reflexivity|].
      apply Z.eqb_neq in E. contradiction.
    + intros alert targets u Htargets Hu.
      unfold _get_target_users_for_alert in Htargets.
      cbn [users with_users] in Htargets.
      destruct (Alert.visibility_type alert).
      * injection Htargets as <-. apply filter_In in Hu as [Hu Ha].
        now apply Hactive.
      * destruct (load_ids (Alert.target_team_ids alert)); [|discriminate].
        injection Htargets as <-. apply filter_In in Hu as [Hu Ha].
        apply andb_prop in Ha as [Ha _]. now apply Hactive.
      * destruct (load_ids (Alert.target_user_ids alert)); [|discriminate].
        injection Htargets as <-. apply filter_In in Hu as [Hu Ha].
        apply andb_prop in Ha as [Ha _]. now apply Hactive.
    + intros email u. unfold authenticate_user, get_by_email.
      cbn [users with_users].
      destruct (find _ _) as [u'|] eqn:F; [|discriminate].
      destruct (User.is_active u') eqn:Ha; [|discriminate].
      intros H. injection H as <-. apply find_some in F as [Hu _].
      now apply Hactive.
    + unfold get_active_users, get_users_by_team, get_admin_users.
      cbn [users with_users].
      intros u [(skip & limit & Hu)|[(team_id & Hu)|Hu]].
      * apply In_firstn, In_skipn, filter_In in Hu as [Hu Ha].
        now apply Hactive.
      * apply filter_In in Hu as [Hu Ha]. apply andb_prop in Ha as [_ Ha].
        now apply Hactive.
      * apply filter_In in Hu as [Hu Ha]. apply andb_prop in Ha as [_ Ha].
        now apply Hactive.
    + reflexivity.
    + intros now include_read skip limit. unfold get_alerts_for_user, get_user.
      cbn [users alerts preferences with_users].
      rewrite find_update_first by reflexivity.
      fold (get_user user_id db). rewrite Huser. reflexivity.
    + exact Hrows.
Qed.

Lemma deactivate_user_excludes_witness :
  exists db',
    deactivate_user 2 design_alert_db = (Ok true, db') /\
    authenticate_user "dave@company.com" db' = None /\
    (forall alert targets u,
       _get_target_users_for_alert alert db' = Ok targets ->
       In u targets -> User.id u <> 2) /\
    get_alerts_for_user t0 2 true 0 100 db'
    = get_alerts_for_user t0 2 true 0 100 design_alert_db.
Proof.
  assert (Hunique : unique_user_ids design_alert_db).
  { unfold unique_user_ids. vm_compute. repeat constructor; simpl; intuition lia. }
  destruct (proj2 (deactivate_user_excludes 2 design_alert_db Hunique))
    as (db' & Hcall & _ & _ & _ & _ & _ & _ & _ & Htargets & _ & _ & _ & Hlist &
        _).
  - vm_compute. discriminate.
  - exists db'. split; [exact Hcall|]. split; [|split].
    + replace db' with (snd (deactivate_user 2 design_alert_db))
        by (now rewrite Hcall).
      vm_compute. reflexivity.
    + exact Htargets.
    + apply Hlist.
Defined.

Lemma In_update_first_other {A : Type} (p : A -> bool) (f : A -> A)
    (l : list A) (y : A) :
  (forall x, p (f x) = p x) -> p y = false ->
  (In y (update_first p f l) <-> In y l).
Proof.
  intros Hf Hy. induction l as [|x r IH]; simpl; [tauto|].
  destruct (p x) eqn:E; simpl.
  - split; intros [H|H]; auto; right; auto; subst y.
    + rewrite Hf in Hy. congruence.
    + congruence.
  - rewrite IH. tauto.
Qed.

Lemma update_first_twice {A : Type} (p : A -> bool) (f g : A -> A)
    (l : list A) :
  (forall x, p (f x) = p x) ->
  update_first p g (update_first p f l) = update_first p (fun x => g (f x)) l.
Proof.
  intros Hf. induction l as [|x r IH]; simpl; [reflexivity|].
  destruct (p x) eqn:E; simpl.
  - now rewrite Hf, E.
  - now rewrite E, IH.
Qed.

Lemma with_users_same (db : DB) : with_users (users db) db = db.
Proof. now destruct db. Qed.

(** X24. [deactivate_team] of an unknown team returns False and changes
    nothing.  Of a known team it returns True and takes every user, active
    or not, out of the team: afterwards the team has no member, its member
    count is 0 and its row is inactive; the users of other teams, the
    other teams, and the alerts, targeted at the team or not, are kept as
    they were. *)
Theorem deactivate_team_empties (team_id : Z) (db : DB) :
  (get_team team_id db = None -> deactivate_team team_id db = (Ok false, db)) /\
  (get_team team_id db <> None ->
   exists db',
     deactivate_team team_id db = (Ok true, db') /\
     alerts db' = alerts db /\ preferences db' = preferences db /\
     deliveries db' = deliveries db /\
     map User.id (users db') = map User.id (users db) /\
     (forall u, In u (users db') -> User.team_id u <> Some team_id) /\
     (forall u, User.team_id u <> Some team_id ->
                In u (users db) -> In u (users db')) /\
     get_team_members team_id db' = [] /\
     get_team_member_count team_id db' = 0 /\
     (exists team, get_team team_id db' = Some team /\
                   Team.is_active team = false) /\
     (forall t, Team.id t <> team_id -> In t (teams db') <-> In t (teams db))).
Proof.
  unfold deactivate_team, bind, get, modify, ret. split.
  - intros ->. reflexivity.
  - destruct (get_team team_id db) as [team|] eqn:Hteam; [|congruence].
    intros _. eexists. split; [reflexivity|].
    cbn [users teams alerts preferences deliveries with_users with_teams].
    do 3 (split; [reflexivity|]).
    assert (Hleft : forall u,
              In u (map (fun u => if sql_eq (User.team_id u) team_id
                                  then set_team_id None u else u) (users db)) ->
              sql_eq (User.team_id u) team_id = false).
    { intros u Hu. apply in_map_iff in Hu as (x & <- & _).
      destruct (sql_eq (User.team_id x) team_id) eqn:E; [reflexivity|exact E]. }
    split; [|split; [|split; [|split; [|split; [|split]]]]].
    + rewrite map_map. apply map_ext. intros u.
      now destruct (sql_eq (User.team_id u) team_id).
    + intros u Hu E. apply Hleft in Hu. rewrite E in Hu. simpl in Hu.
      now rewrite Z.eqb_refl in Hu.
    + intros u Hne Hu. apply in_map_iff. exists u. split; [|exact Hu].
      destruct (User.team_id u) as [t|] eqn:E; simpl; [|reflexivity].
      destruct (t =? team_id) eqn:T; [|reflexivity].
      apply Z.eqb_eq in T. congruence.
    + unfold get_team_members. cbn [users with_users with_teams].
      apply filter_none. intros u Hu. now rewrite (Hleft u Hu).
    + unfold get_team_member_count. cbn [users with_users with_teams].
      rewrite filter_none; [reflexivity|].
      intros u Hu. now rewrite (Hleft u Hu).
    + unfold get_team in *. cbn [teams with_teams with_users].
      rewrite find_update_first by reflexivity. rewrite Hteam.
      eexists. split; reflexivity.
    + intros t Hne. apply In_update_first_other; [reflexivity|].
      now apply Z.eqb_neq.
Qed.

Lemma deactivate_team_empties_witness :
  get_team_member_count 11 directory = 1 /\
  exists db',
    deactivate_team 11 directory = (Ok true, db') /\
    get_team_member_count 11 db' = 0 /\
    option_map User.team_id (get_user 2 db') = Some None.
Proof.
  split; [vm_compute; reflexivity|].
  destruct (proj2 (deactivate_team_empties 11 directory))
    as (db' & Hcall & _ & _ & _ & _ & _ & _ & _ & Hcount & _).
  - vm_compute. discriminate.
  - exists db'. split; [exact Hcall|]. split; [exact Hcount|].
    replace db' with (snd (deactivate_team 11 directory))
      by (now rewrite Hcall).
    vm_compute. reflexivity.
Defined.

(** X25. With unique user keys, [add_member_to_team] for a stored user and
    a stored team returns True and writes only that user's team: the user
    is then a member of that team when active, and of no other team.
    [remove_member_from_team] afterwards returns True and leaves the user
    without a team; when the user had none before, the store is back as it
    was. *)
Theorem add_member_to_team_round_trip (user_id team_id : Z) (db : DB)
    (user : User.t) :
  unique_user_ids db ->
  get_user user_id db = Some user ->
  get_team team_id db <> None ->
  exists db1,
    add_member_to_team user_id team_id db = (Ok true, db1) /\
    get_user user_id db1 = Some (set_team_id (Some team_id) user) /\
    (User.is_active user = true ->
     In (set_team_id (Some team_id) user) (get_team_members team_id db1)) /\
    (forall t u, t <> team_id -> In u (get_team_members t db1) ->
                 User.id u <> user_id) /\
    (forall u, User.id u <> user_id -> In u (users db1) <-> In u (users db)) /\
    exists db2,
      remove_member_from_team user_id db1 = (Ok true, db2) /\
      get_user user_id db2 = Some (set_team_id None user) /\
      (User.team_id user = None -> db2 = db).
Proof.
  intros Hunique Huser Hteam.
  unfold add_member_to_team, bind, get, modify, ret. rewrite Huser.
  destruct (get_team team_id db) as [team|]; [clear Hteam | congruence].
  eexists. split; [reflexivity|].
  assert (Hread : get_user user_id
                    (with_users
                       (update_first (fun u => User.id u =? user_id)
                          (set_team_id (Some team_id)) (users db)) db)
                  = Some (set_team_id (Some team_id) user)).
  { unfold get_user in *. cbn [users with_users].
    rewrite find_update_first by reflexivity. now rewrite Huser. }
  split; [exact Hread|].
  split; [|split; [|split]].
  - intros Ha. unfold get_team_members. apply filter_In. split.
    + apply find_some in Hread. apply Hread.
    + simpl. now rewrite Z.eqb_refl, Ha.
  - intros t u Hne Hu Hid. unfold get_team_members in Hu.
    apply filter_In in Hu as [Hu Hf]. cbn [users with_users] in Hu.
    apply (In_update_unique User.id user_id) in Hu as (x & Hx & ->);
      [|exact Hunique].
    destruct (User.id x =? user_id) eqn:E.
    + simpl in Hf. apply andb_prop in Hf as [Hf _]. apply Z.eqb_eq in Hf.
      congruence.
    + apply Z.eqb_neq in E. contradiction.
  - intros u Hne. cbn [users with_users].
    apply In_update_first_other; [reflexivity|]. now apply Z.eqb_neq.
  - unfold remove_member_from_team, bind, get, modify, ret. rewrite Hread.
    eexists. split; [reflexivity|]. cbn [users with_users]. split.
    + unfold get_user in *. cbn [users with_users].
      rewrite !find_update_first by reflexivity. now rewrite Huser.
    + intros Hnone. rewrite update_first_twice by reflexivity.
      rewrite (update_first_fixed _ _ _ user Huser).
      * unfold with_users. now destruct db.
      * destruct user. simpl in Hnone. subst. reflexivity.
Qed.

Lemma add_member_to_team_round_trip_witness :
  exists db1 db2,
    add_member_to_team 3 1 directory = (Ok true, db1) /\
    map User.id (get_team_members 1 db1) = [1; 3] /\
    remove_member_from_team 3 db1 = (Ok true, db2) /\
    db2 = directory.
Proof.
  assert (Hunique : unique_user_ids directory).
  { unfold unique_user_ids. vm_compute. repeat constructor; simpl; intuition lia. }
  destruct (add_member_to_team_round_trip 3 1 directory erin Hunique eq_refl)
    as (db1 & Hadd & _ & _ & _ & _ & db2 & Hremove & _ & Hback).
  - vm_compute. discriminate.
  - exists db1, db2. split; [exact Hadd|]. split; [|split].
    + replace db1 with (snd (add_member_to_team 3 1 directory))
        by (now rewrite Hadd).
      vm_compute. reflexivity.
    + exact Hremove.
    + now apply Hback.
Defined.

(** ** Deleting, counting and filtering alerts *)





Lemma length_filter_le {A : Type} (p : A -> bool) (l : list A) :
  (List.length (filter p l) <= List.length l)%nat.
Proof.
  induction l as [|x r IH]; simpl; [lia|]. destruct (p x); simpl; lia.
Qed.

Lemma length_filter_split {A : Type} (p : A -> bool) (l : list A) :
  (List.length (filter p l) + List.length (filter (fun x => negb (p x)) l)
   = List.length l)%nat.
Proof.
  induction l as [|x r IH]; simpl; [reflexivity|].
  destruct (p x); simpl; lia.
Qed.

Lemma filter_map_swap {A B : Type} (f : A -> B) (p : B -> bool) (l : list A) :
  filter p (map f l) = map f (filter (fun x => p (f x)) l).
Proof.
  induction l as [|x r IH]; simpl; [reflexivity|].
  destruct (p (f x)); simpl; now rewrite IH.
Qed.

(** X27. The counts of the alerts router are consistent: unread, read and
    snoozed are between 0 and the total, the total is at most the window of
    100 rows, and read is total minus unread.  When the total is below 100,
    so that the window cut nothing off, read is the number of read entries
    of the user's list. *)
Theorem get_alert_counts_consistent (now : datetime) (current_user : User.t)
    (db : DB) :
  let counts := get_alert_counts now current_user db in
  0 <= AlertCounts.unread_alerts counts <= AlertCounts.total_alerts counts /\
  AlertCounts.total_alerts counts <= 100 /\
  0 <= AlertCounts.read_alerts counts <= AlertCounts.total_alerts counts /\
  AlertCounts.read_alerts counts + AlertCounts.unread_alerts counts
  = AlertCounts.total_alerts counts /\
  0 <= AlertCounts.snoozed_alerts counts <= AlertCounts.total_alerts counts /\
  (AlertCounts.total_alerts counts < 100 ->
   AlertCounts.read_alerts counts
   = Z.of_nat (List.length
       (filter AlertView.is_read
          (get_alerts_for_user now (User.id current_user) true 0 100 db)))).
Proof.
  unfold get_alert_counts, get_alerts_for_user.
  cbn [AlertCounts.unread_alerts AlertCounts.total_alerts
       AlertCounts.read_alerts AlertCounts.snoozed_alerts].
  destruct (get_user (User.id current_user) db) as [user|];
    [|simpl; repeat split; lia].
  set (joined := flat_map _ _).
  cbn [skipn].
  pose proof (length_filter_le unread_row joined) as Hle.
  pose proof (length_filter_le AlertView.is_snoozed
                (map (format_row now) (firstn 100 joined))) as Hsnoozed.
  rewrite !length_map, !length_firstn in *.
  repeat split; try lia.
  intros Hfull.
  assert (Hshort : (List.length joined < 100)%nat) by lia.
  rewrite !firstn_all2 by lia.
  rewrite filter_map_swap, length_map.
  pose proof (length_filter_split unread_row joined) as Hsplit.
  replace (filter (fun x => AlertView.is_read (format_row now x)) joined)
    with (filter (fun x => negb (unread_row x)) joined).
  - rewrite !Nat.min_r by lia. lia.
  - apply filter_ext. intros [a [p|]]; unfold unread_row; simpl;
      [apply negb_involutive | reflexivity].
Qed.




(** ** The reminder pass on every store *)

Lemma first_reminded_none (db : DB)
    (reminder_data : list (Alert.t * list UserAlertPreference.t))
    (alert : Alert.t) (due : list UserAlertPreference.t)
    (p : UserAlertPreference.t) :
  In (alert, due) reminder_data -> In p due ->
  get_user (UserAlertPreference.user_id p) db <> None ->
  first_reminded db reminder_data <> None.
Proof.
  intros Hin Hp Huser. unfold first_reminded.
  destruct (find (fun entry => existsb (has_user db) (snd entry))
              reminder_data) eqn:F; [discriminate|].
  exfalso.
  pose proof (proj1 (find_none_iff _ _) F (alert, due) Hin) as Hnone.
  cbn [snd] in Hnone.
  assert (Hsome : existsb (has_user db) due = true).
  { apply existsb_exists. exists p. split; [exact Hp|].
    unfold has_user.
    now destruct (get_user (UserAlertPreference.user_id p) db). }
  congruence.
Qed.

(** X29. The reminder pass never sends a reminder.  On every store, at
    every instant and for every registry of channels it leaves the store
    as it was: no delivery is added and no preference is updated.  When
    the query returns a due preference whose user is stored, the pass
    raises the [StatementError] of the first insert; when the pass
    returns, it reports no reminder sent and no user reminded. *)
Theorem process_reminders_never_sends
    (channels : DeliveryChannel -> option NotificationChannel)
    (now : datetime) (db : DB) :
  snd (process_reminders channels now db) = db /\
  (forall results,
     fst (process_reminders channels now db) = Ok results ->
     ReminderResults.reminders_sent results = 0 /\
     ReminderResults.users_reminded results = 0) /\
  (forall reminder_data alert due p,
     get_alerts_requiring_reminders now db = Ok reminder_data ->
     In (alert, due) reminder_data -> In p due ->
     get_user (UserAlertPreference.user_id p) db <> None ->
     exists msg,
       fst (process_reminders channels now db) = Raise (StatementError msg)).
Proof.
  rewrite process_reminders_run.
  destruct (get_alerts_requiring_reminders now db) as [data|e] eqn:Q.
  - destruct (first_reminded db data) as [first|] eqn:F.
    + split; [reflexivity|]. split; [discriminate|].
      intros. eexists. reflexivity.
    + split; [reflexivity|]. split.
      * intros results H. injection H as <-. split; reflexivity.
      * intros reminder_data alert due p H Hin Hp Huser.
        injection H as <-. exfalso.
        now apply (first_reminded_none db data alert due p Hin Hp Huser).
  - split; [reflexivity|]. split; discriminate.
Qed.

(** ** Read and snoozed alerts and the reminder query *)

(** After a successful method call on the preference of a pair, under the
    unique constraint for the pair, every stored preference of the pair is
    the outcome of the method. *)
Lemma on_pair_rows (method : UserAlertPreference.t -> UserAlertPreference.t)
    (alert_id user_id : Z) (db db1 : DB) :
  one_preference alert_id user_id db ->
  (preference <- _get_or_create_user_preference alert_id user_id ;;
   match preference with
   | Some _ => on_preference alert_id user_id method ;;; ret true
   | None => ret false
   end) db = (Ok true, db1) ->
  forall p, In p (preferences db1) ->
            preference_for alert_id user_id p = true ->
            exists q, p = method q.
Proof.
  intros Hone Hcall. rewrite on_get_or_create in Hcall.
  destruct (find (preference_for alert_id user_id) (preferences db))
    as [p0|] eqn:F.
  - injection Hcall as <-. cbn [preferences with_preferences].
    rewrite (update_first_single _ _ _ Hone).
    intros p Hp Hpair. apply in_map_iff in Hp as (x & <- & Hx).
    destruct (preference_for alert_id user_id x) eqn:E; [now exists x|].
    rewrite E in Hpair. discriminate.
  - destruct (is_some (get_by_id alert_id db) && is_some (get_user user_id db));
      [|discriminate].
    injection Hcall as <-. cbn [preferences with_preferences].
    intros p Hp Hpair. apply in_app_or in Hp as [Hp|[<-|[]]].
    + rewrite (proj1 (find_none_iff _ _) F p Hp) in Hpair. discriminate.
    + eexists. reflexivity.
Qed.

(** X30. Under the unique constraint of the preference table for the
    pair: after a successful [mark_alert_as_read] the reminder query never
    returns a preference of the pair, at any instant; after a successful
    [snooze_alert_for_user] at [now] it returns none up to and including
    23:59:59 of the day of [now]. *)
Theorem read_or_snoozed_not_reminded (now now' : datetime)
    (alert_id user_id : Z) (db : DB) :
  one_preference alert_id user_id db ->
  (forall db1,
     mark_alert_as_read now alert_id user_id db = (Ok true, db1) ->
     forall data alert due p,
       get_alerts_requiring_reminders now' db1 = Ok data ->
       In (alert, due) data -> In p due ->
       preference_for alert_id user_id p = false) /\
  (forall db1,
     snooze_alert_for_user now alert_id user_id db = (Ok true, db1) ->
     now' <= UserAlertPreference.end_of_day now ->
     forall data alert due p,
       get_alerts_requiring_reminders now' db1 = Ok data ->
       In (alert, due) data -> In p due ->
       preference_for alert_id user_id p = false).
Proof.
  intros Hone. split.
  - intros db1 Hcall data alert due p Hdata Hin Hp.
    unfold get_alerts_requiring_reminders in Hdata.
    destruct (reminder_data_of_In _ _ _ _ _ _ Hdata Hin)
      as (_ & _ & h & _ & ->).
    apply filter_In in Hp as [Hp Hf].
    destruct (preference_for alert_id user_id p) eqn:Hpair; [|reflexivity].
    destruct (on_pair_rows _ _ _ _ _ Hone Hcall p Hp Hpair) as [q ->].
    unfold reminder_preference_filter in Hf. simpl in Hf.
    rewrite andb_false_r in Hf. discriminate Hf.
  - intros db1 Hcall Hnow' data alert due p Hdata Hin Hp.
    unfold get_alerts_requiring_reminders in Hdata.
    destruct (reminder_data_of_In _ _ _ _ _ _ Hdata Hin)
      as (_ & _ & h & _ & ->).
    apply filter_In in Hp as [Hp Hf].
    destruct (preference_for alert_id user_id p) eqn:Hpair; [|reflexivity].
    destruct (on_pair_rows _ _ _ _ _ Hone Hcall p Hp Hpair) as [q ->].
    unfold reminder_preference_filter in Hf.
    rewrite !andb_true_iff in Hf. destruct Hf as [[_ Hsnooze] _].
    cbn [UserAlertPreference.is_snoozed UserAlertPreference.snoozed_until
         UserAlertPreference.snooze_for_day negb orb] in Hsnooze.
    apply Z.ltb_lt in Hsnooze. lia.
Qed.

Lemma read_or_snoozed_not_reminded_witness :
  exists db1 alert due,
    snooze_alert_for_user (t0 + hour) 1 1 (organization_alert_db DeliveryType.IN_APP)
    = (Ok true, db1) /\
    get_alerts_requiring_reminders (t0 + 2 * hour) db1 = Ok [(alert, due)] /\
    map UserAlertPreference.user_id due = [2; 3] /\
    forall p, In p due -> preference_for 1 1 p = false.
Proof.
  assert (Hone : one_preference 1 1 (organization_alert_db DeliveryType.IN_APP))
    by (unfold one_preference; vm_compute; repeat constructor).
  destruct (snooze_alert_for_user (t0 + hour) 1 1
              (organization_alert_db DeliveryType.IN_APP)) as [[[|]|e] db1] eqn:Hcall;
    try (exfalso; vm_compute in Hcall; discriminate Hcall).
  assert (Hdb1 : db1 = snd (snooze_alert_for_user (t0 + hour) 1 1
                              (organization_alert_db DeliveryType.IN_APP)))
    by (now rewrite Hcall).
  destruct (get_alerts_requiring_reminders (t0 + 2 * hour) db1)
    as [[|[alert due] [|x r]]|e] eqn:E;
    try (exfalso; rewrite Hdb1 in E; vm_compute in E; discriminate E).
  exists db1, alert, due. split; [reflexivity|]. split; [exact E|].
  split.
  - assert (H : Ok [(alert, due)]
                = get_alerts_requiring_reminders (t0 + 2 * hour) db1)
      by (now rewrite E).
    clear - H Hdb1. rewrite Hdb1 in H. vm_compute in H.
    injection H as _ ->. reflexivity.
  - intros p Hp.
    apply (proj2 (read_or_snoozed_not_reminded (t0 + hour) (t0 + 2 * hour) 1 1
                    (organization_alert_db DeliveryType.IN_APP) Hone)
             db1 Hcall)
      with (data := [(alert, due)]) (alert := alert) (due := due);
      [vm_compute; discriminate | exact E | now left | exact Hp].
Defined.
